(** * Bus timetable extraction: bus_xml_extractor.py and xml_to_csv_extractor.py

    A shallow embedding of the two XML-to-record extractors of the
    repository, followed by the properties of the specification that
    concern them.

    The embedding:
    - [Py]  : the few Python built-ins the extractors rely on
              (truthiness, [str.strip], [int] on digit strings with its
              limit on the number of digits, exceptions,
              [round(x, 2)] on binary64 floats, insertion-ordered dicts);
    - [Re]  : the two regular expressions of the source, as matchers;
    - [ET]  : the part of [xml.etree.ElementTree] that is used
              (elements, [iter], [find] and [findall] on the three path
              shapes that occur in the source);
    - [Bus] : class [BusDataExtractor] of bus_xml_extractor.py
              (targeted path queries, state held in object attributes);
    - [Csv] : class [XMLExtractor] of xml_to_csv_extractor.py
              (full-tree tag-suffix scan, dynamic record dicts).

    The vocabulary of the statements: [DurationSpec] (the duration
    grammar), [Batch] (the results of a batch, file by file), [Link]
    (the two ends of a timing link), [StopIndex] (where a stop id comes
    from), [Sample] (the documents used as examples), [Dict] (a loop
    that fills a dict) and [Entry] (what the extractors file for an
    element, and what a file gives).

    Modelling conventions.  A Python [str] is a [string], character by
    character: an [ascii] stands for the code point of its number, so the
    strings of the model are the [str] values whose code points are all
    below 256.  On these, [\d] and the digits of [int] are [0-9] (no
    other decimal digit lies below 256), and the whitespace of
    [str.strip] is TAB to CR, FS to US, the space, U+0085 and U+00A0.
    [int] of a digit string raises [ValueError] beyond
    [sys.int_max_str_digits] digits, 4300 unless the interpreter is
    configured otherwise.  An evaluation that may raise returns a
    [Py.outcome].  Tags are compared as plain strings: ElementPath's
    wildcard tags are not modelled.  A dict with a fixed set of keys is a
    record, a dict whose keys depend on the input is a [gmap], and a dict
    whose insertion order is read is an association list.  [print] calls
    are left out: they do not touch the state. *)

From Stdlib Require Import ZArith Ascii String List Lia.
From Stdlib Require Import Floats Uint63.
From stdpp Require Import base strings list gmap.

Local Open Scope string_scope.
Local Open Scope Z_scope.

(** ** Python built-ins *)

Module Py.

(** A Python value as far as the extractors see one: [None], a [str]
    or an [int]. *)
Inductive value : Type :=
| VNone
| VStr (s : string)
| VInt (z : Z).

(** [bool(v)]. *)
Definition truthy (v : value) : bool :=
  match v with
  | VNone => false
  | VStr s => negb (String.eqb s "")
  | VInt z => negb (z =? 0)
  end.

(** [bool(d.get(k))]: a missing key gives [None]. *)
Definition truthy_opt (o : option value) : bool :=
  match o with
  | Some v => truthy v
  | None => false
  end.

Definition str_truthy (s : string) : bool := negb (String.eqb s "").

(** [isinstance(v, str)]. *)
Definition is_str (v : value) : bool :=
  match v with
  | VStr _ => true
  | _ => false
  end.

(** [c.isspace()] for a character below 256: TAB, LF, VT, FF, CR, the
    four separators FS, GS, RS, US, the space, NEL (U+0085) and the
    no-break space (U+00A0). *)
Definition isspace (c : ascii) : bool :=
  let n := nat_of_ascii c in
  ((9 <=? n)%nat && (n <=? 13)%nat) || ((28 <=? n)%nat && (n <=? 32)%nat)
  || (n =? 133)%nat || (n =? 160)%nat.

Fixpoint lstrip_chars (l : list ascii) : list ascii :=
  match l with
  | c :: l' => if isspace c then lstrip_chars l' else l
  | [] => []
  end.

(** [s.strip()]. *)
Definition strip (s : string) : string :=
  string_of_list_ascii
    (rev (lstrip_chars (rev (lstrip_chars (list_ascii_of_string s))))).

(** [c] is a decimal digit, for a character below 256: one of [0-9]. *)
Definition is_digit (c : ascii) : bool :=
  let n := nat_of_ascii c in (48 <=? n)%nat && (n <=? 57)%nat.

Definition digit_value (c : ascii) : Z := Z.of_nat (nat_of_ascii c) - 48.

(** The decimal value of a string of digits, from the accumulator
    [acc]. *)
Fixpoint int_digits (acc : Z) (ds : string) : Z :=
  match ds with
  | EmptyString => acc
  | String c ds' => int_digits (10 * acc + digit_value c) ds'
  end.

(** An exception, as far as the extractors can meet one once a file is
    parsed: the [ValueError] of [int]. *)
Inductive exn : Type :=
| ValueError.

(** The outcome of an evaluation: the value returned, or the exception
    raised. *)
Inductive outcome (A : Type) : Type :=
| Return (a : A)
| Raise (e : exn).

Arguments Return {A} a.
Arguments Raise {A} e.

(** Sequencing: an exception ends the evaluation. *)
Definition bind {A B : Type} (m : outcome A) (k : A -> outcome B) : outcome B :=
  match m with
  | Return a => k a
  | Raise e => Raise e
  end.

(** A [for] loop whose body may raise, on the state [a]: the state
    after the last round, or the exception of the first round that
    raises. *)
Fixpoint for_each {A B : Type} (body : A -> B -> outcome A) (l : list B) (a : A)
    : outcome A :=
  match l with
  | [] => Return a
  | b :: l' => bind (body a b) (for_each body l')
  end.

(** A [for] loop that appends to a list what each round yields. *)
Fixpoint gather {A B : Type} (f : A -> outcome (list B)) (l : list A)
    : outcome (list B) :=
  match l with
  | [] => Return []
  | a :: l' =>
      bind (f a) (fun bs => bind (gather f l') (fun rest => Return (bs ++ rest)%list))
  end.

(** [sys.int_max_str_digits] as CPython sets it by default. *)
Definition int_max_str_digits : nat := 4300.

(** [int(ds)] for a non-empty string of decimal digits: its decimal
    value, and [ValueError] when it has more than [int_max_str_digits]
    digits (leading zeros count). *)
Definition int_of_str (ds : string) : outcome Z :=
  if (String.length ds <=? int_max_str_digits)%nat
  then Return (int_digits 0 ds)
  else Raise ValueError.

(** [int(g or 0)] for a regex group [g] ([None] when the group did not
    take part in the match; a group that took part is never empty
    here). *)
Definition int_or_zero (g : option string) : outcome Z :=
  match g with
  | Some ds => if str_truthy ds then int_of_str ds else Return 0
  | None => Return 0
  end.

(** An insertion-ordered dict with keys [K]: [d[k] = v] keeps the
    position of a key that is already there and appends a new one. *)
Fixpoint dict_set {K V} `{EqDecision K} (k : K) (v : V)
    (d : list (K * V)) : list (K * V) :=
  match d with
  | [] => [(k, v)]
  | (k', v') :: d' =>
      if decide (k' = k) then (k, v) :: d' else (k', v') :: dict_set k v d'
  end.

Fixpoint dict_get {K V} `{EqDecision K} (k : K)
    (d : list (K * V)) : option V :=
  match d with
  | [] => None
  | (k', v') :: d' => if decide (k' = k) then Some v' else dict_get k d'
  end.

(** [x in l] for a list of strings. *)
Definition str_in (x : string) (l : list string) : bool :=
  existsb (String.eqb x) l.

(** [d.get(k, '')] on a dict of strings. *)
Definition get_str (d : gmap string string) (k : string) : string :=
  match d !! k with
  | Some v => v
  | None => ""
  end.

(** [float(n)] for a count [n] (exact below 2^53). *)
Definition float_of_nat (n : nat) : float :=
  PrimFloat.of_uint63 (Uint63.of_Z (Z.of_nat n)).

(** [a / b] on two counts: true division in binary64. *)
Definition true_div (a b : nat) : float :=
  PrimFloat.div (float_of_nat a) (float_of_nat b).

(** [num / den] rounded to the nearest integer, ties to even
    ([den] positive). *)
Definition round_half_even (num den : Z) : Z :=
  let q := num / den in
  let r := num mod den in
  if 2 * r <? den then q
  else if den <? 2 * r then q + 1
  else if Z.even q then q else q + 1.

(** [round(x, 2)] on a float: CPython rounds the exact binary value of
    [x] to two decimals (ties to even) and returns the double nearest
    to that decimal.  With [n] the rounded number of hundredths, the
    nearest double is [n / 100] in binary64 as long as [n] is below
    2^53, which covers percentages; a float with no fractional bits,
    a zero, an infinity and a NaN are returned as they are. *)
Definition round2 (x : float) : float :=
  match Prim2SF x with
  | S754_finite sgn m e =>
      if 0 <=? e then x
      else
        let n := round_half_even (100 * Z.pos m) (2 ^ (- e)) in
        let y := PrimFloat.div (PrimFloat.of_uint63 (Uint63.of_Z n))
                               (float_of_nat 100) in
        if sgn then PrimFloat.opp y else y
  | _ => x
  end.

End Py.

Notation "x <- m ;; k" := (Py.bind m (fun x => k))
  (at level 100, m at next level, right associativity).

(** ** The regular expressions of the source *)

Module Re.

(** The longest prefix of digits of [s], and what follows it. *)
Fixpoint span_digits (s : string) : string * string :=
  match s with
  | String c s' =>
      if Py.is_digit c
      then let (ds, r) := span_digits s' in (String c ds, r)
      else (EmptyString, s)
  | EmptyString => (EmptyString, EmptyString)
  end.

(** One optional component [(?:(\d+)X)?] tried at the head of [s]: the
    captured digits (if the component is there) and the text left.
    [\d+] is greedy and the letter [X] is no digit, so giving back
    digits never helps: either the whole run of digits is followed by
    [X], or the component matches the empty string. *)
Definition opt_component (X : ascii) (s : string) : option string * string :=
  match span_digits s with
  | (String d ds, String c rest) =>
      if Ascii.eqb c X then (Some (String d ds), rest) else (None, s)
  | _ => (None, s)
  end.

(** What [re.match(r'PT(?:(\d+)H)?(?:(\d+)M)?(?:(\d+)S)?', s)] gives:
    [None] when [s] does not start with [PT], otherwise the three groups
    and the text after the end of the match ([re.match] anchors the
    start of the string only). *)
Record duration_match : Type := DurationMatch {
  group1 : option string;
  group2 : option string;
  group3 : option string;
  unmatched : string
}.

Definition match_duration (s : string) : option duration_match :=
  match s with
  | String "P" (String "T" s0) =>
      let (g1, s1) := opt_component "H" s0 in
      let (g2, s2) := opt_component "M" s1 in
      let (g3, s3) := opt_component "S" s2 in
      Some (DurationMatch g1 g2 g3 s3)
  | _ => None
  end.

(** The index of the last ['}'] of [l] counted from [i], if any. *)
Fixpoint last_close (i : nat) (l : list ascii) : option nat :=
  match l with
  | [] => None
  | c :: l' =>
      match last_close (S i) l' with
      | Some j => Some j
      | None => if Ascii.eqb c "}" then Some i else None
      end
  end.

Fixpoint line_prefix (l : list ascii) : list ascii :=
  match l with
  | c :: l' => if Ascii.eqb c "010" then [] else c :: line_prefix l'
  | [] => []
  end.

(** [re.match(r'\{(.+)\}', tag)]: group 1, when the tag starts with
    ['{'] and a ['}'] follows at least one character later.  [.+] is
    greedy and stops at a line feed, so the group runs up to the last
    ['}'] of the first line. *)
Definition match_namespace (tag : string) : option string :=
  match tag with
  | String "{" body =>
      let line := line_prefix (list_ascii_of_string body) in
      match line with
      | [] => None
      | c :: line' =>
          match last_close 1 line' with
          | Some j => Some (string_of_list_ascii (take j line))
          | None => None
          end
      end
  | _ => None
  end.

End Re.

(** ** xml.etree.ElementTree *)

Module ET.

(** An element: its tag (['{uri}local'] when namespace-qualified), its
    attributes, its text ([None] when there is none) and its children in
    document order. *)
#[warnings="-register-all"]
Inductive Element : Type :=
| Elem (tag : string) (attrib : list (string * string))
       (text : option string) (children : list Element).

Definition tag (e : Element) : string :=
  match e with Elem t _ _ _ => t end.
Definition attrib (e : Element) : list (string * string) :=
  match e with Elem _ a _ _ => a end.
Definition text (e : Element) : option string :=
  match e with Elem _ _ x _ => x end.
Definition children (e : Element) : list Element :=
  match e with Elem _ _ _ cs => cs end.

(** [e.get(key, default)]. *)
Definition get (e : Element) (key default : string) : string :=
  match Py.dict_get key (attrib e) with
  | Some v => v
  | None => default
  end.

(** [list(e.iter())]: [e] and its descendants, in document order. *)
Fixpoint iter (e : Element) : list Element :=
  match e with
  | Elem _ _ _ cs => e :: flat_map iter cs
  end.

Definition has_tag (t : string) (e : Element) : bool :=
  String.eqb (tag e) t.

(** The three shapes of path the source hands to [find] and [findall]:
    [t], ['.//' + t] and ['.//' + a + '/' + b]. *)
Inductive path : Type :=
| Child (t : string)
| Descendant (t : string)
| DescendantChild (a b : string).

(** [e.findall(p)]: a child step selects the children with the tag, a
    descendant step selects from [iter] everything but the element it
    starts from. *)
Definition findall (e : Element) (p : path) : list Element :=
  match p with
  | Child t => List.filter (has_tag t) (children e)
  | Descendant t => List.filter (has_tag t) (flat_map iter (children e))
  | DescendantChild a b =>
      flat_map (fun d => List.filter (has_tag b) (children d))
               (List.filter (has_tag a) (flat_map iter (children e)))
  end.

(** [e.find(p)]: the first element of [e.findall(p)], or [None]. *)
Definition find (e : Element) (p : path) : option Element :=
  head (findall e p).

End ET.

(** ** bus_xml_extractor.py: class BusDataExtractor *)

Module Stop.
(** An entry of [stops_data]. *)
Record t : Type := Make {
  stop_id : string;
  stop_name : string;
  longitude : string;
  latitude : string
}.
End Stop.

Module Operator.
(** An entry of [operator_info]. *)
Record t : Type := Make {
  operator_id : string;
  national_code : string;
  operator_code : string;
  operator_name : string;
  licence_number : string
}.
End Operator.

Module Service.
(** The dict [service_info] once a Service element was read. *)
Record t : Type := Make {
  service_code : string;
  line_name : string;
  origin : string;
  destination : string;
  outbound_desc : string;
  inbound_desc : string;
  start_date : string;
  end_date : string;
  public_use : string
}.
End Service.

Module Segment.
(** A timing segment: the dict built by [extract_timing_links]. *)
Record t : Type := Make {
  source_file : string;
  section_id : string;
  timing_link_id : string;
  from_stop_id : string;
  from_stop_name : string;
  from_latitude : string;
  from_longitude : string;
  from_sequence : string;
  from_timing_status : string;
  from_activity : string;
  to_stop_id : string;
  to_stop_name : string;
  to_latitude : string;
  to_longitude : string;
  to_sequence : string;
  to_timing_status : string;
  runtime_raw : string;
  runtime_seconds : Z;
  route_link_ref : string;
  line_name : string;
  operator_name : string;
  service_origin : string;
  service_destination : string;
  service_code : string
}.

(** The dict itself, keys in the order of the literal in the source. *)
Definition items (seg : t) : list (string * Py.value) :=
  [ ("source_file", Py.VStr (source_file seg));
    ("section_id", Py.VStr (section_id seg));
    ("timing_link_id", Py.VStr (timing_link_id seg));
    ("from_stop_id", Py.VStr (from_stop_id seg));
    ("from_stop_name", Py.VStr (from_stop_name seg));
    ("from_latitude", Py.VStr (from_latitude seg));
    ("from_longitude", Py.VStr (from_longitude seg));
    ("from_sequence", Py.VStr (from_sequence seg));
    ("from_timing_status", Py.VStr (from_timing_status seg));
    ("from_activity", Py.VStr (from_activity seg));
    ("to_stop_id", Py.VStr (to_stop_id seg));
    ("to_stop_name", Py.VStr (to_stop_name seg));
    ("to_latitude", Py.VStr (to_latitude seg));
    ("to_longitude", Py.VStr (to_longitude seg));
    ("to_sequence", Py.VStr (to_sequence seg));
    ("to_timing_status", Py.VStr (to_timing_status seg));
    ("runtime_raw", Py.VStr (runtime_raw seg));
    ("runtime_seconds", Py.VInt (runtime_seconds seg));
    ("route_link_ref", Py.VStr (route_link_ref seg));
    ("line_name", Py.VStr (line_name seg));
    ("operator_name", Py.VStr (operator_name seg));
    ("service_origin", Py.VStr (service_origin seg));
    ("service_destination", Py.VStr (service_destination seg));
    ("service_code", Py.VStr (service_code seg)) ].

(** [seg.get(field)]. *)
Definition get (seg : t) (field : string) : option Py.value :=
  Py.dict_get field (items seg).
End Segment.

Module Pattern.
(** An entry of the dict returned by [extract_journey_patterns]. *)
Record t : Type := Make {
  destination_display : string;
  direction : string;
  route_ref : string;
  section_ref : string
}.
End Pattern.

(** The outcome of [ET.parse(path)]: an exception with its message
    [str(ex)], or the root of the tree. *)
Inductive parse_outcome : Type :=
| ParseError (msg : string)
| Parsed (root : ET.Element).

(** A file of the input folder: its name and what parsing it gives. *)
Record XmlFile : Type := MkFile {
  file_name : string;
  file_parse : parse_outcome
}.

Module Bus.

(** The attributes of a [BusDataExtractor] that its methods read or
    write.  [service_info] is [None] for the empty dict; [operator_info]
    keeps insertion order, which [extract_timing_links] relies on. *)
Record Extractor : Type := MkExtractor {
  stops_data : gmap string Stop.t;
  timing_segments : list Segment.t;
  service_info : option Service.t;
  operator_info : list (string * Operator.t);
  namespace : option string
}.

(** [__init__]. *)
Definition init : Extractor :=
  MkExtractor ∅ [] None [] None.

Definition set_namespace (self : Extractor) (ns : option string) : Extractor :=
  MkExtractor (stops_data self) (timing_segments self) (service_info self)
              (operator_info self) ns.

Definition set_stops_data (self : Extractor) (sd : gmap string Stop.t) : Extractor :=
  MkExtractor sd (timing_segments self) (service_info self)
              (operator_info self) (namespace self).

Definition set_operator_info (self : Extractor)
    (oi : list (string * Operator.t)) : Extractor :=
  MkExtractor (stops_data self) (timing_segments self) (service_info self)
              oi (namespace self).

Definition set_service_info (self : Extractor) (si : option Service.t) : Extractor :=
  MkExtractor (stops_data self) (timing_segments self) si
              (operator_info self) (namespace self).

Definition set_timing_segments (self : Extractor) (ts : list Segment.t) : Extractor :=
  MkExtractor (stops_data self) ts (service_info self)
              (operator_info self) (namespace self).

(** [find_namespace]: the returned context is [Some ns] for
    [{'ns': ns}] and [None] for [{}].  [self.namespace] is assigned in
    the first branch only. *)
Definition find_namespace (self : Extractor) (root_elem : ET.Element)
    : Extractor * option string :=
  match Re.match_namespace (ET.tag root_elem) with
  | Some ns => (set_namespace self (Some ns), Some ns)
  | None => (self, None)
  end.

(** [get_tag]. *)
Definition get_tag (self : Extractor) (name : string) : string :=
  match namespace self with
  | Some ns => if Py.str_truthy ns then "{" +:+ ns +:+ "}" +:+ name else name
  | None => name
  end.

(** [safe_get_text(element, path)] with the default [''] that every
    call of the source leaves in place. *)
Definition safe_get_text (self : Extractor) (element : option ET.Element)
    (p : ET.path) : string :=
  match element with
  | None => ""
  | Some e =>
      match ET.find e p with
      | Some found =>
          match ET.text found with
          | Some txt => if Py.str_truthy txt then Py.strip txt else ""
          | None => ""
          end
      | None => ""
      end
  end.

(** [parse_duration], the permissive variant: no value is [0].  First
    the [try] block on a string: the value it returns ([0] stands for
    leaving the block without a match, which ends in the [return 0] below
    it) or the exception of an [int]. *)
Definition try_parse_duration (iso_duration : string) : Py.outcome Z :=
  match Re.match_duration iso_duration with
  | Some m =>
      hours <- Py.int_or_zero (Re.group1 m) ;;
      minutes <- Py.int_or_zero (Re.group2 m) ;;
      seconds <- Py.int_or_zero (Re.group3 m) ;;
      Py.Return (hours * 3600 + minutes * 60 + seconds)
  | None => Py.Return 0
  end.

(** The method: the bare [except] turns every exception into [0], that
    of [int] and that of [re.match] on a truthy argument that is no
    string. *)
Definition parse_duration (iso_duration : Py.value) : Z :=
  if negb (Py.truthy iso_duration) then 0
  else
    match iso_duration with
    | Py.VStr s =>
        match try_parse_duration s with
        | Py.Return n => n
        | Py.Raise _ => 0
        end
    | _ => 0
    end.

(** [extract_stops]: the loop body, then the method. *)
Definition add_stop (self : Extractor) (sd : gmap string Stop.t)
    (stop : ET.Element) : gmap string Stop.t :=
  let stop_id := safe_get_text self (Some stop) (ET.Child (get_tag self "StopPointRef")) in
  if Py.str_truthy stop_id then
    <[stop_id := Stop.Make stop_id
        (safe_get_text self (Some stop) (ET.Child (get_tag self "CommonName")))
        (safe_get_text self (Some stop) (ET.Descendant (get_tag self "Longitude")))
        (safe_get_text self (Some stop) (ET.Descendant (get_tag self "Latitude")))]> sd
  else sd.

Definition extract_stops (self : Extractor) (tree_root : ET.Element)
    : Extractor * nat :=
  let stop_refs :=
    ET.findall tree_root (ET.Descendant (get_tag self "AnnotatedStopPointRef")) in
  let sd := fold_left (add_stop self) stop_refs (stops_data self) in
  (set_stops_data self sd, size sd).

(** [extract_operators]. *)
Definition add_operator (self : Extractor) (oi : list (string * Operator.t))
    (oper : ET.Element) : list (string * Operator.t) :=
  let op_id := ET.get oper "id" "unknown" in
  Py.dict_set op_id
    (Operator.Make op_id
       (safe_get_text self (Some oper) (ET.Child (get_tag self "NationalOperatorCode")))
       (safe_get_text self (Some oper) (ET.Child (get_tag self "OperatorCode")))
       (safe_get_text self (Some oper) (ET.Child (get_tag self "OperatorShortName")))
       (safe_get_text self (Some oper) (ET.Child (get_tag self "LicenceNumber"))))
    oi.

Definition extract_operators (self : Extractor) (tree_root : ET.Element)
    : Extractor * nat :=
  let operators := ET.findall tree_root (ET.Descendant (get_tag self "Operator")) in
  let oi := fold_left (add_operator self) operators (operator_info self) in
  (set_operator_info self oi, length oi).

(** [extract_services]: the loop leaves after its first round. *)
Definition read_service (self : Extractor) (svc : ET.Element) : Service.t :=
  Service.Make
    (safe_get_text self (Some svc) (ET.Child (get_tag self "ServiceCode")))
    (safe_get_text self (Some svc) (ET.Descendant (get_tag self "LineName")))
    (safe_get_text self (Some svc) (ET.Descendant (get_tag self "Origin")))
    (safe_get_text self (Some svc) (ET.Descendant (get_tag self "Destination")))
    (safe_get_text self (Some svc)
       (ET.DescendantChild (get_tag self "OutboundDescription") (get_tag self "Description")))
    (safe_get_text self (Some svc)
       (ET.DescendantChild (get_tag self "InboundDescription") (get_tag self "Description")))
    (safe_get_text self (Some svc) (ET.Descendant (get_tag self "StartDate")))
    (safe_get_text self (Some svc) (ET.Descendant (get_tag self "EndDate")))
    (safe_get_text self (Some svc) (ET.Child (get_tag self "PublicUse"))).

Definition extract_services (self : Extractor) (tree_root : ET.Element)
    : Extractor * nat :=
  let services := ET.findall tree_root (ET.Descendant (get_tag self "Service")) in
  let self' :=
    match services with
    | svc :: _ => set_service_info self (Some (read_service self svc))
    | [] => self
    end in
  (self', match service_info self' with Some _ => 1%nat | None => 0%nat end).

(** [info.get(key, '')] on [info = self.stops_data.get(stop, {})]. *)
Definition stop_field (f : Stop.t -> string) (info : option Stop.t) : string :=
  match info with
  | Some r => f r
  | None => ""
  end.

(** [self.service_info.get(key, '')]. *)
Definition service_field (f : Service.t -> string) (info : option Service.t) : string :=
  match info with
  | Some r => f r
  | None => ""
  end.

(** [list(self.operator_info.values())[0].get('operator_name', '')
    if self.operator_info else '']. *)
Definition first_operator_name (oi : list (string * Operator.t)) : string :=
  match oi with
  | (_, op) :: _ => Operator.operator_name op
  | [] => ""
  end.

(** The body of the inner loop of [extract_timing_links]: the segment
    appended for one timing link. *)
Definition make_segment (self : Extractor) (source_file section_id : string)
    (link : ET.Element) : Segment.t :=
  let link_id := ET.get link "id" "" in
  let from_elem := ET.find link (ET.Child (get_tag self "From")) in
  let to_elem := ET.find link (ET.Child (get_tag self "To")) in
  let from_stop := safe_get_text self from_elem (ET.Child (get_tag self "StopPointRef")) in
  let to_stop := safe_get_text self to_elem (ET.Child (get_tag self "StopPointRef")) in
  let from_seq :=
    match from_elem with Some e => ET.get e "SequenceNumber" "" | None => "" end in
  let to_seq :=
    match to_elem with Some e => ET.get e "SequenceNumber" "" | None => "" end in
  let from_timing := safe_get_text self from_elem (ET.Child (get_tag self "TimingStatus")) in
  let to_timing := safe_get_text self to_elem (ET.Child (get_tag self "TimingStatus")) in
  let from_activity := safe_get_text self from_elem (ET.Child (get_tag self "Activity")) in
  let runtime_raw := safe_get_text self (Some link) (ET.Child (get_tag self "RunTime")) in
  let runtime_secs := parse_duration (Py.VStr runtime_raw) in
  let route_link_ref := safe_get_text self (Some link) (ET.Child (get_tag self "RouteLinkRef")) in
  let from_stop_info := stops_data self !! from_stop in
  let to_stop_info := stops_data self !! to_stop in
  Segment.Make source_file section_id link_id
    from_stop
    (stop_field Stop.stop_name from_stop_info)
    (stop_field Stop.latitude from_stop_info)
    (stop_field Stop.longitude from_stop_info)
    from_seq from_timing from_activity
    to_stop
    (stop_field Stop.stop_name to_stop_info)
    (stop_field Stop.latitude to_stop_info)
    (stop_field Stop.longitude to_stop_info)
    to_seq to_timing
    runtime_raw runtime_secs route_link_ref
    (service_field Service.line_name (service_info self))
    (first_operator_name (operator_info self))
    (service_field Service.origin (service_info self))
    (service_field Service.destination (service_info self))
    (service_field Service.service_code (service_info self)).

(** The timing links of one section, as the inner [findall] lists them. *)
Definition timing_links (self : Extractor) (section : ET.Element) : list ET.Element :=
  ET.findall section (ET.Child (get_tag self "JourneyPatternTimingLink")).

(** The sections of a document, as the outer [findall] lists them. *)
Definition jp_sections (self : Extractor) (tree_root : ET.Element) : list ET.Element :=
  ET.findall tree_root (ET.Descendant (get_tag self "JourneyPatternSection")).

(** [extract_timing_links]. *)
Definition extract_timing_links (self : Extractor) (tree_root : ET.Element)
    (source_file : string) : list Segment.t :=
  flat_map
    (fun section =>
       map (make_segment self source_file (ET.get section "id" ""))
           (timing_links self section))
    (jp_sections self tree_root).

(** The dict returned by [process_single_file]. *)
Record ExtractionResult : Type := MkResult {
  filename : string;
  stops_found : nat;
  operators_found : nat;
  services_found : nat;
  segments_found : nat;
  data : list Segment.t;
  status : string
}.

(** The three assignments that empty the per-document indexes. *)
Definition reset_indexes (self : Extractor) : Extractor :=
  set_service_info (set_operator_info (set_stops_data self ∅) []) None.

(** [process_single_file]: the [try] body when [ET.parse] returns a
    tree, the [except] branch when it raises. *)
Definition process_single_file (self : Extractor) (xml_path : XmlFile)
    : Extractor * ExtractionResult :=
  match file_parse xml_path with
  | Parsed root =>
      let (self1, _) := find_namespace self root in
      let self2 := reset_indexes self1 in
      let (self3, stops_count) := extract_stops self2 root in
      let (self4, ops_count) := extract_operators self3 root in
      let (self5, svc_count) := extract_services self4 root in
      let file_segments := extract_timing_links self5 root (file_name xml_path) in
      (self5,
       MkResult (file_name xml_path) stops_count ops_count svc_count
                (length file_segments) file_segments "success")
  | ParseError msg =>
      (self,
       MkResult (file_name xml_path) 0 0 0 0 [] ("error: " +:+ msg))
  end.

(** The dict [summary_stats]. *)
Record SummaryStats : Type := MkStats {
  total_files : nat;
  successful : nat;
  failed : nat;
  total_segments : nat;
  total_stops : nat
}.

(** The state of the loop of [process_all_files]: the extractor, the
    list [all_segments] and [summary_stats]. *)
Definition batch_state : Type := Extractor * list Segment.t * SummaryStats.

(** One round of that loop. *)
Definition batch_step (acc : batch_state) (xml_file : XmlFile) : batch_state :=
  let '(self, all_segments, stats) := acc in
  let (self', result) := process_single_file self xml_file in
  if String.eqb (status result) "success" then
    (self', (all_segments ++ data result)%list,
     MkStats (total_files stats) (S (successful stats)) (failed stats)
             (total_segments stats + segments_found result)%nat
             (total_stops stats + stops_found result)%nat)
  else
    (self', all_segments,
     MkStats (total_files stats) (successful stats) (S (failed stats))
             (total_segments stats) (total_stops stats)).

(** [process_all_files] on the files that the glob lists.  The result
    is [None] for the empty list [[]] returned when there is no file,
    and the summary otherwise. *)
Definition process_all_files (self : Extractor) (xml_files : list XmlFile)
    : Extractor * option SummaryStats :=
  match xml_files with
  | [] => (self, None)
  | _ :: _ =>
      let '(self', all_segments, stats) :=
        fold_left batch_step xml_files
                  (self, [], MkStats (length xml_files) 0 0 0 0) in
      (set_timing_segments self' all_segments, Some stats)
  end.

(** An entry of the quality report. *)
Record Metrics : Type := MkMetrics {
  populated : nat;
  completeness : float
}.

Definition key_fields : list string :=
  [ "from_stop_id"; "to_stop_id"; "from_stop_name"; "to_stop_name";
    "from_latitude"; "from_longitude"; "to_latitude"; "to_longitude";
    "runtime_seconds"; "line_name" ].

(** [sum(1 for seg in segs if seg.get(field))]. *)
Definition count_populated (segs : list Segment.t) (field : string) : nat :=
  length (List.filter (fun seg => Py.truthy_opt (Segment.get seg field)) segs).

(** The entry computed for one field in the loop of
    [calculate_data_quality]. *)
Definition field_metrics (segs : list Segment.t) (field : string) : Metrics :=
  let total_records := length segs in
  let populated := count_populated segs field in
  let completeness :=
    if (0 <? total_records)%nat
    then PrimFloat.mul (Py.true_div populated total_records) (Py.float_of_nat 100)
    else Py.float_of_nat 0 in
  MkMetrics populated (Py.round2 completeness).

(** [calculate_data_quality]: the report is a dict from field name to
    entry, empty when there is no segment. *)
Definition calculate_data_quality (self : Extractor) : list (string * Metrics) :=
  match timing_segments self with
  | [] => []
  | _ :: _ =>
      fold_left
        (fun quality_metrics field =>
           Py.dict_set field (field_metrics (timing_segments self) field)
                       quality_metrics)
        key_fields []
  end.

(** [extract_journey_patterns]: one round of the loop, then the method.
    The dict [patterns] is local and returned. *)
Definition add_pattern (self : Extractor) (patterns : list (string * Pattern.t))
    (jp : ET.Element) : list (string * Pattern.t) :=
  let jp_id := ET.get jp "id" "" in
  Py.dict_set jp_id
    (Pattern.Make
       (safe_get_text self (Some jp) (ET.Child (get_tag self "DestinationDisplay")))
       (safe_get_text self (Some jp) (ET.Child (get_tag self "Direction")))
       (safe_get_text self (Some jp) (ET.Child (get_tag self "RouteRef")))
       (safe_get_text self (Some jp)
          (ET.Child (get_tag self "JourneyPatternSectionRefs"))))
    patterns.

Definition extract_journey_patterns (self : Extractor) (tree_root : ET.Element)
    : list (string * Pattern.t) :=
  let jp_elems := ET.findall tree_root (ET.Descendant (get_tag self "JourneyPattern")) in
  fold_left (add_pattern self) jp_elems [].

(** [create_stops_csv].  The two dict literals built from a segment: *)
Definition from_row (seg : Segment.t) : Stop.t :=
  Stop.Make (Segment.from_stop_id seg) (Segment.from_stop_name seg)
            (Segment.from_longitude seg) (Segment.from_latitude seg).

Definition to_row (seg : Segment.t) : Stop.t :=
  Stop.Make (Segment.to_stop_id seg) (Segment.to_stop_name seg)
            (Segment.to_longitude seg) (Segment.to_latitude seg).

(** [if id and id not in all_stops: all_stops[id] = row]. *)
Definition add_unique (all_stops : list (string * Stop.t)) (id : string)
    (row : Stop.t) : list (string * Stop.t) :=
  if Py.str_truthy id
     && match Py.dict_get id all_stops with Some _ => false | None => true end
  then Py.dict_set id row all_stops
  else all_stops.

(** One round of the loop over the segments: the from end, then the to
    end. *)
Definition stops_step (all_stops : list (string * Stop.t)) (seg : Segment.t)
    : list (string * Stop.t) :=
  add_unique (add_unique all_stops (Segment.from_stop_id seg) (from_row seg))
             (Segment.to_stop_id seg) (to_row seg).

(** The dict [all_stops] when the loop ends. *)
Definition unique_stops (segs : list Segment.t) : list (string * Stop.t) :=
  fold_left stops_step segs [].

(** [create_stops_csv]: the rows handed to the writer, in the order of
    [all_stops.values()] ([None] when no file is written), and the value
    returned. *)
Definition create_stops_csv (self : Extractor) : option (list Stop.t) * nat :=
  let all_stops := unique_stops (timing_segments self) in
  match all_stops with
  | [] => (None, 0%nat)
  | _ :: _ => (Some (map snd all_stops), length all_stops)
  end.

End Bus.

(** ** xml_to_csv_extractor.py: class XMLExtractor *)

Module Csv.

(** A record of the output table: a dict whose keys are set as the
    elements that carry them are met. *)
Abbreviation record := (gmap string Py.value).

Fixpoint until_close (l : list ascii) : list ascii :=
  match l with
  | c :: l' => if Ascii.eqb c "}" then [] else c :: until_close l'
  | [] => []
  end.

(** [tag.split('}')[-1]]: what follows the last ['}'] of the tag, the
    whole tag when it has none. *)
Definition local_name (tag : string) : string :=
  string_of_list_ascii (rev (until_close (rev (list_ascii_of_string tag)))).

(** [parse_duration], the strict variant: no value is [None], and the
    exception of an [int] is not caught. *)
Definition parse_duration (duration_str : Py.value) : Py.outcome Py.value :=
  if negb (Py.truthy duration_str) || negb (Py.is_str duration_str)
  then Py.Return Py.VNone
  else
    match duration_str with
    | Py.VStr s =>
        match Re.match_duration s with
        | Some m =>
            hours <- Py.int_or_zero (Re.group1 m) ;;
            minutes <- Py.int_or_zero (Re.group2 m) ;;
            seconds <- Py.int_or_zero (Re.group3 m) ;;
            Py.Return (Py.VInt (hours * 3600 + minutes * 60 + seconds))
        | None => Py.Return Py.VNone
        end
    | _ => Py.Return Py.VNone
    end.

(** [get_text(element)] with its default [""]. *)
Definition get_text (element : ET.Element) : string :=
  match ET.text element with
  | Some txt => if Py.str_truthy txt then Py.strip txt else ""
  | None => ""
  end.

(** [extract_stops]: the loop over the children of a Location, the loop
    over the children of a stop (its state is [stop_id] and
    [stop_data]), the loop over all elements. *)
Definition location_step (stop_data : gmap string string)
    (loc_child : ET.Element) : gmap string string :=
  let loc_tag := local_name (ET.tag loc_child) in
  if String.eqb loc_tag "Latitude" then <["latitude" := get_text loc_child]> stop_data
  else if String.eqb loc_tag "Longitude" then <["longitude" := get_text loc_child]> stop_data
  else stop_data.

Definition stop_child_step (acc : string * gmap string string)
    (child : ET.Element) : string * gmap string string :=
  let (stop_id, stop_data) := acc in
  let child_tag := local_name (ET.tag child) in
  if Py.str_in child_tag ["StopPointRef"; "AtcoCode"] then
    let stop_id := get_text child in
    (stop_id, <["stop_id" := stop_id]> stop_data)
  else if String.eqb child_tag "CommonName" then
    (stop_id, <["stop_name" := get_text child]> stop_data)
  else if String.eqb child_tag "LocalityName" then
    (stop_id, <["locality" := get_text child]> stop_data)
  else if String.eqb child_tag "Location" then
    (stop_id, fold_left location_step (ET.children child) stop_data)
  else acc.

Definition is_stop_element (e : ET.Element) : bool :=
  Py.str_in (local_name (ET.tag e)) ["StopPoint"; "AnnotatedStopPointRef"].

(** [stop_id] and [stop_data] when the loop over the children ends. *)
Definition read_stop (stop : ET.Element) : string * gmap string string :=
  fold_left stop_child_step (ET.children stop) ("", ∅).

Definition stop_step (stops : gmap string (gmap string string))
    (stop : ET.Element) : gmap string (gmap string string) :=
  if is_stop_element stop then
    let (stop_id, stop_data) := read_stop stop in
    if Py.str_truthy stop_id then <[stop_id := stop_data]> stops else stops
  else stops.

Definition extract_stops (root : ET.Element) : gmap string (gmap string string) :=
  fold_left stop_step (ET.iter root) ∅.

(** One round of the loop of [_extract_stop_point]. *)
Definition stop_point_step (prefix : string)
    (stops : gmap string (gmap string string))
    (rec : record) (child : ET.Element) : record :=
  let child_tag := local_name (ET.tag child) in
  if String.eqb child_tag "StopPointRef" then
    let stop_id := get_text child in
    let rec := <[prefix +:+ "_stop_id" := Py.VStr stop_id]> rec in
    match stops !! stop_id with
    | Some stop_data =>
        <[prefix +:+ "_longitude" := Py.VStr (Py.get_str stop_data "longitude")]>
          (<[prefix +:+ "_latitude" := Py.VStr (Py.get_str stop_data "latitude")]>
             (<[prefix +:+ "_stop_name" := Py.VStr (Py.get_str stop_data "stop_name")]> rec))
    | None => rec
    end
  else if String.eqb child_tag "SequenceNumber" then
    <[prefix +:+ "_sequence" := Py.VStr (get_text child)]> rec
  else if String.eqb child_tag "TimingStatus" then
    <[prefix +:+ "_timing_status" := Py.VStr (get_text child)]> rec
  else if String.eqb child_tag "Activity" then
    <[prefix +:+ "_activity" := Py.VStr (get_text child)]> rec
  else rec.

(** [_extract_stop_point]: the record is updated in place in the source
    and handed back here. *)
Definition _extract_stop_point (element : ET.Element) (rec : record)
    (prefix : string) (stops : gmap string (gmap string string)) : record :=
  fold_left (stop_point_step prefix stops) (ET.children element) rec.

(** [extract_route_sections]: the loop over the children of a timing
    link, the record of a link, and the two outer loops.  The call of
    [parse_duration] may raise, which ends the method. *)
Definition link_step (stops : gmap string (gmap string string))
    (rec : record) (child : ET.Element) : Py.outcome record :=
  let child_tag := local_name (ET.tag child) in
  if String.eqb child_tag "From" then
    Py.Return (_extract_stop_point child rec "from" stops)
  else if String.eqb child_tag "To" then
    Py.Return (_extract_stop_point child rec "to" stops)
  else if String.eqb child_tag "RunTime" then
    let runtime_raw := get_text child in
    let rec := <["runtime_raw" := Py.VStr runtime_raw]> rec in
    runtime_seconds <- parse_duration (Py.VStr runtime_raw) ;;
    Py.Return (<["runtime_seconds" := runtime_seconds]> rec)
  else if String.eqb child_tag "RouteLinkRef" then
    Py.Return (<["route_link_ref" := Py.VStr (get_text child)]> rec)
  else Py.Return rec.

Definition new_record (filename section_id : string) (link : ET.Element) : record :=
  <["timing_link_id" := Py.VStr (ET.get link "id" "")]>
    (<["section_id" := Py.VStr section_id]>
       (<["source_file" := Py.VStr filename]> ∅)).

Definition link_record (stops : gmap string (gmap string string))
    (filename section_id : string) (link : ET.Element) : Py.outcome record :=
  Py.for_each (link_step stops) (ET.children link)
              (new_record filename section_id link).

(** [record.get('from_stop_id') or record.get('to_stop_id')]. *)
Definition has_stop (rec : record) : bool :=
  Py.truthy_opt (rec !! "from_stop_id") || Py.truthy_opt (rec !! "to_stop_id").

(** What one child of a section adds to [records]. *)
Definition link_records (stops : gmap string (gmap string string))
    (filename section_id : string) (link : ET.Element) : Py.outcome (list record) :=
  if String.eqb (local_name (ET.tag link)) "JourneyPatternTimingLink" then
    rec <- link_record stops filename section_id link ;;
    Py.Return (if has_stop rec then [rec] else [])
  else Py.Return [].

Definition section_records (stops : gmap string (gmap string string))
    (filename : string) (section : ET.Element) : Py.outcome (list record) :=
  if String.eqb (local_name (ET.tag section)) "JourneyPatternSection" then
    Py.gather (link_records stops filename (ET.get section "id" ""))
              (ET.children section)
  else Py.Return [].

Definition extract_route_sections (root : ET.Element)
    (stops : gmap string (gmap string string)) (filename : string)
    : Py.outcome (list record) :=
  Py.gather (section_records stops filename) (ET.iter root).

(** [extract_services]: one round of the loop over all elements. *)
Definition service_step (service_data : gmap string string)
    (elem : ET.Element) : gmap string string :=
  let tag := local_name (ET.tag elem) in
  if String.eqb tag "LineName" then
    <["line_name" := get_text elem]> service_data
  else if String.eqb tag "ServiceCode" then
    <["service_code" := get_text elem]> service_data
  else if String.eqb tag "Origin"
          && negb (bool_decide (is_Some (service_data !! "service_origin"))) then
    <["service_origin" := get_text elem]> service_data
  else if String.eqb tag "Destination"
          && negb (bool_decide (is_Some (service_data !! "service_destination"))) then
    <["service_destination" := get_text elem]> service_data
  else service_data.

Definition extract_services (root : ET.Element) : gmap string string :=
  fold_left service_step (ET.iter root) ∅.

(** [extract_operators]: the first element with one of the two tags
    decides. *)
Definition is_operator_name (elem : ET.Element) : bool :=
  Py.str_in (local_name (ET.tag elem)) ["OperatorShortName"; "TradingName"].

Definition extract_operators (root : ET.Element) : gmap string string :=
  match List.filter is_operator_name (ET.iter root) with
  | elem :: _ => {["operator_name" := get_text elem]}
  | [] => ∅
  end.

(** The [record.update] of [process_file]. *)
Definition enrich (service_data operator_data : gmap string string)
    (rec : record) : record :=
  <["service_code" := Py.VStr (Py.get_str service_data "service_code")]>
    (<["service_destination" := Py.VStr (Py.get_str service_data "service_destination")]>
       (<["service_origin" := Py.VStr (Py.get_str service_data "service_origin")]>
          (<["operator_name" := Py.VStr (Py.get_str operator_data "operator_name")]>
             (<["line_name" := Py.VStr (Py.get_str service_data "line_name")]> rec)))).

(** The attributes of an [XMLExtractor] that are read again.  The
    bookkeeping attributes [all_fields] and [field_counts] are written
    by [process_file] and read nowhere; they are left out. *)
Record XMLExtractor : Type := MkExtractor {
  all_records : list record;
  files_processed : nat
}.

Definition init : XMLExtractor := MkExtractor [] 0.

(** The body of the [try] of [process_file] once the file is parsed,
    up to the end of the enrichment loop: the records of the document,
    enriched. *)
Definition file_records (root : ET.Element) (filename : string)
    : Py.outcome (list record) :=
  let stops := extract_stops root in
  let service_data := extract_services root in
  let operator_data := extract_operators root in
  records <- extract_route_sections root stops filename ;;
  Py.Return (map (enrich service_data operator_data) records).

(** [process_file]: both [except] branches print and return [0].  The
    first takes the exception of [ET.parse]; the second takes the one
    raised while the records are extracted, before anything is written
    to the object. *)
Definition process_file (self : XMLExtractor) (filepath : XmlFile)
    : XMLExtractor * nat :=
  match file_parse filepath with
  | Parsed root =>
      match file_records root (file_name filepath) with
      | Py.Return records =>
          (MkExtractor (all_records self ++ records)%list
                       (S (files_processed self)),
           length records)
      | Py.Raise _ => (self, 0%nat)
      end
  | ParseError _ => (self, 0%nat)
  end.

(** The loop of [run] over the files found: every file is handed to
    [process_file] and the value it returns is dropped. *)
Definition process_files (self : XMLExtractor) (xml_files : list XmlFile)
    : XMLExtractor :=
  fold_left (fun self filepath => fst (process_file self filepath)) xml_files self.

(** The column order of [run]. *)
Definition priority_cols : list string :=
  [ "source_file"; "line_name"; "operator_name";
    "from_stop_id"; "from_stop_name"; "from_latitude"; "from_longitude";
    "to_stop_id"; "to_stop_name"; "to_latitude"; "to_longitude";
    "runtime_raw"; "runtime_seconds"; "from_sequence"; "to_sequence";
    "from_timing_status"; "to_timing_status"; "from_activity";
    "service_origin"; "service_destination"; "service_code";
    "section_id"; "timing_link_id"; "route_link_ref" ].

(** [other_cols] and [final_cols] of [run], from the columns of the data
    frame. *)
Definition other_cols (columns : list string) : list string :=
  List.filter (fun c => negb (Py.str_in c priority_cols)) columns.

Definition final_cols (columns : list string) : list string :=
  (List.filter (fun c => Py.str_in c columns) priority_cols ++ other_cols columns)%list.

End Csv.

(** ** The duration grammar in the words of the specification *)

Module DurationSpec.

(** A non-empty string of decimal digits: an [<int>] of the grammar. *)
Definition digits (ds : string) : bool :=
  Py.str_truthy ds && forallb Py.is_digit (list_ascii_of_string ds).

(** An optional component: its digits when it is there. *)
Definition well_formed (g : option string) : bool :=
  match g with
  | Some ds => digits ds
  | None => true
  end.

(** The text of an optional component with unit letter [X], followed by
    [rest]. *)
Definition component (g : option string) (X : ascii) (rest : string) : string :=
  match g with
  | Some ds => ds +:+ String X rest
  | None => rest
  end.

(** [PT], then the hour, minute and second components in that order,
    each optional, then [rest]. *)
Definition duration_then (h m s : option string) (rest : string) : string :=
  "PT" +:+ component h "H" (component m "M" (component s "S" rest)).

(** A string of the grammar, with nothing after it. *)
Definition duration_text (h m s : option string) : string :=
  duration_then h m s "".

(** The value of an optional component: the decimal value of its
    digits, 0 when it is not there. *)
Definition component_value (g : option string) : Z :=
  match g with
  | Some ds => Py.int_digits 0 ds
  | None => 0
  end.

(** The component has no more digits than [int] converts. *)
Definition within_limit (g : option string) : bool :=
  match g with
  | Some ds => (String.length ds <=? Py.int_max_str_digits)%nat
  | None => true
  end.

(** So have all three components. *)
Definition convertible (h m s : option string) : bool :=
  within_limit h && within_limit m && within_limit s.

(** hours x 3600 + minutes x 60 + seconds. *)
Definition total_seconds (h m s : option string) : Z :=
  component_value h * 3600 + component_value m * 60 + component_value s.

(** A string of [n] digits 1. *)
Definition ones (n : nat) : string :=
  string_of_list_ascii (repeat "1"%char n).

(** The string starts with the two letters [PT]. *)
Definition starts_with_PT (s : string) : bool :=
  match s with
  | String "P" (String "T" _) => true
  | _ => false
  end.

(** The string does not start with a digit. *)
Definition no_digit_ahead (s : string) : bool :=
  match s with
  | String c _ => negb (Py.is_digit c)
  | EmptyString => true
  end.

End DurationSpec.

(** ** The batch, document by document *)

Module Batch.

(** The state in which the three extraction steps of a document run. *)
Definition document_context (self : Bus.Extractor) (root : ET.Element) : Bus.Extractor :=
  Bus.reset_indexes (fst (Bus.find_namespace self root)).

(** The extractor after the files were processed in order. *)
Fixpoint final_extractor (self : Bus.Extractor) (files : list XmlFile) : Bus.Extractor :=
  match files with
  | [] => self
  | f :: fs => final_extractor (fst (Bus.process_single_file self f)) fs
  end.

(** The result of each file, each processed in the state that the files
    before it left. *)
Fixpoint results (self : Bus.Extractor) (files : list XmlFile)
    : list Bus.ExtractionResult :=
  match files with
  | [] => []
  | f :: fs =>
      snd (Bus.process_single_file self f)
      :: results (fst (Bus.process_single_file self f)) fs
  end.

(** [result['status'] == 'success']. *)
Definition succeeded (r : Bus.ExtractionResult) : bool :=
  String.eqb (Bus.status r) "success".

(** The results of the successful documents, in file-processing order. *)
Definition successes (self : Bus.Extractor) (files : list XmlFile)
    : list Bus.ExtractionResult :=
  List.filter succeeded (results self files).

(** The error result of a file named [name] whose parsing raised with
    message [msg]. *)
Definition error_result (name msg : string) : Bus.ExtractionResult :=
  Bus.MkResult name 0 0 0 0 [] ("error: " +:+ msg).

(** What the specification asks of the result of one file. *)
Definition result_of_file (f : XmlFile) (r : Bus.ExtractionResult) : Prop :=
  match file_parse f with
  | ParseError msg => r = error_result (file_name f) msg
  | Parsed _ =>
      Bus.status r = "success" /\ Bus.filename r = file_name f
      /\ Bus.segments_found r = length (Bus.data r)
  end.

End Batch.

(** ** What a timing link says about its two ends *)

Module Link.

(** The keys that [_extract_stop_point] may write for a prefix. *)
Definition keys_of (prefix : string) : list string :=
  [ prefix +:+ "_stop_id"; prefix +:+ "_stop_name"; prefix +:+ "_latitude";
    prefix +:+ "_longitude"; prefix +:+ "_sequence";
    prefix +:+ "_timing_status"; prefix +:+ "_activity" ].

(** [e] has the local name [name]. *)
Definition named (name : string) (e : ET.Element) : bool :=
  String.eqb (Csv.local_name (ET.tag e)) name.

(** The stop references of a From or To element: the texts of its
    StopPointRef children, in document order. *)
Definition refs_of (side : ET.Element) : list string :=
  map Csv.get_text (List.filter (named "StopPointRef") (ET.children side)).

(** The stop references of the side [name] ("From" or "To") of a link. *)
Definition stop_refs (name : string) (link : ET.Element) : list string :=
  flat_map refs_of (List.filter (named name) (ET.children link)).

(** The four joined entries of a record for a prefix: stop id, stop
    name, latitude, longitude ([None] for a key that is not set). *)
Record join_view : Type := View {
  v_id : option Py.value;
  v_name : option Py.value;
  v_latitude : option Py.value;
  v_longitude : option Py.value
}.

Definition view (prefix : string) (rec : gmap string Py.value) : join_view :=
  View (rec !! (prefix +:+ "_stop_id")) (rec !! (prefix +:+ "_stop_name"))
       (rec !! (prefix +:+ "_latitude")) (rec !! (prefix +:+ "_longitude")).

(** The effect of one stop reference on the joined entries. *)
Definition apply_ref (stops : gmap string (gmap string string))
    (v : join_view) (sid : string) : join_view :=
  match stops !! sid with
  | Some stop_data =>
      View (Some (Py.VStr sid))
           (Some (Py.VStr (Py.get_str stop_data "stop_name")))
           (Some (Py.VStr (Py.get_str stop_data "latitude")))
           (Some (Py.VStr (Py.get_str stop_data "longitude")))
  | None => View (Some (Py.VStr sid)) (v_name v) (v_latitude v) (v_longitude v)
  end.

(** A side of a link is resolved when its last stop reference is not
    empty. *)
Definition resolved (name : string) (link : ET.Element) : bool :=
  Py.str_truthy (default "" (last (stop_refs name link))).

(** The column of the output table under [key]: the entry of each
    record, [None] where the key is not set. *)
Definition column (key : string) (records : list (gmap string Py.value))
    : list (option Py.value) :=
  map (fun rec => rec !! key) records.

(** The joined entries of a record on which nothing was joined. *)
Definition unset : join_view := View None None None None.

End Link.

(** ** Where the id of a stop comes from *)

Module StopIndex.

(** A child that carries a stop id: a StopPointRef or an AtcoCode. *)
Definition is_id_child (c : ET.Element) : bool :=
  Py.str_in (Csv.local_name (ET.tag c)) ["StopPointRef"; "AtcoCode"].

(** The texts of the id children of a stop, in document order. *)
Definition id_texts (stop : ET.Element) : list string :=
  map Csv.get_text (List.filter is_id_child (ET.children stop)).

(** The id that the specification words describe: the first text that
    is not empty. *)
Definition first_non_empty (stop : ET.Element) : string :=
  default "" (head (List.filter Py.str_truthy (id_texts stop))).

(** The last text, empty or not. *)
Definition last_text (stop : ET.Element) : string :=
  default "" (last (id_texts stop)).

End StopIndex.

(** ** Sample documents *)

Module Sample.

Definition leaf (tag text : string) : ET.Element :=
  ET.Elem tag [] (Some text) [].

Definition node (tag : string) (children : list ET.Element) : ET.Element :=
  ET.Elem tag [] None children.

Definition uri : string := "http://www.transxchange.org.uk/".

(** A tag name in the namespace [uri], and a bare one. *)
Definition qualified (name : string) : string := "{" +:+ uri +:+ "}" +:+ name.
Definition bare (name : string) : string := name.

Definition stop_point (q : string -> string) (id name lon lat : string) : ET.Element :=
  node (q "AnnotatedStopPointRef")
    [ leaf (q "StopPointRef") id; leaf (q "CommonName") name;
      node (q "Location") [ leaf (q "Longitude") lon; leaf (q "Latitude") lat ] ].

Definition service (q : string -> string) (code line origin dest : string) : ET.Element :=
  node (q "Service")
    [ leaf (q "ServiceCode") code;
      node (q "Lines") [ node (q "Line") [ leaf (q "LineName") line ] ];
      node (q "StandardService")
        [ leaf (q "Origin") origin; leaf (q "Destination") dest ] ].

Definition stop_usage (q : string -> string) (side seq stop : string) : ET.Element :=
  ET.Elem (q side) [("SequenceNumber", seq)] None
    [ leaf (q "StopPointRef") stop; leaf (q "TimingStatus") "PTP" ].

Definition timing_link (q : string -> string) (id : string)
    (ends : list ET.Element) (runtime : string) : ET.Element :=
  ET.Elem (q "JourneyPatternTimingLink") [("id", id)] None
    (ends ++ [ leaf (q "RouteLinkRef") "RL1"; leaf (q "RunTime") runtime ])%list.

Definition section (q : string -> string) (id : string)
    (links : list ET.Element) : ET.Element :=
  ET.Elem (q "JourneyPatternSection") [("id", id)] None links.

(** A document with the given stops, services and sections. *)
Definition transxchange (q : string -> string)
    (stops services sections : list ET.Element) : ET.Element :=
  node (q "TransXChange")
    [ node (q "StopPoints") stops;
      node (q "Operators")
        [ ET.Elem (q "Operator") [("id", "OP1")] None
            [ leaf (q "OperatorShortName") "Diamond" ] ];
      node (q "Services") services;
      node (q "JourneyPatternSections") sections ].

(** The end-to-end scenario of the specification: one service, two
    stops, one section with one timing link from S1 to S2. *)
Definition scenario (q : string -> string) : ET.Element :=
  transxchange q
    [ stop_point q "S1" "First Street" "-1.0" "51.0";
      stop_point q "S2" "Second Street" "-1.01" "51.01" ]
    [ service q "SVC1" "DIAM_14" "Alpha" "Omega" ]
    [ section q "JPS1"
        [ timing_link q "L1"
            [ stop_usage q "From" "1" "S1"; stop_usage q "To" "2" "S2" ]
            "PT1M30S" ] ].

(** A timing link that leaves from S9, a stop that no stop point
    lists, and the scenario with this link in place of its own. *)
Definition unlisted_link (q : string -> string) : ET.Element :=
  timing_link q "L1"
    [ stop_usage q "From" "1" "S9"; stop_usage q "To" "2" "S2" ] "PT1M30S".

Definition unlisted_stop (q : string -> string) : ET.Element :=
  transxchange q
    [ stop_point q "S1" "First Street" "-1.0" "51.0";
      stop_point q "S2" "Second Street" "-1.01" "51.01" ]
    [ service q "SVC1" "DIAM_14" "Alpha" "Omega" ]
    [ section q "JPS1" [ unlisted_link q ] ].

(** A timing link with neither end, a timing link with a To end only,
    and the scenario with these two links in place of its own. *)
Definition endless_link (q : string -> string) : ET.Element :=
  timing_link q "L0" [] "PT10S".

Definition arrival_link (q : string -> string) : ET.Element :=
  timing_link q "L2" [ stop_usage q "To" "2" "S2" ] "PT20S".

Definition open_ended (q : string -> string) : ET.Element :=
  transxchange q
    [ stop_point q "S1" "First Street" "-1.0" "51.0";
      stop_point q "S2" "Second Street" "-1.01" "51.01" ]
    [ service q "SVC1" "DIAM_14" "Alpha" "Omega" ]
    [ section q "JPS1" [ endless_link q; arrival_link q ] ].

(** The scenario with a second service after the first. *)
Definition two_services (q : string -> string) : ET.Element :=
  transxchange q
    [ stop_point q "S1" "First Street" "-1.0" "51.0";
      stop_point q "S2" "Second Street" "-1.01" "51.01" ]
    [ service q "SVC1" "DIAM_14" "Alpha" "Omega";
      service q "SVC2" "X99" "Gamma" "Delta" ]
    [ section q "JPS1"
        [ timing_link q "L1"
            [ stop_usage q "From" "1" "S1"; stop_usage q "To" "2" "S2" ]
            "PT1M30S" ] ].

(** Stop points with two id children: one where both are filled in, one
    where the second is empty. *)
Definition two_ids : ET.Element :=
  node "StopPoint"
    [ leaf "StopPointRef" "A"; leaf "AtcoCode" "B"; leaf "CommonName" "Both" ].

Definition second_id_empty : ET.Element :=
  node "StopPoint"
    [ leaf "StopPointRef" "C"; leaf "AtcoCode" ""; leaf "CommonName" "One" ].

Definition stop_points : ET.Element :=
  node "StopPoints" [ two_ids; second_id_empty ].

(** A segment with the given from-side stop name and every other text
    field set to ["x"], and ten segments of which seven have the name. *)
Definition named_segment (name : string) : Segment.t :=
  Segment.Make "a.xml" "x" "x" "x" name "x" "x" "x" "x" "x"
               "x" "x" "x" "x" "x" "x" "PT5S" 5 "x" "x" "x" "x" "x" "x".

Definition seven_of_ten : list Segment.t :=
  (replicate 7 (named_segment "Stop") ++ replicate 3 (named_segment ""))%list.

(** A document with two operators under one id and one timing link. *)
Definition two_operators : ET.Element :=
  node "TransXChange"
    [ node "Operators"
        [ ET.Elem "Operator" [("id", "OP1")] None
            [ leaf "OperatorShortName" "Diamond" ];
          ET.Elem "Operator" [("id", "OP2")] None
            [ leaf "OperatorShortName" "Green" ];
          ET.Elem "Operator" [("id", "OP1")] None
            [ leaf "OperatorShortName" "Diamond West" ] ];
      node "JourneyPatternSections"
        [ section bare "JPS1"
            [ timing_link bare "L1"
                [ stop_usage bare "From" "1" "S1"; stop_usage bare "To" "2" "S2" ]
                "PT1M30S" ] ] ].

(** A timing link whose From element refers to S1 and then to S9, a
    stop that no stop point lists. *)
Definition double_ref_link : ET.Element :=
  timing_link bare "L3"
    [ ET.Elem "From" [] None [ leaf "StopPointRef" "S1"; leaf "StopPointRef" "S9" ];
      stop_usage bare "To" "2" "S2" ]
    "PT40S".

(** A stop index that knows S1 only. *)
Definition high_street_index : gmap string (gmap string string) :=
  <["S1" := <["stop_name" := "High Street"]> ∅]> ∅.

(** A timing link from S1 to S2 whose run time has a seconds component
    of 4301 digits, and the scenario with this link after its own. *)
Definition overlong_link (q : string -> string) : ET.Element :=
  timing_link q "L9"
    [ stop_usage q "From" "1" "S1"; stop_usage q "To" "2" "S2" ]
    ("PT" +:+ DurationSpec.ones 4301 +:+ "S").

Definition overlong_scenario (q : string -> string) : ET.Element :=
  transxchange q
    [ stop_point q "S1" "First Street" "-1.0" "51.0";
      stop_point q "S2" "Second Street" "-1.01" "51.01" ]
    [ service q "SVC1" "DIAM_14" "Alpha" "Omega" ]
    [ section q "JPS1"
        [ timing_link q "L1"
            [ stop_usage q "From" "1" "S1"; stop_usage q "To" "2" "S2" ]
            "PT1M30S";
          overlong_link q ] ].

(** A text of whitespace only: a no-break space (U+00A0), a NEL
    (U+0085) and a space. *)
Definition blank : string :=
  String (ascii_of_nat 160) (String (ascii_of_nat 133) " ").

Definition qualified_file : XmlFile :=
  MkFile "qualified.xml" (Parsed (scenario qualified)).

Definition overlong_file : XmlFile :=
  MkFile "long.xml" (Parsed (overlong_scenario bare)).

Definition bare_file : XmlFile :=
  MkFile "bare.xml" (Parsed (scenario bare)).

End Sample.

(** ** Vocabulary for the rest of the code *)

Module Dict.

(** The loop [for e in elems: d[key(e)] = val(e)] on a dict [d]. *)
Definition loop {E V : Type} (key : E -> string) (val : E -> V)
    (elems : list E) (d : list (string * V)) : list (string * V) :=
  fold_left (fun d e => Py.dict_set (key e) (val e) d) elems d.

End Dict.

Module Entry.

(** The record that [extract_stops] of [BusDataExtractor] files for an
    AnnotatedStopPointRef element, and the id it files it under. *)
Definition stop_id_of (self : Bus.Extractor) (stop : ET.Element) : string :=
  Bus.safe_get_text self (Some stop) (ET.Child (Bus.get_tag self "StopPointRef")).

Definition stop_of (self : Bus.Extractor) (stop : ET.Element) : Stop.t :=
  Stop.Make (stop_id_of self stop)
    (Bus.safe_get_text self (Some stop) (ET.Child (Bus.get_tag self "CommonName")))
    (Bus.safe_get_text self (Some stop) (ET.Descendant (Bus.get_tag self "Longitude")))
    (Bus.safe_get_text self (Some stop) (ET.Descendant (Bus.get_tag self "Latitude"))).

(** The record that [extract_operators] files for an Operator element,
    and the id it files it under. *)
Definition operator_id_of (oper : ET.Element) : string :=
  ET.get oper "id" "unknown".

Definition operator_of (self : Bus.Extractor) (oper : ET.Element) : Operator.t :=
  Operator.Make (operator_id_of oper)
    (Bus.safe_get_text self (Some oper) (ET.Child (Bus.get_tag self "NationalOperatorCode")))
    (Bus.safe_get_text self (Some oper) (ET.Child (Bus.get_tag self "OperatorCode")))
    (Bus.safe_get_text self (Some oper) (ET.Child (Bus.get_tag self "OperatorShortName")))
    (Bus.safe_get_text self (Some oper) (ET.Child (Bus.get_tag self "LicenceNumber"))).

(** The record that [extract_journey_patterns] files for a
    JourneyPattern element, and the id it files it under. *)
Definition pattern_id_of (jp : ET.Element) : string :=
  ET.get jp "id" "".

Definition pattern_of (self : Bus.Extractor) (jp : ET.Element) : Pattern.t :=
  Pattern.Make
    (Bus.safe_get_text self (Some jp) (ET.Child (Bus.get_tag self "DestinationDisplay")))
    (Bus.safe_get_text self (Some jp) (ET.Child (Bus.get_tag self "Direction")))
    (Bus.safe_get_text self (Some jp) (ET.Child (Bus.get_tag self "RouteRef")))
    (Bus.safe_get_text self (Some jp)
       (ET.Child (Bus.get_tag self "JourneyPatternSectionRefs"))).

(** The stop ends of a list of segments in the order in which
    [create_stops_csv] meets them: the from end of a segment, then its to
    end. *)
Definition ends (segs : list Segment.t) : list (string * Stop.t) :=
  flat_map
    (fun seg => [ (Segment.from_stop_id seg, Bus.from_row seg);
                  (Segment.to_stop_id seg, Bus.to_row seg) ])
    segs.

(** A character list without whitespace at either end. *)
Definition trimmed (s : string) : Prop :=
  match list_ascii_of_string s with
  | [] => True
  | c :: l => Py.isspace c = false /\ Py.isspace (List.last l c) = false
  end.

(** The character [c] does not occur in [s]. *)
Definition free_of (c : ascii) (s : string) : bool :=
  forallb (fun x => negb (Ascii.eqb x c)) (list_ascii_of_string s).

(** The namespace of a root tag, when it has one: what [find_namespace]
    assigns. *)
Definition namespace_after (previous : option string) (f : XmlFile) : option string :=
  match file_parse f with
  | Parsed root =>
      match Re.match_namespace (ET.tag root) with
      | Some ns => Some ns
      | None => previous
      end
  | ParseError _ => previous
  end.

(** The index entry of the last of the references [refs] that the stop
    index knows. *)
Definition joined (stops : gmap string (gmap string string)) (refs : list string)
    : option (gmap string string) :=
  last (omap (fun sid => stops !! sid) refs).

(** The text of the last child of [link] with the local name [name], as
    a Python string. *)
Definition last_child_text (name : string) (link : ET.Element) : option string :=
  Csv.get_text <$> last (List.filter (Link.named name) (ET.children link)).

(** The value of an evaluation that returns. *)
Definition returned {A : Type} (m : Py.outcome A) : option A :=
  match m with
  | Py.Return a => Some a
  | Py.Raise _ => None
  end.

(** Whether a file parses. *)
Definition parses (f : XmlFile) : bool :=
  match file_parse f with
  | Parsed _ => true
  | ParseError _ => false
  end.

(** The timing links that [XMLExtractor] visits in a document: the
    children named JourneyPatternTimingLink of the elements named
    JourneyPatternSection, in document order. *)
Definition visited_links (root : ET.Element) : list ET.Element :=
  flat_map (fun section =>
              List.filter (Link.named "JourneyPatternTimingLink") (ET.children section))
           (List.filter (Link.named "JourneyPatternSection") (ET.iter root)).

(** A string on which the strict [parse_duration] raises: the pattern
    matches and one of the captured groups has more digits than [int]
    converts. *)
Definition overflows (s : string) : bool :=
  match Re.match_duration s with
  | Some m =>
      negb (DurationSpec.convertible (Re.group1 m) (Re.group2 m) (Re.group3 m))
  | None => false
  end.

(** A timing link with a RunTime child whose text overflows. *)
Definition overlong (link : ET.Element) : bool :=
  existsb (fun child => Link.named "RunTime" child && overflows (Csv.get_text child))
          (ET.children link).

(** What [process_file] of [XMLExtractor] gets from a file: its records,
    or nothing when the file does not parse or the extraction raises. *)
Definition records_of (f : XmlFile) : option (list (gmap string Py.value)) :=
  match file_parse f with
  | Parsed root =>
      match Csv.file_records root (file_name f) with
      | Py.Return records => Some records
      | Py.Raise _ => None
      end
  | ParseError _ => None
  end.

(** The records that a file adds. *)
Definition added (f : XmlFile) : list (gmap string Py.value) :=
  default [] (records_of f).

(** Whether a file is counted in [files_processed]. *)
Definition counted (f : XmlFile) : bool :=
  match records_of f with
  | Some _ => true
  | None => false
  end.


End Entry.

(** * Properties *)

(** Splits a conjunction into its parts, leaving the parts untouched. *)
Ltac split_conj :=
  repeat match goal with
         | |- _ /\ _ => split
         end.

(** ** The duration parser *)

Section Duration.

Import DurationSpec.

Lemma span_digits_stop (s : string) :
  no_digit_ahead s = true -> Re.span_digits s = (EmptyString, s).
Proof.
  destruct s as [|c s]; simpl; [reflexivity|].
  destruct (Py.is_digit c); simpl; [discriminate | reflexivity].
Qed.

Lemma span_digits_run (ds : list ascii) (r : string) :
  forallb Py.is_digit ds = true -> no_digit_ahead r = true ->
  Re.span_digits (string_of_list_ascii ds +:+ r) = (string_of_list_ascii ds, r).
Proof.
  intros Hds Hr. induction ds as [|d ds IH]; simpl.
  - now apply span_digits_stop.
  - simpl in Hds. apply andb_prop in Hds as [Hd Hds].
    rewrite Hd, (IH Hds). reflexivity.
Qed.

Lemma digits_cons (ds : string) :
  digits ds = true ->
  exists d l, ds = String d (string_of_list_ascii l)
              /\ forallb Py.is_digit (d :: l) = true.
Proof.
  unfold digits. intros H. apply andb_prop in H as [Hne Hall].
  destruct ds as [|d ds]; [discriminate|].
  exists d, (list_ascii_of_string ds).
  rewrite string_of_list_ascii_of_string. split; [reflexivity | exact Hall].
Qed.

Lemma span_digits_digits (ds r : string) :
  digits ds = true -> no_digit_ahead r = true ->
  Re.span_digits (ds +:+ r) = (ds, r).
Proof.
  intros Hds Hr. destruct (digits_cons ds Hds) as (d & l & -> & Hall).
  change (String d (string_of_list_ascii l)) with (string_of_list_ascii (d :: l)).
  now apply span_digits_run.
Qed.

(** The component is there: it is taken. *)
Lemma opt_component_hit (X : ascii) (ds r : string) :
  digits ds = true -> Py.is_digit X = false ->
  Re.opt_component X (ds +:+ String X r) = (Some ds, r).
Proof.
  intros Hds HX. unfold Re.opt_component.
  rewrite span_digits_digits by (simpl; try rewrite HX; auto).
  destruct (digits_cons ds Hds) as (d & l & -> & _).
  now rewrite Ascii.eqb_refl.
Qed.

(** Digits followed by another letter: the component is skipped and
    nothing is consumed. *)
Lemma opt_component_other (X Y : ascii) (ds r : string) :
  digits ds = true -> Py.is_digit Y = false -> Y <> X ->
  Re.opt_component X (ds +:+ String Y r) = (None, ds +:+ String Y r).
Proof.
  intros Hds HY Hne. unfold Re.opt_component.
  rewrite span_digits_digits by (simpl; try rewrite HY; auto).
  destruct (digits_cons ds Hds) as (d & l & -> & _).
  apply Ascii.eqb_neq in Hne. now rewrite Hne.
Qed.

(** No digit ahead: the component is skipped. *)
Lemma opt_component_none (X : ascii) (r : string) :
  no_digit_ahead r = true -> Re.opt_component X r = (None, r).
Proof.
  intros Hr. unfold Re.opt_component. now rewrite span_digits_stop.
Qed.

Ltac component_step :=
  first
    [ rewrite opt_component_hit by (auto; reflexivity)
    | rewrite opt_component_other by (auto; try reflexivity; discriminate)
    | rewrite opt_component_none by (auto; reflexivity) ].

(** On a string of the grammar followed by text that starts with no
    digit, the matcher captures exactly the components and stops where
    the trailing text starts. *)
Lemma match_duration_then (h m s : option string) (rest : string) :
  well_formed h = true -> well_formed m = true -> well_formed s = true ->
  no_digit_ahead rest = true ->
  Re.match_duration (duration_then h m s rest)
  = Some (Re.DurationMatch h m s rest).
Proof.
  intros Hh Hm Hs Hr. unfold duration_then, Re.match_duration.
  change ("PT" +:+ ?x) with (String "P" (String "T" x)). cbv iota beta.
  destruct h as [dh|], m as [dm|], s as [ds|]; simpl in *;
    repeat component_step; reflexivity.
Qed.

Lemma span_digits_fst (s : string) :
  forallb Py.is_digit (list_ascii_of_string (fst (Re.span_digits s))) = true.
Proof.
  induction s as [|c s IH]; simpl; [reflexivity|].
  destruct (Py.is_digit c) eqn:Hc; [|reflexivity].
  destruct (Re.span_digits s) as [ds r]. simpl in *. now rewrite Hc, IH.
Qed.

(** A captured group is a non-empty string of digits. *)
Lemma opt_component_well_formed (X : ascii) (s : string) :
  well_formed (fst (Re.opt_component X s)) = true.
Proof.
  unfold Re.opt_component.
  pose proof (span_digits_fst s) as Hfst.
  destruct (Re.span_digits s) as [ds r]. simpl in Hfst.
  destruct ds as [|d ds]; [reflexivity|].
  destruct r as [|c r]; [reflexivity|].
  destruct (Ascii.eqb c X); [|reflexivity].
  simpl. unfold digits. now rewrite Hfst.
Qed.

Lemma match_duration_well_formed (s : string) (m : Re.duration_match) :
  Re.match_duration s = Some m ->
  well_formed (Re.group1 m) = true /\ well_formed (Re.group2 m) = true
  /\ well_formed (Re.group3 m) = true.
Proof.
  unfold Re.match_duration. intros H.
  destruct s as [|c0 [|c1 s0]]; try discriminate;
    try (destruct c0 as [[] [] [] [] [] [] [] []]; discriminate).
  destruct c0 as [[] [] [] [] [] [] [] []]; try discriminate.
  destruct c1 as [[] [] [] [] [] [] [] []]; try discriminate.
  pose proof (opt_component_well_formed "H" s0) as H1.
  destruct (Re.opt_component "H" s0) as [g1 s1].
  pose proof (opt_component_well_formed "M" s1) as H2.
  destruct (Re.opt_component "M" s1) as [g2 s2].
  pose proof (opt_component_well_formed "S" s2) as H3.
  destruct (Re.opt_component "S" s2) as [g3 s3].
  injection H as <-. simpl in *. auto.
Qed.

Lemma match_duration_starts (s : string) :
  Re.match_duration s = None <-> starts_with_PT s = false.
Proof.
  unfold Re.match_duration, starts_with_PT.
  destruct s as [|c0 [|c1 s0]]; try tauto;
    destruct c0 as [[] [] [] [] [] [] [] []]; try tauto.
  destruct c1 as [[] [] [] [] [] [] [] []]; try tauto.
  destruct (Re.opt_component "H" s0) as [g1 s1].
  destruct (Re.opt_component "M" s1) as [g2 s2].
  destruct (Re.opt_component "S" s2) as [g3 s3].
  split; discriminate.
Qed.

Lemma int_digits_nonneg (ds : list ascii) (acc : Z) :
  forallb Py.is_digit ds = true -> 0 <= acc ->
  0 <= Py.int_digits acc (string_of_list_ascii ds).
Proof.
  revert acc. induction ds as [|d ds IH]; simpl; intros acc Hall Hacc; [lia|].
  apply andb_prop in Hall as [Hd Hall]. apply IH; [exact Hall|].
  unfold Py.is_digit in Hd. apply andb_prop in Hd as [Hlo _].
  apply Nat.leb_le in Hlo. unfold Py.digit_value. lia.
Qed.

Lemma component_value_nonneg (g : option string) :
  well_formed g = true -> 0 <= component_value g.
Proof.
  destruct g as [ds|]; simpl; [|lia].
  unfold digits. intros H. apply andb_prop in H as [_ Hall].
  rewrite <- (string_of_list_ascii_of_string ds).
  apply int_digits_nonneg; [exact Hall | lia].
Qed.

(** [int(g or 0)] is the value of the component when the component has
    no more digits than [int] converts, and [ValueError] when it has. *)
Lemma int_or_zero_value (g : option string) :
  well_formed g = true ->
  Py.int_or_zero g
  = if within_limit g then Py.Return (component_value g) else Py.Raise Py.ValueError.
Proof.
  destruct g as [ds|]; [|reflexivity].
  cbn [well_formed within_limit component_value Py.int_or_zero].
  unfold digits. intros H. apply andb_prop in H as [-> _].
  reflexivity.
Qed.

Lemma total_seconds_nonneg (h m s : option string) :
  well_formed h = true -> well_formed m = true -> well_formed s = true ->
  0 <= total_seconds h m s.
Proof.
  intros Hh Hm Hs. unfold total_seconds.
  pose proof (component_value_nonneg h Hh).
  pose proof (component_value_nonneg m Hm).
  pose proof (component_value_nonneg s Hs). lia.
Qed.

(** Both variants on a string that the matcher accepts: the sum when
    every captured group can be converted; otherwise [int] raises, which
    the permissive variant answers with 0 and the strict one lets
    through. *)
Lemma parse_duration_matched (s : string) (m : Re.duration_match) :
  Re.match_duration s = Some m ->
  let n := total_seconds (Re.group1 m) (Re.group2 m) (Re.group3 m) in
  if convertible (Re.group1 m) (Re.group2 m) (Re.group3 m)
  then Bus.parse_duration (Py.VStr s) = n
       /\ Csv.parse_duration (Py.VStr s) = Py.Return (Py.VInt n)
  else Bus.parse_duration (Py.VStr s) = 0
       /\ Csv.parse_duration (Py.VStr s) = Py.Raise Py.ValueError.
Proof.
  intros Hm n.
  destruct (match_duration_well_formed s m Hm) as (H1 & H2 & H3).
  assert (Hne : Py.truthy (Py.VStr s) = true).
  { destruct s; [discriminate Hm | reflexivity]. }
  unfold Bus.parse_duration, Bus.try_parse_duration, Csv.parse_duration, convertible.
  rewrite Hne, Hm. cbn [negb orb Py.is_str].
  rewrite !int_or_zero_value by assumption.
  destruct (within_limit (Re.group1 m)), (within_limit (Re.group2 m)),
    (within_limit (Re.group3 m)); cbn; split; reflexivity.
Qed.

(** Both variants on a string that the matcher rejects. *)
Lemma parse_duration_unmatched (s : string) :
  Re.match_duration s = None ->
  Bus.parse_duration (Py.VStr s) = 0
  /\ Csv.parse_duration (Py.VStr s) = Py.Return Py.VNone.
Proof.
  intros Hm. unfold Bus.parse_duration, Bus.try_parse_duration, Csv.parse_duration.
  rewrite Hm.
  destruct (Py.truthy (Py.VStr s)); simpl; split; reflexivity.
Qed.

(** The permissive variant never returns a negative number. *)
Lemma parse_duration_nonneg (s : string) : 0 <= Bus.parse_duration (Py.VStr s).
Proof.
  destruct (Re.match_duration s) as [m|] eqn:Hm.
  - destruct (match_duration_well_formed s m Hm) as (H1 & H2 & H3).
    pose proof (parse_duration_matched s m Hm) as H. cbv zeta in H.
    destruct (convertible _ _ _); destruct H as [-> _]; [|lia].
    now apply total_seconds_nonneg.
  - destruct (parse_duration_unmatched s Hm) as [-> _]. lia.
Qed.

(** The strict variant raises exactly on the strings that overflow. *)
Lemma parse_duration_raises (s : string) (e : Py.exn) :
  Csv.parse_duration (Py.VStr s) = Py.Raise e <-> Entry.overflows s = true.
Proof.
  unfold Entry.overflows.
  destruct (Re.match_duration s) as [m|] eqn:Hm.
  - pose proof (parse_duration_matched s m Hm) as H. cbv zeta in H.
    destruct (convertible _ _ _); destruct H as [_ ->]; cbn; split;
      try discriminate; try reflexivity.
    intros _. now destruct e.
  - destruct (parse_duration_unmatched s Hm) as [_ ->]. split; discriminate.
Qed.

End Duration.

Section DurationClaims.

Import DurationSpec.

(** C1, as stated, fails twice.  The parser is not total: on a string
    of the grammar whose seconds component has 4301 digits the [int] of
    the strict variant raises [ValueError], and the permissive variant
    returns 0, not hours*3600 + minutes*60 + seconds.  And a string that
    is not of the grammar is not always answered with the no-value
    result: ["PT1M30Sxyz"] and ["PTgarbage"] are not [PT] followed by
    optional hour, minute and second components, yet the first is parsed
    to 90 by both variants (the no-value results are 0 and [None]) and
    the second is parsed to 0, not [None], by the strict variant. *)
Lemma parse_duration_claim_counterexample :
  (well_formed (Some (ones 4301)) = true
   /\ Csv.parse_duration (Py.VStr (duration_text None None (Some (ones 4301))))
      = Py.Raise Py.ValueError
   /\ Bus.parse_duration (Py.VStr (duration_text None None (Some (ones 4301)))) = 0
   /\ 0 < total_seconds None None (Some (ones 4301)))
  /\ (forall h m sec,
      well_formed h = true -> well_formed m = true -> well_formed sec = true ->
      "PT1M30Sxyz" <> duration_text h m sec)
  /\ Bus.parse_duration (Py.VStr "PT1M30Sxyz") = 90
  /\ Csv.parse_duration (Py.VStr "PT1M30Sxyz") = Py.Return (Py.VInt 90)
  /\ (forall h m sec,
      well_formed h = true -> well_formed m = true -> well_formed sec = true ->
      "PTgarbage" <> duration_text h m sec)
  /\ Csv.parse_duration (Py.VStr "PTgarbage") = Py.Return (Py.VInt 0).
Proof.
  split; [split_conj; vm_compute; reflexivity|].
  repeat split; try reflexivity.
  - intros h m sec Hh Hm Hs Heq.
    pose proof (match_duration_then h m sec "" Hh Hm Hs eq_refl) as H.
    fold (duration_text h m sec) in H. rewrite <- Heq in H.
    vm_compute in H. discriminate H.
  - intros h m sec Hh Hm Hs Heq.
    pose proof (match_duration_then h m sec "" Hh Hm Hs eq_refl) as H.
    fold (duration_text h m sec) in H. rewrite <- Heq in H.
    vm_compute in H. discriminate H.
Qed.

(** C1 (amended): the duration parser is anchored at the start of the
    string only, and only its permissive variant is total.  (1) On [PT]
    followed by optional hour, minute and second components in that
    order, and then by any text that does not start with a digit (the
    empty text included): when no component has more than 4300 digits,
    both variants return hours*3600 + minutes*60 + seconds, a
    non-negative integer, the trailing text being ignored; when a
    component has more, the permissive variant returns 0 and the strict
    variant raises [ValueError].  (2) On every string that starts with
    [PT] the permissive variant returns a non-negative integer, and the
    strict variant returns the same integer or raises, never its no-value
    result.  (3) The strict variant raises exactly on the strings on
    which the pattern captures a group of more than 4300 digits.  (4) On
    a string that does not start with [PT], the empty string included,
    the permissive variant returns 0 and the strict variant [None]; (5)
    so they do on [None] and (6) on an argument that is no string. *)
Theorem parse_duration_anchored_at_start :
  (forall h m sec rest,
      well_formed h = true -> well_formed m = true -> well_formed sec = true ->
      no_digit_ahead rest = true ->
      0 <= total_seconds h m sec
      /\ if convertible h m sec
         then Bus.parse_duration (Py.VStr (duration_then h m sec rest))
              = total_seconds h m sec
              /\ Csv.parse_duration (Py.VStr (duration_then h m sec rest))
                 = Py.Return (Py.VInt (total_seconds h m sec))
         else Bus.parse_duration (Py.VStr (duration_then h m sec rest)) = 0
              /\ Csv.parse_duration (Py.VStr (duration_then h m sec rest))
                 = Py.Raise Py.ValueError)
  /\ (forall s, starts_with_PT s = true ->
      exists n, 0 <= n /\ Bus.parse_duration (Py.VStr s) = n
                /\ (Csv.parse_duration (Py.VStr s) = Py.Return (Py.VInt n)
                    \/ (n = 0
                        /\ Csv.parse_duration (Py.VStr s) = Py.Raise Py.ValueError)))
  /\ (forall s,
      Csv.parse_duration (Py.VStr s) = Py.Raise Py.ValueError
      <-> Entry.overflows s = true)
  /\ (forall s, starts_with_PT s = false ->
      Bus.parse_duration (Py.VStr s) = 0
      /\ Csv.parse_duration (Py.VStr s) = Py.Return Py.VNone)
  /\ (Bus.parse_duration Py.VNone = 0
      /\ Csv.parse_duration Py.VNone = Py.Return Py.VNone)
  /\ (forall z, Bus.parse_duration (Py.VInt z) = 0
                /\ Csv.parse_duration (Py.VInt z) = Py.Return Py.VNone).
Proof.
  split; [|split; [|split; [|split; [|split]]]].
  - intros h m sec rest Hh Hm Hs Hr.
    pose proof (match_duration_then h m sec rest Hh Hm Hs Hr) as Hmatch.
    pose proof (parse_duration_matched _ _ Hmatch) as H. simpl in H.
    split; [now apply total_seconds_nonneg | exact H].
  - intros s Hs.
    destruct (Re.match_duration s) as [m|] eqn:Hm.
    + destruct (match_duration_well_formed s m Hm) as (H1 & H2 & H3).
      pose proof (parse_duration_matched s m Hm) as H. cbv zeta in H.
      destruct (convertible _ _ _); destruct H as [Hb Hc].
      * eexists; split; [|split; [exact Hb | left; exact Hc]].
        now apply total_seconds_nonneg.
      * exists 0. split; [lia|]. split; [exact Hb | right; split; [reflexivity | exact Hc]].
    + apply match_duration_starts in Hm. congruence.
  - intros s. apply parse_duration_raises.
  - intros s Hs. apply parse_duration_unmatched. now apply match_duration_starts.
  - split; reflexivity.
  - intros z. unfold Bus.parse_duration, Csv.parse_duration. simpl.
    destruct (negb (z =? 0)); split; reflexivity.
Qed.

(** The three examples of the specification, a string that is no
    duration and a seconds component of 4301 digits, read off the
    theorem. *)
Lemma parse_duration_anchored_at_start_witness :
  (Bus.parse_duration (Py.VStr "PT1M30S") = 90
   /\ Csv.parse_duration (Py.VStr "PT1M30S") = Py.Return (Py.VInt 90))
  /\ (Bus.parse_duration (Py.VStr "PT2H") = 7200
      /\ Csv.parse_duration (Py.VStr "PT2H") = Py.Return (Py.VInt 7200))
  /\ (Bus.parse_duration (Py.VStr "PT45S") = 45
      /\ Csv.parse_duration (Py.VStr "PT45S") = Py.Return (Py.VInt 45))
  /\ (Bus.parse_duration (Py.VStr "garbage") = 0
      /\ Csv.parse_duration (Py.VStr "garbage") = Py.Return Py.VNone)
  /\ (Bus.parse_duration (Py.VStr ("PT" +:+ ones 4301 +:+ "S")) = 0
      /\ Csv.parse_duration (Py.VStr ("PT" +:+ ones 4301 +:+ "S"))
         = Py.Raise Py.ValueError).
Proof.
  destruct parse_duration_anchored_at_start as (Hform & _ & _ & Hno & _).
  split; [|split; [|split; [|split]]].
  - destruct (Hform None (Some "1") (Some "30") "" eq_refl eq_refl eq_refl eq_refl)
      as (_ & Hb & Hc). split; [exact Hb | exact Hc].
  - destruct (Hform (Some "2") None None "" eq_refl eq_refl eq_refl eq_refl)
      as (_ & Hb & Hc). split; [exact Hb | exact Hc].
  - destruct (Hform None None (Some "45") "" eq_refl eq_refl eq_refl eq_refl)
      as (_ & Hb & Hc). split; [exact Hb | exact Hc].
  - exact (Hno "garbage" eq_refl).
  - assert (Hwf : well_formed (Some (ones 4301)) = true)
      by (vm_compute; reflexivity).
    destruct (Hform None None (Some (ones 4301)) "" eq_refl eq_refl Hwf eq_refl)
      as (_ & H).
    assert (Hc : convertible None None (Some (ones 4301)) = false)
      by (vm_compute; reflexivity).
    rewrite Hc in H.
    assert (Heq : duration_then None None (Some (ones 4301)) ""
                  = "PT" +:+ ones 4301 +:+ "S")
      by (vm_compute; reflexivity).
    rewrite Heq in H. exact H.
Defined.

End DurationClaims.


(** ** The batch orchestrator *)

Section BatchProperties.

Import Batch.

(** What [process_single_file] does with a file that does not parse:
    the state is left as it was and the result is the error result. *)
Lemma process_unparsable (self : Bus.Extractor) (name msg : string) :
  Bus.process_single_file self (MkFile name (ParseError msg))
  = (self, error_result name msg).
Proof. reflexivity. Qed.

Lemma error_result_failed (name msg : string) :
  succeeded (error_result name msg) = false.
Proof. reflexivity. Qed.

(** The shape of the result of a file that parses. *)
Lemma process_parsable (self : Bus.Extractor) (name : string) (root : ET.Element) :
  let r := snd (Bus.process_single_file self (MkFile name (Parsed root))) in
  Bus.status r = "success" /\ Bus.filename r = name
  /\ Bus.segments_found r = length (Bus.data r).
Proof.
  unfold Bus.process_single_file. simpl.
  destruct (Bus.find_namespace self root) as [self1 ctx].
  destruct (Bus.extract_stops (Bus.reset_indexes self1) root) as [self3 n3].
  destruct (Bus.extract_operators self3 root) as [self4 n4].
  destruct (Bus.extract_services self4 root) as [self5 n5].
  simpl. auto.
Qed.

Lemma result_of_each_file (self : Bus.Extractor) (f : XmlFile) :
  result_of_file f (snd (Bus.process_single_file self f)).
Proof.
  destruct f as [name [msg|root]]; unfold result_of_file; simpl.
  - reflexivity.
  - apply (process_parsable self name root).
Qed.

(** The status decides success exactly for the files that parse. *)
Lemma succeeded_iff_parsed (self : Bus.Extractor) (f : XmlFile) :
  succeeded (snd (Bus.process_single_file self f))
  = match file_parse f with Parsed _ => true | ParseError _ => false end.
Proof.
  destruct f as [name [msg|root]]; simpl.
  - reflexivity.
  - unfold succeeded.
    destruct (process_parsable self name root) as (-> & _). reflexivity.
Qed.

Lemma segments_found_length (self : Bus.Extractor) (f : XmlFile) :
  let r := snd (Bus.process_single_file self f) in
  Bus.segments_found r = length (Bus.data r).
Proof.
  destruct f as [name [msg|root]]; simpl.
  - reflexivity.
  - apply (process_parsable self name root).
Qed.

(** One round of the loop, with the result of the file named. *)
Lemma batch_step_unfold (self : Bus.Extractor) (segs : list Segment.t)
    (stats : Bus.SummaryStats) (f : XmlFile) :
  Bus.batch_step (self, segs, stats) f
  = let self' := fst (Bus.process_single_file self f) in
    let r := snd (Bus.process_single_file self f) in
    if succeeded r then
      (self', (segs ++ Bus.data r)%list,
       Bus.MkStats (Bus.total_files stats) (S (Bus.successful stats))
                   (Bus.failed stats)
                   (Bus.total_segments stats + Bus.segments_found r)
                   (Bus.total_stops stats + Bus.stops_found r))%nat
    else
      (self', segs,
       Bus.MkStats (Bus.total_files stats) (Bus.successful stats)
                   (S (Bus.failed stats))
                   (Bus.total_segments stats) (Bus.total_stops stats)).
Proof.
  unfold Bus.batch_step, succeeded.
  destruct (Bus.process_single_file self f) as [self' r]. reflexivity.
Qed.

Lemma results_length (files : list XmlFile) (self : Bus.Extractor) :
  length (results self files) = length files.
Proof.
  revert self. induction files as [|f fs IH]; intros self; simpl; [|rewrite IH]; reflexivity.
Qed.

Lemma successes_le (files : list XmlFile) (self : Bus.Extractor) :
  (length (successes self files) <= length files)%nat.
Proof.
  unfold successes. rewrite <- (results_length files self).
  apply List.filter_length_le.
Qed.

Lemma successes_cons (self : Bus.Extractor) (f : XmlFile) (fs : list XmlFile) :
  successes self (f :: fs)
  = let r := snd (Bus.process_single_file self f) in
    let rest := successes (fst (Bus.process_single_file self f)) fs in
    if succeeded r then r :: rest else rest.
Proof. reflexivity. Qed.

(** The loop of [process_all_files], from any state of its three
    variables. *)
Lemma batch_loop (files : list XmlFile) (self : Bus.Extractor)
    (segs : list Segment.t) (stats : Bus.SummaryStats) :
  fold_left Bus.batch_step files (self, segs, stats)
  = (final_extractor self files,
     (segs ++ flat_map Bus.data (successes self files))%list,
     Bus.MkStats
       (Bus.total_files stats)
       (Bus.successful stats + length (successes self files))
       (Bus.failed stats + (length files - length (successes self files)))
       (Bus.total_segments stats
        + list_sum (map Bus.segments_found (successes self files)))
       (Bus.total_stops stats
        + list_sum (map Bus.stops_found (successes self files))))%nat.
Proof.
  revert self segs stats.
  induction files as [|f fs IH]; intros self segs stats.
  - destruct stats; simpl. rewrite app_nil_r, !Nat.add_0_r. reflexivity.
  - pose proof (successes_le fs (fst (Bus.process_single_file self f))) as Hle.
    cbn [fold_left]. rewrite batch_step_unfold, successes_cons. cbv zeta.
    destruct (succeeded (snd (Bus.process_single_file self f))).
    + rewrite IH. simpl. rewrite <- app_assoc.
      f_equal. f_equal; lia.
    + rewrite IH. simpl. f_equal. f_equal; lia.
Qed.

Lemma results_of_files (files : list XmlFile) (self : Bus.Extractor) :
  Forall2 result_of_file files (results self files).
Proof.
  revert self. induction files as [|f fs IH]; intros self; simpl; constructor.
  - apply result_of_each_file.
  - apply IH.
Qed.

Lemma flat_map_data_length (rs : list Bus.ExtractionResult) :
  Forall (fun r => Bus.segments_found r = length (Bus.data r)) rs ->
  length (flat_map Bus.data rs) = list_sum (map Bus.segments_found rs).
Proof.
  induction 1 as [|r rs Hr _ IH]; simpl; [reflexivity|].
  rewrite length_app, IH, Hr. reflexivity.
Qed.

Lemma results_segments_found (files : list XmlFile) (self : Bus.Extractor) :
  Forall (fun r => Bus.segments_found r = length (Bus.data r)) (results self files).
Proof.
  revert self. induction files as [|f fs IH]; intros self; simpl; constructor.
  - apply segments_found_length.
  - apply IH.
Qed.

End BatchProperties.

Section BatchClaims.

Import Batch.

(** [process_all_files] on a batch that is not empty. *)
Lemma process_all_files_cons (self : Bus.Extractor) (f : XmlFile) (fs : list XmlFile) :
  Bus.process_all_files self (f :: fs)
  = (Bus.set_timing_segments (final_extractor self (f :: fs))
       (flat_map Bus.data (successes self (f :: fs))),
     Some (Bus.MkStats
             (length (f :: fs))
             (length (successes self (f :: fs)))
             (length (f :: fs) - length (successes self (f :: fs)))
             (list_sum (map Bus.segments_found (successes self (f :: fs))))
             (list_sum (map Bus.stops_found (successes self (f :: fs)))))).
Proof.
  unfold Bus.process_all_files. rewrite batch_loop. reflexivity.
Qed.

(** What does hold of a batch.  A document whose parsing raises gives
    the error result (message captured after ["error: "], zero counts, no
    segment) and leaves the extractor as it was; every file of the batch
    gets its result, an error result if it does not parse and a success
    otherwise, so no document aborts the batch; the aggregate is the
    concatenation, in file-processing order, of the segment lists of the
    successful results; with three documents of which the second does not
    parse, successful = 2, failed = 1 and the aggregate is the segments
    of the result of the first followed by those of the result of the
    third.  Each result is the one computed in the state that the earlier
    documents left. *)
Theorem batch_isolates_failures :
  (forall self name msg,
      Bus.process_single_file self (MkFile name (ParseError msg))
      = (self, Bus.MkResult name 0 0 0 0 [] ("error: " +:+ msg)))
  /\ (forall self f fs,
      Forall2 result_of_file (f :: fs) (results self (f :: fs))
      /\ Bus.timing_segments (fst (Bus.process_all_files self (f :: fs)))
         = flat_map Bus.data (successes self (f :: fs))
      /\ exists stats,
          snd (Bus.process_all_files self (f :: fs)) = Some stats
          /\ Bus.successful stats = length (successes self (f :: fs))
          /\ (Bus.successful stats + Bus.failed stats)%nat = length (f :: fs))
  /\ (forall self n1 d1 n2 msg n3 d3,
      let f1 := MkFile n1 (Parsed d1) in
      let f2 := MkFile n2 (ParseError msg) in
      let f3 := MkFile n3 (Parsed d3) in
      let r1 := snd (Bus.process_single_file self f1) in
      let self1 := fst (Bus.process_single_file self f1) in
      let r3 := snd (Bus.process_single_file self1 f3) in
      results self [f1; f2; f3] = [r1; error_result n2 msg; r3]
      /\ Bus.timing_segments (fst (Bus.process_all_files self [f1; f2; f3]))
         = (Bus.data r1 ++ Bus.data r3)%list
      /\ exists stats,
          snd (Bus.process_all_files self [f1; f2; f3]) = Some stats
          /\ Bus.successful stats = 2%nat /\ Bus.failed stats = 1%nat).
Proof.
  split; [|split].
  - intros. reflexivity.
  - intros self f fs. rewrite process_all_files_cons.
    split; [apply results_of_files|]. split; [reflexivity|].
    eexists; split; [reflexivity|]. simpl Bus.successful. simpl Bus.failed.
    split; [reflexivity|].
    pose proof (successes_le (f :: fs) self) as Hle.
    change (length (f :: fs)) with (S (length fs)) in *. lia.
  - intros self n1 d1 n2 msg n3 d3. cbv zeta.
    rewrite process_all_files_cons.
    assert (Hs : successes self
                   [MkFile n1 (Parsed d1); MkFile n2 (ParseError msg);
                    MkFile n3 (Parsed d3)]
                 = [snd (Bus.process_single_file self (MkFile n1 (Parsed d1)));
                    snd (Bus.process_single_file
                           (fst (Bus.process_single_file self (MkFile n1 (Parsed d1))))
                           (MkFile n3 (Parsed d3)))]).
    { rewrite successes_cons; cbv zeta.
      rewrite succeeded_iff_parsed; cbn [file_parse].
      rewrite successes_cons; cbv zeta.
      rewrite process_unparsable; cbn [fst snd]. rewrite error_result_failed.
      rewrite successes_cons; cbv zeta.
      rewrite succeeded_iff_parsed; cbn [file_parse]. reflexivity. }
    rewrite Hs. split; [|split].
    + cbn [results]. rewrite process_unparsable. reflexivity.
    + simpl. now rewrite app_nil_r.
    + eexists; split; [reflexivity|]. split; reflexivity.
Qed.

(** C2 (the code departs from the claim): the documents of a batch are
    not processed independently of one another.  In the batch of the
    qualified sample document, a file that does not parse and the bare
    sample document, the failure is kept apart as the claim says
    (successful = 2, failed = 1, an error result with the message and
    zero counts, and the batch goes on), but the third document is
    processed under the namespace that the first one left: its result is
    a success with no stop and no segment, so the aggregate holds the
    segment of the first document only, while the third document
    processed on its own gives two stops and one segment.  With the
    first and the third document exchanged the aggregate holds the
    segments of both. *)
Lemma batch_depends_on_earlier_document :
  let malformed := MkFile "broken.xml" (ParseError "no element found") in
  let batch := [Sample.qualified_file; malformed; Sample.bare_file] in
  let swapped := [Sample.bare_file; malformed; Sample.qualified_file] in
  let first_alone := snd (Bus.process_single_file Bus.init Sample.qualified_file) in
  let third_alone := snd (Bus.process_single_file Bus.init Sample.bare_file) in
  snd (Bus.process_all_files Bus.init batch) = Some (Bus.MkStats 3 2 1 1 2)
  /\ map Bus.status (results Bus.init batch)
     = ["success"; "error: no element found"; "success"]
  /\ map Bus.stops_found (results Bus.init batch) = [2; 0; 0]%nat
  /\ map Bus.segments_found (results Bus.init batch) = [1; 0; 0]%nat
  /\ Bus.timing_segments (fst (Bus.process_all_files Bus.init batch))
     = Bus.data first_alone
  /\ length (Bus.data first_alone) = 1%nat
  /\ Bus.stops_found third_alone = 2%nat
  /\ length (Bus.data third_alone) = 1%nat
  /\ Bus.timing_segments (fst (Bus.process_all_files Bus.init batch))
     <> (Bus.data first_alone ++ Bus.data third_alone)%list
  /\ length (Bus.timing_segments (fst (Bus.process_all_files Bus.init swapped)))
     = 2%nat.
Proof.
  cbv zeta. split_conj; try (vm_compute; reflexivity).
  vm_compute. discriminate.
Qed.

(** C10: after [process_all_files] over a batch that is not empty, a
    summary is returned in which successful + failed = total_files (the
    number of files), total_segments is the sum of segments_found over
    the successful documents and the length of the aggregated
    [timing_segments], and total_stops is the sum of stops_found over the
    successful documents; failed documents add nothing to them.  Over the
    empty batch the method returns before the summary is built. *)
Theorem summary_statistics_consistent :
  (forall self f fs,
      exists stats,
        snd (Bus.process_all_files self (f :: fs)) = Some stats
        /\ (Bus.successful stats + Bus.failed stats)%nat = Bus.total_files stats
        /\ Bus.total_files stats = length (f :: fs)
        /\ Bus.successful stats = length (successes self (f :: fs))
        /\ Bus.total_segments stats
           = list_sum (map Bus.segments_found (successes self (f :: fs)))
        /\ Bus.total_segments stats
           = length (Bus.timing_segments (fst (Bus.process_all_files self (f :: fs))))
        /\ Bus.timing_segments (fst (Bus.process_all_files self (f :: fs)))
           = flat_map Bus.data (successes self (f :: fs))
        /\ Bus.total_stops stats
           = list_sum (map Bus.stops_found (successes self (f :: fs))))
  /\ (forall self, Bus.process_all_files self [] = (self, None)).
Proof.
  split; [|reflexivity].
  intros self f fs. rewrite process_all_files_cons.
  eexists; split; [reflexivity|]. cbn [Bus.successful Bus.failed Bus.total_files
    Bus.total_segments Bus.total_stops fst Bus.set_timing_segments Bus.timing_segments].
  pose proof (successes_le (f :: fs) self) as Hle.
  change (length (f :: fs)) with (S (length fs)) in *.
  repeat split; try reflexivity; [lia|].
  symmetry. apply flat_map_data_length.
  unfold successes. apply List.Forall_forall. intros r Hr.
  apply filter_In in Hr as [Hr _].
  pose proof (results_segments_found (f :: fs) self) as Hall.
  rewrite List.Forall_forall in Hall. now apply Hall.
Qed.

End BatchClaims.

(** ** Per-document state: the namespace and the reference indexes *)

Section DocumentState.

Import Batch.

(** A root tag that is not namespace-qualified leaves [self.namespace]
    as the previous document set it; only the returned context is
    empty. *)
Lemma find_namespace_unqualified (self : Bus.Extractor) (root : ET.Element) :
  Re.match_namespace (ET.tag root) = None ->
  Bus.find_namespace self root = (self, None).
Proof. unfold Bus.find_namespace. now intros ->. Qed.

Lemma find_namespace_frame (self : Bus.Extractor) (root : ET.Element) :
  let self1 := fst (Bus.find_namespace self root) in
  Bus.stops_data self1 = Bus.stops_data self
  /\ Bus.operator_info self1 = Bus.operator_info self
  /\ Bus.service_info self1 = Bus.service_info self
  /\ Bus.timing_segments self1 = Bus.timing_segments self.
Proof.
  unfold Bus.find_namespace.
  destruct (Re.match_namespace (ET.tag root)); simpl; auto.
Qed.

(** The namespace after [find_namespace] does not depend on the
    indexes. *)
Lemma find_namespace_indexes (self : Bus.Extractor) (root : ET.Element)
    (sd : gmap string Stop.t) (si : option Service.t)
    (oi : list (string * Operator.t)) :
  Bus.reset_indexes
    (fst (Bus.find_namespace
            (Bus.MkExtractor sd (Bus.timing_segments self) si oi (Bus.namespace self))
            root))
  = Bus.reset_indexes (fst (Bus.find_namespace self root)).
Proof.
  unfold Bus.find_namespace.
  destruct (Re.match_namespace (ET.tag root)); reflexivity.
Qed.

(** [process_single_file] on a file that parses, step by step. *)
Lemma process_single_file_parsed (self : Bus.Extractor) (name : string)
    (root : ET.Element) :
  Bus.process_single_file self (MkFile name (Parsed root))
  = let self2 := document_context self root in
    let self3 := fst (Bus.extract_stops self2 root) in
    let self4 := fst (Bus.extract_operators self3 root) in
    let self5 := fst (Bus.extract_services self4 root) in
    let file_segments := Bus.extract_timing_links self5 root name in
    (self5,
     Bus.MkResult name (snd (Bus.extract_stops self2 root))
       (snd (Bus.extract_operators self3 root))
       (snd (Bus.extract_services self4 root))
       (length file_segments) file_segments "success").
Proof.
  unfold Bus.process_single_file, document_context. simpl.
  destruct (Bus.find_namespace self root) as [self1 ctx]. simpl.
  destruct (Bus.extract_stops (Bus.reset_indexes self1) root) as [self3 n3]. simpl.
  destruct (Bus.extract_operators self3 root) as [self4 n4]. simpl.
  destruct (Bus.extract_services self4 root) as [self5 n5]. reflexivity.
Qed.

(** Every entry of the stop index built by the loop of [extract_stops]
    was there before or comes from one of the elements, and is stored
    under its own id. *)
Lemma add_stop_fold (self : Bus.Extractor) (stops : list ET.Element)
    (sd : gmap string Stop.t) (k : string) (r : Stop.t) :
  fold_left (Bus.add_stop self) stops sd !! k = Some r ->
  sd !! k = Some r
  \/ exists stop,
      In stop stops
      /\ Bus.safe_get_text self (Some stop) (ET.Child (Bus.get_tag self "StopPointRef")) = k
      /\ Stop.stop_id r = k /\ Py.str_truthy k = true.
Proof.
  revert sd. induction stops as [|stop stops IH]; intros sd Hk; simpl in Hk.
  - now left.
  - destruct (IH _ Hk) as [Hhere | (stop' & Hin & Hid & Hr)].
    + unfold Bus.add_stop in Hhere.
      destruct (Py.str_truthy _) eqn:Htruthy in Hhere.
      * rewrite lookup_insert in Hhere. case_decide as Heq.
        -- right. exists stop. injection Hhere as <-. simpl.
           rewrite <- Heq. auto.
        -- now left.
      * now left.
    + right. exists stop'. simpl. auto.
Qed.

(** The stop index and the namespace once a document was processed. *)
Lemma processed_stops (self : Bus.Extractor) (name : string) (root : ET.Element) :
  let ctx := document_context self root in
  let self' := fst (Bus.process_single_file self (MkFile name (Parsed root))) in
  Bus.stops_data self'
  = fold_left (Bus.add_stop ctx)
      (ET.findall root (ET.Descendant (Bus.get_tag ctx "AnnotatedStopPointRef"))) ∅
  /\ Bus.namespace self' = Bus.namespace ctx.
Proof.
  cbv zeta. rewrite process_single_file_parsed. cbv zeta. cbn [fst].
  unfold Bus.extract_services. cbn [fst].
  destruct (ET.findall root (ET.Descendant (Bus.get_tag _ "Service"))); split; reflexivity.
Qed.

(** [get_tag] reads the namespace only. *)
Lemma get_tag_namespace (a b : Bus.Extractor) (name : string) :
  Bus.namespace a = Bus.namespace b -> Bus.get_tag a name = Bus.get_tag b name.
Proof. unfold Bus.get_tag. now intros ->. Qed.

(** Every entry of the stop index of a processed document is stored
    under its own id, and no id is empty. *)
Lemma processed_stop_ids (self : Bus.Extractor) (name : string) (root : ET.Element)
    (k : string) (r : Stop.t) :
  Bus.stops_data (fst (Bus.process_single_file self (MkFile name (Parsed root)))) !! k
  = Some r ->
  Stop.stop_id r = k /\ k <> "".
Proof.
  intros Hk. destruct (processed_stops self name root) as [Hsd _].
  cbv zeta in Hsd. rewrite Hsd in Hk.
  apply add_stop_fold in Hk as [Hk | (stop & _ & _ & Hr & Ht)].
  - rewrite lookup_empty in Hk. discriminate.
  - split; [exact Hr|]. intros ->. discriminate Ht.
Qed.

Lemma read_service_namespace (a b : Bus.Extractor) (svc : ET.Element) :
  Bus.namespace a = Bus.namespace b -> Bus.read_service a svc = Bus.read_service b svc.
Proof.
  intros H. unfold Bus.read_service.
  rewrite !(get_tag_namespace a b) by exact H. reflexivity.
Qed.

(** The service record once a document was processed: read from the
    first Service element below the root, or none. *)
Lemma processed_service (self : Bus.Extractor) (name : string) (root : ET.Element) :
  let self' := fst (Bus.process_single_file self (MkFile name (Parsed root))) in
  Bus.service_info self'
  = Bus.read_service self'
      <$> head (ET.findall root (ET.Descendant (Bus.get_tag self' "Service"))).
Proof.
  intros self'. destruct (processed_stops self name root) as [_ Hns].
  cbv zeta in Hns. fold self' in Hns.
  rewrite (get_tag_namespace self' _ "Service" Hns).
  subst self'. rewrite process_single_file_parsed in *. cbv zeta in *. cbn [fst] in *.
  set (ctx := document_context self root) in *.
  unfold Bus.extract_services in *. cbn [fst] in *.
  set (self4 := fst (Bus.extract_operators (fst (Bus.extract_stops ctx root)) root)) in *.
  assert (Htag : Bus.get_tag self4 "Service" = Bus.get_tag ctx "Service")
    by reflexivity.
  rewrite Htag in *.
  destruct (ET.findall root (ET.Descendant (Bus.get_tag ctx "Service")))
    as [|svc rest]; [reflexivity|].
  reflexivity.
Qed.

End DocumentState.

Section DocumentStateClaims.

Import Batch.

(** C3 (the code departs from the claim): [find_namespace] assigns
    [self.namespace] only when the root tag is qualified, and
    [process_single_file] does not reset it.  After the qualified sample
    document, the bare one is processed under the namespace of the first:
    the context returned for it is empty, yet [get_tag] still qualifies
    every name, so none of its two stops and none of its segments is
    found, while the same file processed by a fresh extractor gives two
    stops and one segment. *)
Lemma namespace_leaks_into_unqualified_document :
  let st1 := fst (Bus.process_single_file Bus.init Sample.qualified_file) in
  let st2 := fst (Bus.process_single_file st1 Sample.bare_file) in
  let r2 := snd (Bus.process_single_file st1 Sample.bare_file) in
  let fresh := snd (Bus.process_single_file Bus.init Sample.bare_file) in
  Bus.namespace st1 = Some Sample.uri
  /\ snd (Bus.find_namespace st1 (Sample.scenario Sample.bare)) = None
  /\ Bus.namespace st2 = Some Sample.uri
  /\ Bus.get_tag st2 "StopPointRef"
     = "{http://www.transxchange.org.uk/}StopPointRef"
  /\ Bus.status r2 = "success"
  /\ Bus.stops_found r2 = 0%nat /\ Bus.data r2 = []
  /\ Bus.stops_found fresh = 2%nat /\ length (Bus.data fresh) = 1%nat.
Proof. vm_compute. repeat split; reflexivity. Qed.

(** C9: the reference indexes do not leak from one document to the
    next.  In [BusDataExtractor], whatever the three indexes hold when a
    document that parses is taken up, the result and the state afterwards
    are those obtained from empty indexes; every entry of the stop index
    afterwards comes from an AnnotatedStopPointRef element of this
    document and is stored under its own id, the operator index is built
    from the Operator elements of this document alone and the service
    record from its first Service element.  In [XMLExtractor] the
    indexes are local to [process_file]: the records added for a document
    are a function of the document and its name alone (and nothing is
    added when their extraction raises). *)
Theorem indexes_rebuilt_per_document :
  (forall self sd si oi name root,
      Bus.process_single_file
        (Bus.MkExtractor sd (Bus.timing_segments self) si oi (Bus.namespace self))
        (MkFile name (Parsed root))
      = Bus.process_single_file self (MkFile name (Parsed root)))
  /\ (forall self name root k r,
      let self' := fst (Bus.process_single_file self (MkFile name (Parsed root))) in
      Bus.stops_data self' !! k = Some r ->
      exists stop,
        In stop (ET.findall root (ET.Descendant (Bus.get_tag self' "AnnotatedStopPointRef")))
        /\ Bus.safe_get_text self' (Some stop) (ET.Child (Bus.get_tag self' "StopPointRef")) = k
        /\ Stop.stop_id r = k)
  /\ (forall self name root,
      let ctx := document_context self root in
      let self' := fst (Bus.process_single_file self (MkFile name (Parsed root))) in
      Bus.operator_info self'
      = fold_left (Bus.add_operator ctx)
                  (ET.findall root (ET.Descendant (Bus.get_tag ctx "Operator"))) []
      /\ Bus.service_info self'
         = Bus.read_service ctx
             <$> head (ET.findall root (ET.Descendant (Bus.get_tag ctx "Service"))))
  /\ (forall self name root,
      Csv.process_file self (MkFile name (Parsed root))
      = match Csv.file_records root name with
        | Py.Return records =>
            (Csv.MkExtractor (Csv.all_records self ++ records)%list
                             (S (Csv.files_processed self)),
             length records)
        | Py.Raise _ => (self, 0%nat)
        end).
Proof.
  split; [|split; [|split]].
  - intros self sd si oi name root.
    rewrite !process_single_file_parsed. unfold document_context.
    now rewrite find_namespace_indexes.
  - intros self name root k r self' Hk.
    destruct (processed_stops self name root) as [Hsd Hns]. cbv zeta in Hsd, Hns.
    fold self' in Hsd, Hns.
    rewrite !(get_tag_namespace self' (document_context self root)) by exact Hns.
    rewrite Hsd in Hk.
    apply add_stop_fold in Hk as [Hk | (stop & Hin & Hid & Hr & _)].
    + rewrite lookup_empty in Hk. discriminate.
    + exists stop. repeat split; assumption.
  - intros self name root ctx self'. subst self'.
    rewrite process_single_file_parsed. cbv zeta. cbn [fst]. fold ctx.
    unfold Bus.extract_services. cbn [fst].
    set (self4 := fst (Bus.extract_operators (fst (Bus.extract_stops ctx root)) root)).
    assert (Htag : Bus.get_tag self4 "Service" = Bus.get_tag ctx "Service")
      by reflexivity.
    rewrite Htag.
    destruct (ET.findall root (ET.Descendant (Bus.get_tag ctx "Service")));
      split; reflexivity.
  - intros. reflexivity.
Qed.

(** The index property at the sample documents: after the qualified
    document and then a document with the single stop S9, the stop index
    holds S9 and nothing of the first document. *)
Lemma indexes_rebuilt_per_document_witness :
  let second :=
    MkFile "second.xml"
      (Parsed (Sample.transxchange Sample.qualified
                 [Sample.stop_point Sample.qualified "S9" "Ninth" "-2.0" "52.0"] [] [])) in
  let st1 := fst (Bus.process_single_file Bus.init Sample.qualified_file) in
  let st2 := fst (Bus.process_single_file st1 second) in
  Bus.stops_data st1 !! "S1" = Some (Stop.Make "S1" "First Street" "-1.0" "51.0")
  /\ Bus.stops_data st2 !! "S1" = None
  /\ Bus.stops_data st2 !! "S9" = Some (Stop.Make "S9" "Ninth" "-2.0" "52.0")
  /\ exists stop,
      In stop (ET.findall (Sample.transxchange Sample.qualified
                 [Sample.stop_point Sample.qualified "S9" "Ninth" "-2.0" "52.0"] [] [])
                 (ET.Descendant (Bus.get_tag st2 "AnnotatedStopPointRef")))
      /\ Bus.safe_get_text st2 (Some stop) (ET.Child (Bus.get_tag st2 "StopPointRef")) = "S9"
      /\ Stop.stop_id (Stop.Make "S9" "Ninth" "-2.0" "52.0") = "S9".
Proof.
  cbv zeta. split; [vm_compute; reflexivity|].
  split; [vm_compute; reflexivity|].
  split; [vm_compute; reflexivity|].
  destruct indexes_rebuilt_per_document as (_ & Hstops & _).
  apply (Hstops (fst (Bus.process_single_file Bus.init Sample.qualified_file))
                "second.xml" _ "S9" (Stop.Make "S9" "Ninth" "-2.0" "52.0")).
  vm_compute. reflexivity.
Defined.

End DocumentStateClaims.

(** ** The segment extractor of BusDataExtractor *)

Section BusSegments.

(** Every emitted segment is the segment of a timing link of a section
    of the document. *)
Lemma extract_timing_links_In (self : Bus.Extractor) (root : ET.Element)
    (file : string) (seg : Segment.t) :
  In seg (Bus.extract_timing_links self root file) <->
  exists section link,
    In section (Bus.jp_sections self root)
    /\ In link (Bus.timing_links self section)
    /\ seg = Bus.make_segment self file (ET.get section "id" "") link.
Proof.
  unfold Bus.extract_timing_links. rewrite in_flat_map. split.
  - intros (section & Hsec & Hin). apply in_map_iff in Hin as (link & <- & Hlink).
    exists section, link. auto.
  - intros (section & link & Hsec & Hlink & ->).
    exists section. split; [exact Hsec|]. apply in_map_iff. exists link. auto.
Qed.

(** One segment per timing link, whatever the link holds. *)
Lemma extract_timing_links_length (self : Bus.Extractor) (root : ET.Element)
    (file : string) :
  length (Bus.extract_timing_links self root file)
  = list_sum (map (fun section => length (Bus.timing_links self section))
                  (Bus.jp_sections self root)).
Proof.
  unfold Bus.extract_timing_links.
  induction (Bus.jp_sections self root) as [|section sections IH]; simpl.
  - reflexivity.
  - now rewrite length_app, length_map, IH.
Qed.

(** The join of one segment against the stop index of the extractor. *)
Lemma make_segment_join (self : Bus.Extractor) (file section_id : string)
    (link : ET.Element) :
  let seg := Bus.make_segment self file section_id link in
  let from_info := Bus.stops_data self !! Segment.from_stop_id seg in
  let to_info := Bus.stops_data self !! Segment.to_stop_id seg in
  Segment.from_stop_name seg = Bus.stop_field Stop.stop_name from_info
  /\ Segment.from_latitude seg = Bus.stop_field Stop.latitude from_info
  /\ Segment.from_longitude seg = Bus.stop_field Stop.longitude from_info
  /\ Segment.to_stop_name seg = Bus.stop_field Stop.stop_name to_info
  /\ Segment.to_latitude seg = Bus.stop_field Stop.latitude to_info
  /\ Segment.to_longitude seg = Bus.stop_field Stop.longitude to_info.
Proof. repeat split; reflexivity. Qed.

(** The service fields of one segment. *)
Lemma make_segment_service (self : Bus.Extractor) (file section_id : string)
    (link : ET.Element) :
  let seg := Bus.make_segment self file section_id link in
  Segment.service_code seg = Bus.service_field Service.service_code (Bus.service_info self)
  /\ Segment.line_name seg = Bus.service_field Service.line_name (Bus.service_info self)
  /\ Segment.service_origin seg = Bus.service_field Service.origin (Bus.service_info self)
  /\ Segment.service_destination seg
     = Bus.service_field Service.destination (Bus.service_info self).
Proof. repeat split; reflexivity. Qed.

(** The segments of a processed document are extracted in the state
    that the document leaves. *)
Lemma processed_data (self : Bus.Extractor) (name : string) (root : ET.Element) :
  let self' := fst (Bus.process_single_file self (MkFile name (Parsed root))) in
  let r := snd (Bus.process_single_file self (MkFile name (Parsed root))) in
  Bus.data r = Bus.extract_timing_links self' root name
  /\ Bus.services_found r
     = match Bus.service_info self' with Some _ => 1%nat | None => 0%nat end.
Proof.
  cbv zeta. rewrite process_single_file_parsed. cbv zeta. split; reflexivity.
Qed.

End BusSegments.

(** ** Evaluations that may raise *)

Lemma bind_Return {A B : Type} (m : Py.outcome A) (k : A -> Py.outcome B) (b : B) :
  (x <- m ;; k x) = Py.Return b <-> exists a, m = Py.Return a /\ k a = Py.Return b.
Proof.
  destruct m as [a|e]; cbn; split.
  - intros H. now exists a.
  - intros (a' & Ha & Hk). now injection Ha as ->.
  - discriminate.
  - intros (a' & Ha & _). discriminate.
Qed.

Lemma bind_Raise {A B : Type} (m : Py.outcome A) (k : A -> Py.outcome B)
    (e : Py.exn) :
  (x <- m ;; k x) = Py.Raise e
  <-> m = Py.Raise e \/ exists a, m = Py.Return a /\ k a = Py.Raise e.
Proof.
  destruct m as [a|e']; cbn; split.
  - intros H. right. now exists a.
  - intros [H | (a' & Ha & Hk)]; [discriminate | now injection Ha as ->].
  - intros [= ->]. now left.
  - intros [[= ->] | (a' & Ha & _)]; [reflexivity | discriminate].
Qed.

(** An evaluation returns or raises. *)
Lemma outcome_cases {A : Type} (m : Py.outcome A) :
  (exists a, m = Py.Return a) \/ m = Py.Raise Py.ValueError.
Proof. destruct m as [a|[]]; [left; now exists a | now right]. Qed.

Section Outcomes.

Context {A B C : Type}.

(** What a loop that returns has computed, seen through [f]. *)
Lemma for_each_fold (body : A -> B -> Py.outcome A) (f : A -> C) (g : C -> B -> C)
    (l : list B) :
  (forall a b a', In b l -> body a b = Py.Return a' -> f a' = g (f a) b) ->
  forall a a', Py.for_each body l a = Py.Return a' -> f a' = fold_left g l (f a).
Proof.
  induction l as [|b l IH]; intros Hstep a a' H; cbn in *.
  - now injection H as ->.
  - apply bind_Return in H as (a1 & H1 & H).
    rewrite (IH (fun a b a' Hb => Hstep a b a' (or_intror Hb)) a1 a' H).
    now rewrite (Hstep a b a1 (or_introl eq_refl) H1).
Qed.

(** A loop raises exactly when one of its elements makes the body
    raise, for a body that raises on an element whatever the state. *)
Lemma for_each_Raise (body : A -> B -> Py.outcome A) (bad : B -> bool)
    (l : list B) (a : A) :
  (forall a b, body a b = Py.Raise Py.ValueError <-> bad b = true) ->
  Py.for_each body l a = Py.Raise Py.ValueError <-> existsb bad l = true.
Proof.
  intros Hbad. revert a. induction l as [|b l IH]; intros a; cbn.
  - split; discriminate.
  - rewrite bind_Raise, Bool.orb_true_iff, Hbad. split.
    + intros [H | (a1 & _ & H)]; [now left | right; now apply (IH a1)].
    + intros [H | H]; [now left|].
      destruct (outcome_cases (body a b)) as [(a1 & Ha1) | Hr].
      * right. exists a1. split; [exact Ha1 | now apply IH].
      * left. exact (proj1 (Hbad a b) Hr).
Qed.

(** What a gathering loop that returns has gathered. *)
Lemma gather_Return (f : A -> Py.outcome (list B)) (l : list A) (bs : list B) :
  Py.gather f l = Py.Return bs ->
  Forall (fun a => exists x, f a = Py.Return x) l
  /\ bs = flat_map (fun a => match f a with Py.Return x => x | Py.Raise _ => [] end) l.
Proof.
  revert bs. induction l as [|a l IH]; intros bs H; cbn in *.
  - injection H as <-. split; [constructor | reflexivity].
  - apply bind_Return in H as (x & Hx & H).
    apply bind_Return in H as (rest & Hrest & H). injection H as <-.
    destruct (IH rest Hrest) as [Hall ->]. rewrite Hx. split; [|reflexivity].
    constructor; [now exists x | exact Hall].
Qed.

Lemma gather_Raise (f : A -> Py.outcome (list B)) (l : list A) :
  Py.gather f l = Py.Raise Py.ValueError
  <-> exists a, In a l /\ f a = Py.Raise Py.ValueError.
Proof.
  induction l as [|a l IH]; cbn.
  - split; [discriminate | intros (a & [] & _)].
  - rewrite bind_Raise. split.
    + intros [H | (x & _ & H)]; [exists a; auto|].
      apply bind_Raise in H as [H | (rest & _ & H)]; [|discriminate].
      apply IH in H as (a' & Hin & H). exists a'. auto.
    + intros (a' & [<- | Hin] & H); [now left|].
      destruct (outcome_cases (f a)) as [(x & Hx) | Hr]; [|now left].
      right. exists x. split; [exact Hx|].
      apply bind_Raise. left. apply IH. now exists a'.
Qed.

End Outcomes.

(** ** The records of XMLExtractor *)

Section CsvRecords.

Import Link.

(** [_extract_stop_point] writes keys of its prefix only. *)
Lemma stop_point_step_frame (prefix : string)
    (stops : gmap string (gmap string string)) (rec : gmap string Py.value)
    (child : ET.Element) (k : string) :
  ~ In k (keys_of prefix) ->
  Csv.stop_point_step prefix stops rec child !! k = rec !! k.
Proof.
  intros Hk. unfold keys_of in Hk. simpl in Hk.
  unfold Csv.stop_point_step.
  repeat match goal with
         | |- context [if ?b then _ else _] => destruct b
         | |- context [match ?o with Some _ => _ | None => _ end] => destruct o
         end;
    rewrite ?lookup_insert_ne by tauto; reflexivity.
Qed.

Lemma extract_stop_point_frame (prefix : string)
    (stops : gmap string (gmap string string)) (element : ET.Element)
    (rec : gmap string Py.value) (k : string) :
  ~ In k (keys_of prefix) ->
  Csv._extract_stop_point element rec prefix stops !! k = rec !! k.
Proof.
  intros Hk. unfold Csv._extract_stop_point.
  revert rec. induction (ET.children element) as [|c cs IH]; intros rec; simpl.
  - reflexivity.
  - rewrite IH. now apply stop_point_step_frame.
Qed.

Ltac split_tests :=
  repeat match goal with
         | |- context [if ?b then _ else _] => destruct b eqn:?
         | |- context [match ?o with Some _ => _ | None => _ end] => destruct o eqn:?
         end.

(** What one child of a From or To element does to the joined entries
    of its own prefix. *)
Lemma stop_point_step_view (prefix : string)
    (stops : gmap string (gmap string string)) (rec : gmap string Py.value)
    (child : ET.Element) :
  prefix = "from" \/ prefix = "to" ->
  view prefix (Csv.stop_point_step prefix stops rec child)
  = if named "StopPointRef" child
    then apply_ref stops (view prefix rec) (Csv.get_text child)
    else view prefix rec.
Proof.
  intros [-> | ->]; unfold view, Csv.stop_point_step, named, apply_ref;
    cbv [String.append]; split_tests; simplify_map_eq; reflexivity.
Qed.

Lemma extract_stop_point_view (prefix : string)
    (stops : gmap string (gmap string string)) (element : ET.Element)
    (rec : gmap string Py.value) :
  prefix = "from" \/ prefix = "to" ->
  view prefix (Csv._extract_stop_point element rec prefix stops)
  = fold_left (apply_ref stops) (refs_of element) (view prefix rec).
Proof.
  intros Hp. unfold Csv._extract_stop_point, refs_of.
  revert rec. induction (ET.children element) as [|c cs IH]; intros rec; simpl.
  - reflexivity.
  - rewrite IH, stop_point_step_view by exact Hp.
    destruct (named "StopPointRef" c); reflexivity.
Qed.

(** A view is made of keys of its prefix. *)
Lemma view_frame (prefix : string) (rec rec' : gmap string Py.value) :
  (forall k, In k (keys_of prefix) -> rec' !! k = rec !! k) ->
  view prefix rec' = view prefix rec.
Proof.
  intros H. unfold view.
  rewrite !H by (unfold keys_of; simpl; tauto). reflexivity.
Qed.

Lemma keys_apart (k : string) :
  In k (keys_of "from") -> ~ In k (keys_of "to").
Proof.
  unfold keys_of. cbv [String.append]. simpl.
  intros H1 H2. repeat (destruct H1 as [<- | H1]; [intuition discriminate|]). exact H1.
Qed.

Lemma keys_apart' (k : string) :
  In k (keys_of "to") -> ~ In k (keys_of "from").
Proof. intros H1 H2. now apply (keys_apart k). Qed.

(** What one child of a timing link does to the joined entries of a
    side, when the round returns: a child with the local name of the side
    is read, any other child leaves them. *)
Lemma link_step_view_from (stops : gmap string (gmap string string))
    (rec rec' : gmap string Py.value) (child : ET.Element) :
  Csv.link_step stops rec child = Py.Return rec' ->
  view "from" rec'
  = if named "From" child
    then fold_left (apply_ref stops) (refs_of child) (view "from" rec)
    else view "from" rec.
Proof.
  unfold Csv.link_step, named.
  destruct (String.eqb (Csv.local_name (ET.tag child)) "From").
  - intros [= <-]. apply extract_stop_point_view. now left.
  - destruct (String.eqb (Csv.local_name (ET.tag child)) "To").
    + intros [= <-]. apply view_frame. intros k Hk.
      apply extract_stop_point_frame. now apply keys_apart.
    + destruct (String.eqb (Csv.local_name (ET.tag child)) "RunTime").
      * intros H. apply bind_Return in H as (secs & _ & [= <-]).
        unfold view; cbv [String.append]; simplify_map_eq; reflexivity.
      * destruct (String.eqb (Csv.local_name (ET.tag child)) "RouteLinkRef");
          intros [= <-]; unfold view; cbv [String.append]; simplify_map_eq;
          reflexivity.
Qed.

Lemma link_step_view_to (stops : gmap string (gmap string string))
    (rec rec' : gmap string Py.value) (child : ET.Element) :
  Csv.link_step stops rec child = Py.Return rec' ->
  view "to" rec'
  = if named "From" child then view "to" rec
    else if named "To" child
    then fold_left (apply_ref stops) (refs_of child) (view "to" rec)
    else view "to" rec.
Proof.
  unfold Csv.link_step, named.
  destruct (String.eqb (Csv.local_name (ET.tag child)) "From").
  - intros [= <-]. apply view_frame. intros k Hk.
    apply extract_stop_point_frame. now apply keys_apart'.
  - destruct (String.eqb (Csv.local_name (ET.tag child)) "To").
    + intros [= <-]. apply extract_stop_point_view. now right.
    + destruct (String.eqb (Csv.local_name (ET.tag child)) "RunTime").
      * intros H. apply bind_Return in H as (secs & _ & [= <-]).
        unfold view; cbv [String.append]; simplify_map_eq; reflexivity.
      * destruct (String.eqb (Csv.local_name (ET.tag child)) "RouteLinkRef");
          intros [= <-]; unfold view; cbv [String.append]; simplify_map_eq;
          reflexivity.
Qed.

Lemma named_from_not_to (c : ET.Element) :
  named "From" c = true -> named "To" c = false.
Proof.
  unfold named. intros H. apply String.eqb_eq in H. now rewrite H.
Qed.

Lemma new_record_view (prefix filename section_id : string) (link : ET.Element) :
  prefix = "from" \/ prefix = "to" ->
  view prefix (Csv.new_record filename section_id link) = unset.
Proof.
  intros [-> | ->]; unfold view, Csv.new_record, unset; cbv [String.append];
    simplify_map_eq; reflexivity.
Qed.

(** Reading the children with a given name one after the other is
    reading the stop references of that side. *)
Lemma fold_side_from (stops : gmap string (gmap string string))
    (children : list ET.Element) (v : join_view) :
  fold_left
    (fun v c => if named "From" c
                then fold_left (apply_ref stops) (refs_of c) v else v)
    children v
  = fold_left (apply_ref stops)
      (flat_map refs_of (List.filter (named "From") children)) v.
Proof.
  revert v. induction children as [|c cs IH]; intros v; cbn; [reflexivity|].
  rewrite IH. destruct (named "From" c); cbn; [|reflexivity].
  now rewrite fold_left_app.
Qed.

Lemma fold_side_to (stops : gmap string (gmap string string))
    (children : list ET.Element) (v : join_view) :
  fold_left
    (fun v c => if named "From" c then v
                else if named "To" c
                then fold_left (apply_ref stops) (refs_of c) v else v)
    children v
  = fold_left (apply_ref stops)
      (flat_map refs_of (List.filter (named "To") children)) v.
Proof.
  revert v. induction children as [|c cs IH]; intros v; cbn; [reflexivity|].
  rewrite IH. destruct (named "From" c) eqn:Hfrom.
  - now rewrite (named_from_not_to c Hfrom).
  - destruct (named "To" c); cbn; [|reflexivity].
    now rewrite fold_left_app.
Qed.

(** The joined entries of the record of a link are those that its stop
    references leave, taken in document order. *)
Lemma link_record_view_from (stops : gmap string (gmap string string))
    (filename section_id : string) (link : ET.Element)
    (rec : gmap string Py.value) :
  Csv.link_record stops filename section_id link = Py.Return rec ->
  view "from" rec = fold_left (apply_ref stops) (stop_refs "From" link) unset.
Proof.
  unfold Csv.link_record, stop_refs. intros H.
  rewrite <- (new_record_view "from" filename section_id link) by now left.
  rewrite <- fold_side_from.
  apply (for_each_fold (Csv.link_step stops) (view "from")) with (2 := H).
  intros a b a' _. apply link_step_view_from.
Qed.

Lemma link_record_view_to (stops : gmap string (gmap string string))
    (filename section_id : string) (link : ET.Element)
    (rec : gmap string Py.value) :
  Csv.link_record stops filename section_id link = Py.Return rec ->
  view "to" rec = fold_left (apply_ref stops) (stop_refs "To" link) unset.
Proof.
  unfold Csv.link_record, stop_refs. intros H.
  rewrite <- (new_record_view "to" filename section_id link) by now right.
  rewrite <- fold_side_to.
  apply (for_each_fold (Csv.link_step stops) (view "to")) with (2 := H).
  intros a b a' _. apply link_step_view_to.
Qed.

(** The stop id that a list of references leaves is the last one. *)
Lemma apply_refs_id (stops : gmap string (gmap string string))
    (refs : list string) (v : join_view) :
  v_id (fold_left (apply_ref stops) refs v)
  = match last refs with
    | Some sid => Some (Py.VStr sid)
    | None => v_id v
    end.
Proof.
  revert v. induction refs as [|sid refs IH]; intros v; [reflexivity|].
  cbn [fold_left]. rewrite IH, last_cons.
  destruct (last refs); [reflexivity|].
  unfold apply_ref. destruct (stops !! sid); reflexivity.
Qed.

(** A child that is no From element leaves the keys of "from", and a
    child that is no To element leaves the keys of "to". *)
Lemma link_step_frame_from (stops : gmap string (gmap string string))
    (rec rec' : gmap string Py.value) (child : ET.Element) (k : string) :
  named "From" child = false -> In k (keys_of "from") ->
  Csv.link_step stops rec child = Py.Return rec' ->
  rec' !! k = rec !! k.
Proof.
  unfold Csv.link_step, named. intros -> Hk.
  destruct (String.eqb (Csv.local_name (ET.tag child)) "To").
  - intros [= <-]. apply extract_stop_point_frame. now apply keys_apart.
  - unfold keys_of in Hk. cbv [String.append] in Hk. simpl in Hk.
    destruct (String.eqb (Csv.local_name (ET.tag child)) "RunTime").
    + intros H. apply bind_Return in H as (secs & _ & [= <-]).
      repeat (destruct Hk as [<- | Hk]; [simplify_map_eq; reflexivity|]).
      contradiction.
    + destruct (String.eqb (Csv.local_name (ET.tag child)) "RouteLinkRef");
        intros [= <-];
        repeat (destruct Hk as [<- | Hk]; [simplify_map_eq; reflexivity|]);
        contradiction.
Qed.

Lemma link_step_frame_to (stops : gmap string (gmap string string))
    (rec rec' : gmap string Py.value) (child : ET.Element) (k : string) :
  named "To" child = false -> In k (keys_of "to") ->
  Csv.link_step stops rec child = Py.Return rec' ->
  rec' !! k = rec !! k.
Proof.
  unfold Csv.link_step, named. intros Hto Hk.
  destruct (String.eqb (Csv.local_name (ET.tag child)) "From").
  - intros [= <-]. apply extract_stop_point_frame. now apply keys_apart'.
  - rewrite Hto.
    unfold keys_of in Hk. cbv [String.append] in Hk. simpl in Hk.
    destruct (String.eqb (Csv.local_name (ET.tag child)) "RunTime").
    + intros H. apply bind_Return in H as (secs & _ & [= <-]).
      repeat (destruct Hk as [<- | Hk]; [simplify_map_eq; reflexivity|]).
      contradiction.
    + destruct (String.eqb (Csv.local_name (ET.tag child)) "RouteLinkRef");
        intros [= <-];
        repeat (destruct Hk as [<- | Hk]; [simplify_map_eq; reflexivity|]);
        contradiction.
Qed.

Lemma new_record_keys (prefix filename section_id : string) (link : ET.Element)
    (k : string) :
  prefix = "from" \/ prefix = "to" -> In k (keys_of prefix) ->
  Csv.new_record filename section_id link !! k = None.
Proof.
  intros [-> | ->] Hk; unfold keys_of in Hk; cbv [String.append] in Hk;
    simpl in Hk; unfold Csv.new_record;
    repeat (destruct Hk as [<- | Hk]; [simplify_map_eq; reflexivity|]);
    contradiction.
Qed.

Lemma filter_nil_In {E : Type} (f : E -> bool) (l : list E) (x : E) :
  List.filter f l = [] -> In x l -> f x = false.
Proof.
  intros Hnil Hin. destruct (f x) eqn:Hx; [|reflexivity].
  assert (Hf : In x (List.filter f l)) by (apply filter_In; auto).
  rewrite Hnil in Hf. contradiction.
Qed.

Lemma fold_left_const {E V : Type} (l : list E) (v : V) :
  fold_left (fun v _ => v) l v = v.
Proof. induction l as [|x l IH]; [reflexivity | exact IH]. Qed.

(** A link without a From child sets no key of "from"; likewise for
    To. *)
Lemma link_record_absent_from (stops : gmap string (gmap string string))
    (filename section_id : string) (link : ET.Element) (k : string)
    (rec : gmap string Py.value) :
  List.filter (named "From") (ET.children link) = [] -> In k (keys_of "from") ->
  Csv.link_record stops filename section_id link = Py.Return rec ->
  rec !! k = None.
Proof.
  intros Hnone Hk H. unfold Csv.link_record in H.
  rewrite <- (new_record_keys "from" filename section_id link k) by auto.
  rewrite <- (fold_left_const (ET.children link)
                (Csv.new_record filename section_id link !! k)).
  apply (for_each_fold (Csv.link_step stops) (fun rec => rec !! k)) with (2 := H).
  intros a b a' Hb. apply link_step_frame_from; [|exact Hk].
  now apply (filter_nil_In _ (ET.children link)).
Qed.

Lemma link_record_absent_to (stops : gmap string (gmap string string))
    (filename section_id : string) (link : ET.Element) (k : string)
    (rec : gmap string Py.value) :
  List.filter (named "To") (ET.children link) = [] -> In k (keys_of "to") ->
  Csv.link_record stops filename section_id link = Py.Return rec ->
  rec !! k = None.
Proof.
  intros Hnone Hk H. unfold Csv.link_record in H.
  rewrite <- (new_record_keys "to" filename section_id link k) by auto.
  rewrite <- (fold_left_const (ET.children link)
                (Csv.new_record filename section_id link !! k)).
  apply (for_each_fold (Csv.link_step stops) (fun rec => rec !! k)) with (2 := H).
  intros a b a' Hb. apply link_step_frame_to; [|exact Hk].
  now apply (filter_nil_In _ (ET.children link)).
Qed.

(** The [update] of [process_file] leaves the keys of both sides. *)
Lemma enrich_frame (prefix : string) (service_data operator_data : gmap string string)
    (rec : gmap string Py.value) (k : string) :
  prefix = "from" \/ prefix = "to" -> In k (keys_of prefix) ->
  Csv.enrich service_data operator_data rec !! k = rec !! k.
Proof.
  intros [-> | ->] Hk; unfold keys_of in Hk; cbv [String.append] in Hk;
    simpl in Hk; unfold Csv.enrich;
    repeat (destruct Hk as [<- | Hk]; [simplify_map_eq; reflexivity|]);
    contradiction.
Qed.

Lemma enrich_view (prefix : string) (service_data operator_data : gmap string string)
    (rec : gmap string Py.value) :
  prefix = "from" \/ prefix = "to" ->
  view prefix (Csv.enrich service_data operator_data rec) = view prefix rec.
Proof.
  intros Hp. apply view_frame. intros k Hk. now apply (enrich_frame prefix).
Qed.

(** One round of the loop over the children of a link raises exactly on
    a RunTime child whose text overflows, whatever the record holds. *)
Lemma link_step_Raise (stops : gmap string (gmap string string))
    (rec : gmap string Py.value) (child : ET.Element) :
  Csv.link_step stops rec child = Py.Raise Py.ValueError
  <-> named "RunTime" child && Entry.overflows (Csv.get_text child) = true.
Proof.
  unfold Csv.link_step, named.
  destruct (String.eqb (Csv.local_name (ET.tag child)) "From") eqn:H1.
  { apply String.eqb_eq in H1. rewrite H1. cbn. split; discriminate. }
  destruct (String.eqb (Csv.local_name (ET.tag child)) "To") eqn:H2.
  { apply String.eqb_eq in H2. rewrite H2. cbn. split; discriminate. }
  destruct (String.eqb (Csv.local_name (ET.tag child)) "RunTime").
  - cbn [andb]. rewrite bind_Raise, parse_duration_raises. split.
    + intros [H | (secs & _ & H)]; [exact H | discriminate].
    + intros H. now left.
  - cbn [andb].
    destruct (String.eqb (Csv.local_name (ET.tag child)) "RouteLinkRef");
      split; discriminate.
Qed.

(** The record of a link: the loop raises exactly when the link has a
    RunTime child whose text overflows, and returns a record otherwise. *)
Lemma link_record_Raise (stops : gmap string (gmap string string))
    (filename section_id : string) (link : ET.Element) :
  Csv.link_record stops filename section_id link = Py.Raise Py.ValueError
  <-> Entry.overlong link = true.
Proof.
  unfold Csv.link_record, Entry.overlong.
  apply for_each_Raise. intros a b. apply link_step_Raise.
Qed.

Lemma link_record_Return (stops : gmap string (gmap string string))
    (filename section_id : string) (link : ET.Element) :
  Entry.overlong link = false ->
  exists rec, Csv.link_record stops filename section_id link = Py.Return rec.
Proof.
  intros Hok.
  destruct (outcome_cases (Csv.link_record stops filename section_id link))
    as [Hret | Hr]; [exact Hret|].
  apply link_record_Raise in Hr. congruence.
Qed.

(** Every record of a document is the enriched record of a timing link
    of a section of the document, a link whose record has a stop. *)
Lemma file_records_In (root : ET.Element) (filename : string)
    (records : list (gmap string Py.value)) (rec : gmap string Py.value) :
  Csv.file_records root filename = Py.Return records ->
  In rec records ->
  exists section link rec0,
    In section (ET.iter root) /\ In link (ET.children section)
    /\ named "JourneyPatternSection" section = true
    /\ named "JourneyPatternTimingLink" link = true
    /\ Csv.link_record (Csv.extract_stops root) filename (ET.get section "id" "") link
       = Py.Return rec0
    /\ Csv.has_stop rec0 = true
    /\ rec = Csv.enrich (Csv.extract_services root) (Csv.extract_operators root) rec0.
Proof.
  unfold Csv.file_records, Csv.extract_route_sections.
  intros H Hin. apply bind_Return in H as (records0 & H & [= <-]).
  apply in_map_iff in Hin as (rec0 & <- & Hin).
  apply gather_Return in H as [_ ->].
  apply in_flat_map in Hin as (section & Hsec & Hin).
  unfold Csv.section_records in Hin.
  destruct (String.eqb (Csv.local_name (ET.tag section)) "JourneyPatternSection")
    eqn:Hname; [|contradiction].
  destruct (Py.gather _ (ET.children section)) as [rs|e] eqn:Hg; [|contradiction].
  apply gather_Return in Hg as [_ ->].
  apply in_flat_map in Hin as (link & Hlink & Hin).
  unfold Csv.link_records in Hin.
  destruct (String.eqb (Csv.local_name (ET.tag link)) "JourneyPatternTimingLink")
    eqn:Hlname; [|contradiction].
  destruct (Csv.link_record _ filename _ link) as [r|e] eqn:Hr; [|contradiction].
  cbn in Hin. destruct (Csv.has_stop r) eqn:Hs; [|contradiction].
  destruct Hin as [<- | []].
  exists section, link, r. repeat split; assumption.
Qed.

(** The extraction of a document raises exactly when one of the timing
    links it visits has a run time that overflows. *)
Lemma file_records_Raise (root : ET.Element) (filename : string) :
  Csv.file_records root filename = Py.Raise Py.ValueError
  <-> existsb Entry.overlong (Entry.visited_links root) = true.
Proof.
  unfold Csv.file_records, Csv.extract_route_sections, Entry.visited_links.
  rewrite bind_Raise, gather_Raise, existsb_exists. split.
  - intros [(section & Hsec & H) | (records & _ & H)]; [|discriminate].
    unfold Csv.section_records in H.
    destruct (String.eqb (Csv.local_name (ET.tag section)) "JourneyPatternSection")
      eqn:Hname; [|discriminate].
    apply gather_Raise in H as (link & Hlink & H).
    unfold Csv.link_records in H.
    destruct (String.eqb (Csv.local_name (ET.tag link)) "JourneyPatternTimingLink")
      eqn:Hlname; [|discriminate].
    apply bind_Raise in H as [H | (rec & _ & H)]; [|discriminate].
    apply link_record_Raise in H.
    exists link. split; [|exact H].
    apply in_flat_map. exists section. split; apply filter_In; auto.
  - intros (link & Hin & Hover). left.
    apply in_flat_map in Hin as (section & Hsec & Hlink).
    apply filter_In in Hsec as [Hsec Hname].
    apply filter_In in Hlink as [Hlink Hlname].
    exists section. split; [exact Hsec|].
    unfold Csv.section_records. unfold named in Hname, Hlname. rewrite Hname.
    apply gather_Raise. exists link. split; [exact Hlink|].
    unfold Csv.link_records. rewrite Hlname.
    apply bind_Raise. left. now apply link_record_Raise.
Qed.

Lemma file_records_Return (root : ET.Element) (filename : string) :
  existsb Entry.overlong (Entry.visited_links root) = false ->
  exists records, Csv.file_records root filename = Py.Return records.
Proof.
  intros Hok.
  destruct (outcome_cases (Csv.file_records root filename)) as [Hret | Hr];
    [exact Hret|].
  apply file_records_Raise in Hr. congruence.
Qed.

End CsvRecords.

(** ** Join correctness *)

Section JoinClaims.

Import Link.

(** C4, as stated, fails in [XMLExtractor]: when the stop id of a side
    is not in the stop index, the record has no stop name, latitude or
    longitude entry for that side at all, instead of the empty string.
    The sample link leaves from S9, which no stop point lists: the one
    record of the document has [from_stop_id] S9 and no [from_stop_name],
    [from_latitude] or [from_longitude] key ([BusDataExtractor] stores
    the empty string there).  A column lists the entry of each record
    under a key. *)
Lemma unresolved_stop_fields_absent_counterexample :
  let root := Sample.unlisted_stop Sample.bare in
  Csv.extract_stops root !! "S9" = None
  /\ match Csv.file_records root "a.xml" with
     | Py.Return records =>
         column "from_stop_id" records = [Some (Py.VStr "S9")]
         /\ column "from_stop_name" records = [None]
         /\ column "from_stop_name" records <> [Some (Py.VStr "")]
         /\ column "from_latitude" records = [None]
         /\ column "from_longitude" records = [None]
     | Py.Raise _ => False
     end.
Proof.
  cbv zeta. split; [vm_compute; reflexivity|].
  vm_compute. repeat split; discriminate.
Qed.

(** C4 (amended).  In [BusDataExtractor], for every segment emitted for
    a document, the from-side stop name, latitude and longitude are those
    of the entry of the document's stop index stored under the segment's
    [from_stop_id] (an entry whose own [stop_id] is that id) when there is
    one, and the empty string when there is none; likewise on the to-side;
    nothing fails on an id that is not in the index.  In [XMLExtractor],
    every emitted record is the enriched record of a timing link, and for
    a link whose From side carries a single stop reference [sid] the
    record has [from_stop_id] = [sid] and, when [sid] is in the stop
    index, the stop name, latitude and longitude of that entry (the empty
    string for a field the entry lacks); when [sid] is not in the index
    these three keys are not set; likewise on the To side.  Building the
    record of a link fails on a run time that [int] cannot convert and on
    nothing else, whatever the stop index holds. *)
Theorem join_against_stop_index :
  (forall self name root seg,
      let self' := fst (Bus.process_single_file self (MkFile name (Parsed root))) in
      let r := snd (Bus.process_single_file self (MkFile name (Parsed root))) in
      In seg (Bus.data r) ->
      match Bus.stops_data self' !! Segment.from_stop_id seg with
      | Some stop =>
          Stop.stop_id stop = Segment.from_stop_id seg
          /\ Segment.from_stop_name seg = Stop.stop_name stop
          /\ Segment.from_latitude seg = Stop.latitude stop
          /\ Segment.from_longitude seg = Stop.longitude stop
      | None =>
          Segment.from_stop_name seg = "" /\ Segment.from_latitude seg = ""
          /\ Segment.from_longitude seg = ""
      end
      /\ match Bus.stops_data self' !! Segment.to_stop_id seg with
         | Some stop =>
             Stop.stop_id stop = Segment.to_stop_id seg
             /\ Segment.to_stop_name seg = Stop.stop_name stop
             /\ Segment.to_latitude seg = Stop.latitude stop
             /\ Segment.to_longitude seg = Stop.longitude stop
         | None =>
             Segment.to_stop_name seg = "" /\ Segment.to_latitude seg = ""
             /\ Segment.to_longitude seg = ""
         end)
  /\ (forall root filename records rec,
      Csv.file_records root filename = Py.Return records ->
      In rec records ->
      exists section link rec0,
        In section (ET.iter root) /\ In link (ET.children section)
        /\ Csv.link_record (Csv.extract_stops root) filename
             (ET.get section "id" "") link = Py.Return rec0
        /\ rec = Csv.enrich (Csv.extract_services root) (Csv.extract_operators root)
                   rec0)
  /\ (forall stops service_data operator_data filename section_id link rec0 sid,
      Csv.link_record stops filename section_id link = Py.Return rec0 ->
      let rec := Csv.enrich service_data operator_data rec0 in
      stop_refs "From" link = [sid] ->
      rec !! "from_stop_id" = Some (Py.VStr sid)
      /\ match stops !! sid with
         | Some stop =>
             rec !! "from_stop_name" = Some (Py.VStr (Py.get_str stop "stop_name"))
             /\ rec !! "from_latitude" = Some (Py.VStr (Py.get_str stop "latitude"))
             /\ rec !! "from_longitude" = Some (Py.VStr (Py.get_str stop "longitude"))
         | None =>
             rec !! "from_stop_name" = None /\ rec !! "from_latitude" = None
             /\ rec !! "from_longitude" = None
         end)
  /\ (forall stops service_data operator_data filename section_id link rec0 sid,
      Csv.link_record stops filename section_id link = Py.Return rec0 ->
      let rec := Csv.enrich service_data operator_data rec0 in
      stop_refs "To" link = [sid] ->
      rec !! "to_stop_id" = Some (Py.VStr sid)
      /\ match stops !! sid with
         | Some stop =>
             rec !! "to_stop_name" = Some (Py.VStr (Py.get_str stop "stop_name"))
             /\ rec !! "to_latitude" = Some (Py.VStr (Py.get_str stop "latitude"))
             /\ rec !! "to_longitude" = Some (Py.VStr (Py.get_str stop "longitude"))
         | None =>
             rec !! "to_stop_name" = None /\ rec !! "to_latitude" = None
             /\ rec !! "to_longitude" = None
         end)
  /\ (forall stops filename section_id link,
      (Entry.overlong link = false ->
       exists rec0, Csv.link_record stops filename section_id link = Py.Return rec0)
      /\ (Csv.link_record stops filename section_id link = Py.Raise Py.ValueError
          <-> Entry.overlong link = true)).
Proof.
  split; [|split; [|split; [|split]]].
  - intros self name root seg self' r Hin.
    destruct (processed_data self name root) as [Hdata _]. cbv zeta in Hdata.
    fold self' r in Hdata. rewrite Hdata in Hin.
    apply extract_timing_links_In in Hin as (section & link & _ & _ & ->).
    destruct (make_segment_join self' name (ET.get section "id" "") link)
      as (H1 & H2 & H3 & H4 & H5 & H6).
    cbv zeta in H1, H2, H3, H4, H5, H6.
    split.
    + destruct (Bus.stops_data self' !! _) as [stop|] eqn:Hlook.
      * apply processed_stop_ids in Hlook as [Hid _]. auto.
      * auto.
    + destruct (Bus.stops_data self' !! Segment.to_stop_id _) as [stop|] eqn:Hlook.
      * apply processed_stop_ids in Hlook as [Hid _]. auto.
      * auto.
  - intros root filename records rec Hret Hin.
    destruct (file_records_In root filename records rec Hret Hin)
      as (section & link & rec0 & H1 & H2 & _ & _ & H3 & _ & H4).
    exists section, link, rec0. auto.
  - intros stops sd od filename section_id link rec0 sid Hret rec Hrefs.
    pose proof (enrich_view "from" sd od rec0 (or_introl eq_refl)) as Hview.
    rewrite (link_record_view_from _ _ _ _ _ Hret), Hrefs in Hview.
    fold rec in Hview.
    unfold view, apply_ref, unset in Hview. cbv [String.append fold_left] in Hview.
    destruct (stops !! sid); injection Hview as -> -> -> ->; auto.
  - intros stops sd od filename section_id link rec0 sid Hret rec Hrefs.
    pose proof (enrich_view "to" sd od rec0 (or_intror eq_refl)) as Hview.
    rewrite (link_record_view_to _ _ _ _ _ Hret), Hrefs in Hview.
    fold rec in Hview.
    unfold view, apply_ref, unset in Hview. cbv [String.append fold_left] in Hview.
    destruct (stops !! sid); injection Hview as -> -> -> ->; auto.
  - intros stops filename section_id link. split.
    + apply link_record_Return.
    + apply link_record_Raise.
Qed.

(** The join at the sample documents: the segment of the scenario
    carries the name and latitude of its two stops, and the record of the
    link that leaves from the unlisted stop S9 has no from-side name
    while its to-side is joined. *)
Lemma join_against_stop_index_witness :
  (exists seg,
      Bus.data (snd (Bus.process_single_file Bus.init Sample.bare_file)) = [seg]
      /\ Segment.from_stop_id seg = "S1"
      /\ Segment.from_stop_name seg = "First Street"
      /\ Segment.to_latitude seg = "51.01")
  /\ (exists rec0,
        Csv.link_record (Csv.extract_stops (Sample.unlisted_stop Sample.bare))
          "a.xml" "JPS1" (Sample.unlisted_link Sample.bare) = Py.Return rec0
        /\ Csv.enrich ∅ ∅ rec0 !! "from_stop_id" = Some (Py.VStr "S9")
        /\ Csv.enrich ∅ ∅ rec0 !! "from_stop_name" = None
        /\ Csv.enrich ∅ ∅ rec0 !! "to_stop_id" = Some (Py.VStr "S2")
        /\ Csv.enrich ∅ ∅ rec0 !! "to_stop_name" = Some (Py.VStr "Second Street")).
Proof.
  destruct join_against_stop_index as (Hbus & _ & Hfrom & Hto & Hret).
  split.
  - eexists. split; [vm_compute; reflexivity|].
    match goal with
    | |- Segment.from_stop_id ?seg = _ /\ _ =>
        pose proof (Hbus Bus.init "bare.xml" (Sample.scenario Sample.bare) seg) as H
    end.
    cbv zeta in H. vm_compute in H.
    destruct (H (or_introl eq_refl)) as ((_ & Hname & _) & (_ & _ & Hlat & _)).
    split; [reflexivity|]. split; [exact Hname | exact Hlat].
  - destruct (proj1 (Hret (Csv.extract_stops (Sample.unlisted_stop Sample.bare))
                        "a.xml" "JPS1" (Sample.unlisted_link Sample.bare)) eq_refl)
      as [rec0 H0].
    exists rec0. split; [exact H0|].
    pose proof (Hfrom (Csv.extract_stops (Sample.unlisted_stop Sample.bare)) ∅ ∅
                  "a.xml" "JPS1" (Sample.unlisted_link Sample.bare) rec0 "S9"
                  H0 eq_refl) as Hf.
    pose proof (Hto (Csv.extract_stops (Sample.unlisted_stop Sample.bare)) ∅ ∅
                  "a.xml" "JPS1" (Sample.unlisted_link Sample.bare) rec0 "S2"
                  H0 eq_refl) as Ht.
    cbv zeta in Hf, Ht.
    destruct Hf as [Hf1 Hf2]. destruct Ht as [Ht1 Ht2].
    change (Csv.extract_stops (Sample.unlisted_stop Sample.bare) !! "S9")
      with (@None (gmap string string)) in Hf2.
    destruct Hf2 as (Hf2 & _).
    split; [exact Hf1|]. split; [exact Hf2|]. split; [exact Ht1|].
    assert (Hname : (fun stop => Py.get_str stop "stop_name")
                      <$> (Csv.extract_stops (Sample.unlisted_stop Sample.bare) !! "S2")
                    = Some "Second Street") by (vm_compute; reflexivity).
    destruct (Csv.extract_stops (Sample.unlisted_stop Sample.bare) !! "S2")
      as [stop|]; [|discriminate Hname].
    cbn in Hname. injection Hname as Hname.
    destruct Ht2 as (Ht2 & _). rewrite Ht2, Hname. reflexivity.
Defined.

End JoinClaims.

(** ** Timing links with a missing end *)

Section MissingEnds.

Import Link.

(** The test of [extract_route_sections] read on the stop references of
    the link. *)
Lemma has_stop_resolved (stops : gmap string (gmap string string))
    (filename section_id : string) (link : ET.Element)
    (rec : gmap string Py.value) :
  Csv.link_record stops filename section_id link = Py.Return rec ->
  Csv.has_stop rec = resolved "From" link || resolved "To" link.
Proof.
  intros Hret. unfold Csv.has_stop, resolved.
  pose proof (f_equal v_id (link_record_view_from _ _ _ _ _ Hret)) as Hf.
  pose proof (f_equal v_id (link_record_view_to _ _ _ _ _ Hret)) as Ht.
  rewrite apply_refs_id in Hf, Ht. unfold view in Hf, Ht.
  cbv [String.append v_id] in Hf, Ht. rewrite Hf, Ht.
  destruct (last (stop_refs "From" link)), (last (stop_refs "To" link)); reflexivity.
Qed.

(** [find] gives nothing exactly when no child has the tag. *)
Lemma find_child_None (e : ET.Element) (t : string) :
  ET.find e (ET.Child t) = None <-> List.filter (ET.has_tag t) (ET.children e) = [].
Proof.
  unfold ET.find, ET.findall.
  destruct (List.filter (ET.has_tag t) (ET.children e)); split;
    try discriminate; reflexivity.
Qed.

(** A segment of a processed document whose link has no From child has
    empty from-side fields; likewise for To. *)
Lemma make_segment_absent_from (self : Bus.Extractor) (name : string)
    (root : ET.Element) (section_id : string) (link : ET.Element) :
  let self' := fst (Bus.process_single_file self (MkFile name (Parsed root))) in
  let seg := Bus.make_segment self' name section_id link in
  ET.find link (ET.Child (Bus.get_tag self' "From")) = None ->
  Segment.from_stop_id seg = "" /\ Segment.from_stop_name seg = ""
  /\ Segment.from_latitude seg = "" /\ Segment.from_longitude seg = ""
  /\ Segment.from_sequence seg = "" /\ Segment.from_timing_status seg = ""
  /\ Segment.from_activity seg = "".
Proof.
  intros self' seg Hfind. subst seg. unfold Bus.make_segment.
  rewrite Hfind. cbn.
  destruct (Bus.stops_data self' !! "") as [r|] eqn:Hlook.
  - apply processed_stop_ids in Hlook as [_ Hne]. now contradiction Hne.
  - repeat split; reflexivity.
Qed.

Lemma make_segment_absent_to (self : Bus.Extractor) (name : string)
    (root : ET.Element) (section_id : string) (link : ET.Element) :
  let self' := fst (Bus.process_single_file self (MkFile name (Parsed root))) in
  let seg := Bus.make_segment self' name section_id link in
  ET.find link (ET.Child (Bus.get_tag self' "To")) = None ->
  Segment.to_stop_id seg = "" /\ Segment.to_stop_name seg = ""
  /\ Segment.to_latitude seg = "" /\ Segment.to_longitude seg = ""
  /\ Segment.to_sequence seg = "" /\ Segment.to_timing_status seg = "".
Proof.
  intros self' seg Hfind. subst seg. unfold Bus.make_segment.
  rewrite Hfind. cbn.
  destruct (Bus.stops_data self' !! "") as [r|] eqn:Hlook.
  - apply processed_stop_ids in Hlook as [_ Hne]. now contradiction Hne.
  - repeat split; reflexivity.
Qed.

(** C5, as stated, fails in [XMLExtractor]: a timing link with both
    sides resolved does not always produce a record.  The sample link L9
    runs from S1 to S2 and has a run time whose seconds component has
    4301 digits: building its record raises [ValueError], so the link
    gives no record, and neither does the link L1 before it, since the
    exception ends the extraction of the file: [process_file] returns 0
    and adds nothing.  [BusDataExtractor] keeps both links, the second
    with a run time of 0 seconds. *)
Lemma overlong_run_time_counterexample :
  let root := Sample.overlong_scenario Sample.bare in
  let link := Sample.overlong_link Sample.bare in
  named "JourneyPatternTimingLink" link = true
  /\ resolved "From" link = true /\ resolved "To" link = true
  /\ Csv.link_records (Csv.extract_stops root) "long.xml" "JPS1" link
     = Py.Raise Py.ValueError
  /\ Csv.file_records root "long.xml" = Py.Raise Py.ValueError
  /\ Csv.process_file Csv.init Sample.overlong_file = (Csv.init, 0%nat)
  /\ map (fun seg => (Segment.timing_link_id seg, Segment.runtime_seconds seg))
         (Bus.data (snd (Bus.process_single_file Bus.init Sample.overlong_file)))
     = [("L1", 90); ("L9", 0)].
Proof.
  cbv zeta. split_conj; vm_compute; reflexivity.
Qed.

(** C5 (amended): in [XMLExtractor] (tag-suffix scan) a timing link
    whose record is built adds that record exactly when one of its two
    sides is resolved, that is, carries a last stop reference that is not
    empty; a link with neither side resolved adds nothing; the record is
    built unless the link has a run time that [int] cannot convert, which
    raises and leaves the whole document without records; in a record
    that is kept, a side whose element is absent from the link has none
    of its keys set.  In [BusDataExtractor] (targeted
    paths) every child with the tag of a timing link of every element
    below the root with the tag of a section gives one segment, in
    document order, whatever ends the link has: the segment of such a
    link is among the segments returned, there are as many segments as
    such links, and a segment whose link has no From (To) child has the
    empty string in every from-side (to-side) field. *)
Theorem missing_ends_dropped_or_kept :
  (forall stops filename section_id link,
      named "JourneyPatternTimingLink" link = true ->
      Csv.link_records stops filename section_id link
      = (rec <- Csv.link_record stops filename section_id link ;;
         Py.Return (if resolved "From" link || resolved "To" link
                    then [rec] else []))
      /\ (Entry.overlong link = false ->
          exists rec, Csv.link_record stops filename section_id link = Py.Return rec)
      /\ (Entry.overlong link = true ->
          Csv.link_records stops filename section_id link = Py.Raise Py.ValueError))
  /\ (forall root filename,
      Csv.file_records root filename = Py.Raise Py.ValueError
      <-> existsb Entry.overlong (Entry.visited_links root) = true)
  /\ (forall stops filename section_id link rec k,
      Csv.link_record stops filename section_id link = Py.Return rec ->
      (List.filter (named "From") (ET.children link) = [] ->
       In k (keys_of "from") -> rec !! k = None)
      /\ (List.filter (named "To") (ET.children link) = [] ->
          In k (keys_of "to") -> rec !! k = None))
  /\ (forall self name root,
      let self' := fst (Bus.process_single_file self (MkFile name (Parsed root))) in
      let r := snd (Bus.process_single_file self (MkFile name (Parsed root))) in
      let is_section := ET.has_tag (Bus.get_tag self' "JourneyPatternSection") in
      let is_link := ET.has_tag (Bus.get_tag self' "JourneyPatternTimingLink") in
      let sections := List.filter is_section (flat_map ET.iter (ET.children root)) in
      Bus.data r
      = flat_map
          (fun section =>
             map (Bus.make_segment self' name (ET.get section "id" ""))
                 (List.filter is_link (ET.children section)))
          sections
      /\ length (Bus.data r)
         = list_sum (map (fun section =>
                            length (List.filter is_link (ET.children section)))
                         sections)
      /\ (forall section link,
            In section (flat_map ET.iter (ET.children root)) ->
            is_section section = true ->
            In link (ET.children section) -> is_link link = true ->
            In (Bus.make_segment self' name (ET.get section "id" "") link)
               (Bus.data r))
      /\ forall section_id link,
          let seg := Bus.make_segment self' name section_id link in
          (List.filter (ET.has_tag (Bus.get_tag self' "From")) (ET.children link) = [] ->
           Segment.from_stop_id seg = "" /\ Segment.from_stop_name seg = ""
           /\ Segment.from_latitude seg = "" /\ Segment.from_longitude seg = ""
           /\ Segment.from_sequence seg = "" /\ Segment.from_timing_status seg = ""
           /\ Segment.from_activity seg = "")
          /\ (List.filter (ET.has_tag (Bus.get_tag self' "To")) (ET.children link) = [] ->
              Segment.to_stop_id seg = "" /\ Segment.to_stop_name seg = ""
              /\ Segment.to_latitude seg = "" /\ Segment.to_longitude seg = ""
              /\ Segment.to_sequence seg = "" /\ Segment.to_timing_status seg = "")).
Proof.
  split; [|split; [|split]].
  - intros stops filename section_id link Hname. split; [|split].
    + unfold Csv.link_records. unfold named in Hname. rewrite Hname.
      destruct (Csv.link_record stops filename section_id link) as [rec|e] eqn:Hret;
        [|reflexivity].
      cbn. now rewrite (has_stop_resolved _ _ _ _ _ Hret).
    + apply link_record_Return.
    + intros Hover. unfold Csv.link_records. unfold named in Hname. rewrite Hname.
      apply (link_record_Raise stops filename section_id) in Hover.
      now rewrite Hover.
  - apply file_records_Raise.
  - intros stops filename section_id link rec k Hret. split.
    + intros Hnone Hk. exact (link_record_absent_from _ _ _ _ _ _ Hnone Hk Hret).
    + intros Hnone Hk. exact (link_record_absent_to _ _ _ _ _ _ Hnone Hk Hret).
  - intros self name root self' r is_section is_link sections.
    destruct (processed_data self name root) as [Hdata _]. cbv zeta in Hdata.
    fold self' r in Hdata.
    assert (Hflat : Bus.data r
                    = flat_map
                        (fun section =>
                           map (Bus.make_segment self' name (ET.get section "id" ""))
                               (List.filter is_link (ET.children section)))
                        sections) by exact Hdata.
    split; [exact Hflat|]. split; [|split].
    + rewrite Hdata. apply extract_timing_links_length.
    + intros section link Hsec Htag Hlink Hltag. rewrite Hflat.
      apply in_flat_map. exists section. split.
      * apply filter_In. auto.
      * apply in_map, filter_In. auto.
    + intros section_id link seg. split.
      * intros Hnone. apply (make_segment_absent_from self name root).
        now apply find_child_None.
      * intros Hnone. apply (make_segment_absent_to self name root).
        now apply find_child_None.
Qed.

(** The filter at the sample links: the link with neither end is dropped
    by [XMLExtractor] and the link with a To end only is kept without any
    from-side key; [BusDataExtractor] returns a segment for each of the
    two, the one of the link with neither end included, with empty
    from-side fields. *)
Lemma missing_ends_dropped_or_kept_witness :
  Csv.link_records (Csv.extract_stops (Sample.open_ended Sample.bare))
    "a.xml" "JPS1" (Sample.endless_link Sample.bare) = Py.Return []
  /\ (exists rec,
        Csv.link_records (Csv.extract_stops (Sample.open_ended Sample.bare))
          "a.xml" "JPS1" (Sample.arrival_link Sample.bare) = Py.Return [rec]
        /\ rec !! "from_stop_id" = None)
  /\ length (Bus.data (snd (Bus.process_single_file Bus.init
                (MkFile "a.xml" (Parsed (Sample.open_ended Sample.bare)))))) = 2%nat
  /\ (exists seg,
        In seg (Bus.data (snd (Bus.process_single_file Bus.init
                  (MkFile "a.xml" (Parsed (Sample.open_ended Sample.bare))))))
        /\ Segment.timing_link_id seg = "L0"
        /\ Segment.from_stop_id seg = "" /\ Segment.from_stop_name seg = ""
        /\ Segment.to_stop_id seg = "").
Proof.
  destruct missing_ends_dropped_or_kept as (Hfilter & _ & Habsent & Hbus).
  split; [|split; [|split]].
  - destruct (Hfilter (Csv.extract_stops (Sample.open_ended Sample.bare))
                "a.xml" "JPS1" (Sample.endless_link Sample.bare) eq_refl)
      as (Heq & Hret & _).
    destruct (Hret eq_refl) as [rec Hrec]. rewrite Heq, Hrec. reflexivity.
  - destruct (Hfilter (Csv.extract_stops (Sample.open_ended Sample.bare))
                "a.xml" "JPS1" (Sample.arrival_link Sample.bare) eq_refl)
      as (Heq & Hret & _).
    destruct (Hret eq_refl) as [rec Hrec]. exists rec. split.
    + rewrite Heq, Hrec. reflexivity.
    + apply (proj1 (Habsent _ "a.xml" "JPS1" (Sample.arrival_link Sample.bare)
                      rec "from_stop_id" Hrec)).
      * reflexivity.
      * left. reflexivity.
  - destruct (Hbus Bus.init "a.xml" (Sample.open_ended Sample.bare))
      as (_ & Hlen & _).
    rewrite Hlen. vm_compute. reflexivity.
  - destruct (Hbus Bus.init "a.xml" (Sample.open_ended Sample.bare))
      as (_ & _ & Hin & Hseg).
    exists (Bus.make_segment
              (fst (Bus.process_single_file Bus.init
                      (MkFile "a.xml" (Parsed (Sample.open_ended Sample.bare)))))
              "a.xml" "JPS1" (Sample.endless_link Sample.bare)).
    split.
    + apply (Hin (Sample.section Sample.bare "JPS1"
                    [Sample.endless_link Sample.bare; Sample.arrival_link Sample.bare])
                 (Sample.endless_link Sample.bare)).
      * vm_compute. tauto.
      * reflexivity.
      * left. reflexivity.
      * reflexivity.
    + destruct (Hseg "JPS1" (Sample.endless_link Sample.bare)) as [Hfrom Hto].
      destruct (Hfrom eq_refl) as (H1 & H2 & _).
      destruct (Hto eq_refl) as (H3 & _).
      split; [reflexivity|]. split; [exact H1|]. split; [exact H2 | exact H3].
Defined.

End MissingEnds.

(** ** The service record *)

Section ServiceRecord.

Import Link.

(** One round of the loop of [extract_services], seen from the origin
    key: an Origin element sets it when it is not set yet, nothing else
    touches it. *)
Lemma service_step_origin (service_data : gmap string string) (elem : ET.Element) :
  Csv.service_step service_data elem !! "service_origin"
  = match service_data !! "service_origin" with
    | Some v => Some v
    | None => if named "Origin" elem then Some (Csv.get_text elem) else None
    end.
Proof.
  unfold Csv.service_step, named.
  destruct (String.eqb (Csv.local_name (ET.tag elem)) "LineName") eqn:H1.
  { apply String.eqb_eq in H1. rewrite H1. simplify_map_eq.
    now destruct (service_data !! "service_origin"). }
  destruct (String.eqb (Csv.local_name (ET.tag elem)) "ServiceCode") eqn:H2.
  { apply String.eqb_eq in H2. rewrite H2. simplify_map_eq.
    now destruct (service_data !! "service_origin"). }
  destruct (service_data !! "service_origin") as [v|] eqn:Hv.
  - rewrite bool_decide_eq_true_2 by eauto. rewrite andb_false_r.
    destruct (_ && _); rewrite ?lookup_insert_ne by discriminate; exact Hv.
  - rewrite bool_decide_eq_false_2 by (intros [? ?]; discriminate).
    rewrite andb_true_r.
    destruct (String.eqb (Csv.local_name (ET.tag elem)) "Origin") eqn:H3.
    + apply lookup_insert_eq.
    + destruct (_ && _); rewrite ?lookup_insert_ne by discriminate; exact Hv.
Qed.

Lemma service_step_destination (service_data : gmap string string) (elem : ET.Element) :
  Csv.service_step service_data elem !! "service_destination"
  = match service_data !! "service_destination" with
    | Some v => Some v
    | None => if named "Destination" elem then Some (Csv.get_text elem) else None
    end.
Proof.
  unfold Csv.service_step, named.
  destruct (String.eqb (Csv.local_name (ET.tag elem)) "LineName") eqn:H1.
  { apply String.eqb_eq in H1. rewrite H1. simplify_map_eq.
    now destruct (service_data !! "service_destination"). }
  destruct (String.eqb (Csv.local_name (ET.tag elem)) "ServiceCode") eqn:H2.
  { apply String.eqb_eq in H2. rewrite H2. simplify_map_eq.
    now destruct (service_data !! "service_destination"). }
  destruct (String.eqb (Csv.local_name (ET.tag elem)) "Origin") eqn:H3.
  { apply String.eqb_eq in H3. rewrite H3.
    destruct (_ && _); simplify_map_eq;
      now destruct (service_data !! "service_destination"). }
  cbn [andb].
  destruct (service_data !! "service_destination") as [v|] eqn:Hv.
  - rewrite bool_decide_eq_true_2 by eauto. rewrite andb_false_r. exact Hv.
  - rewrite bool_decide_eq_false_2 by (intros [? ?]; discriminate).
    rewrite andb_true_r.
    destruct (String.eqb (Csv.local_name (ET.tag elem)) "Destination") eqn:H4.
    + apply lookup_insert_eq.
    + exact Hv.
Qed.

(** The first element with the local name [name], in document order. *)
Lemma first_wins_fold (key name : string) (elems : list ET.Element)
    (service_data : gmap string string) :
  (forall sd e,
      Csv.service_step sd e !! key
      = match sd !! key with
        | Some v => Some v
        | None => if named name e then Some (Csv.get_text e) else None
        end) ->
  fold_left Csv.service_step elems service_data !! key
  = match service_data !! key with
    | Some v => Some v
    | None => Csv.get_text <$> head (List.filter (named name) elems)
    end.
Proof.
  intros Hstep. revert service_data.
  induction elems as [|e elems IH]; intros sd; simpl.
  - now destruct (sd !! key).
  - rewrite IH, Hstep.
    destruct (sd !! key); [reflexivity|].
    destruct (named name e); reflexivity.
Qed.

Lemma extract_services_origin (root : ET.Element) :
  Csv.extract_services root !! "service_origin"
  = Csv.get_text <$> head (List.filter (named "Origin") (ET.iter root)).
Proof.
  unfold Csv.extract_services.
  rewrite (first_wins_fold "service_origin" "Origin") by apply service_step_origin.
  now rewrite lookup_empty.
Qed.

Lemma extract_services_destination (root : ET.Element) :
  Csv.extract_services root !! "service_destination"
  = Csv.get_text <$> head (List.filter (named "Destination") (ET.iter root)).
Proof.
  unfold Csv.extract_services.
  rewrite (first_wins_fold "service_destination" "Destination")
    by apply service_step_destination.
  now rewrite lookup_empty.
Qed.

End ServiceRecord.

Section ServiceClaims.

Import Link.

(** C6, as stated, fails in [XMLExtractor]: a later Service element is
    not ignored.  In the sample document with two services, the first
    LineName and ServiceCode elements say DIAM_14 and SVC1, yet the one
    record carries the line name X99 and the service code SVC2 of the
    second service, next to the origin Alpha of the first. *)
Lemma later_service_overrides_counterexample :
  let root := Sample.two_services Sample.bare in
  Csv.get_text <$> head (List.filter (named "LineName") (ET.iter root))
  = Some "DIAM_14"
  /\ Csv.get_text <$> head (List.filter (named "ServiceCode") (ET.iter root))
     = Some "SVC1"
  /\ match Csv.file_records root "a.xml" with
     | Py.Return records =>
         column "line_name" records = [Some (Py.VStr "X99")]
         /\ column "service_code" records = [Some (Py.VStr "SVC2")]
         /\ column "service_origin" records = [Some (Py.VStr "Alpha")]
     | Py.Raise _ => False
     end.
Proof.
  cbv zeta. repeat split; vm_compute; repeat split; reflexivity.
Qed.

(** C6 (amended).  In [BusDataExtractor] a document gives at most one
    service record: when a Service element lies below the root, exactly
    one, read from the first such element in document order, and every
    segment of the document carries its service code, line name, origin
    and destination, whatever the later Service elements hold; when there
    is none, no record is counted and the four fields are empty.  In
    [XMLExtractor] every record of a document carries as service origin
    and destination the text of the first Origin and of the first
    Destination element of the document (the empty string when there is
    none). *)
Theorem first_service_wins :
  (forall self name root,
      let self' := fst (Bus.process_single_file self (MkFile name (Parsed root))) in
      let r := snd (Bus.process_single_file self (MkFile name (Parsed root))) in
      match ET.findall root (ET.Descendant (Bus.get_tag self' "Service")) with
      | svc :: _ =>
          Bus.services_found r = 1%nat
          /\ Bus.service_info self' = Some (Bus.read_service self' svc)
          /\ forall seg,
              In seg (Bus.data r) ->
              Segment.service_code seg = Service.service_code (Bus.read_service self' svc)
              /\ Segment.line_name seg = Service.line_name (Bus.read_service self' svc)
              /\ Segment.service_origin seg = Service.origin (Bus.read_service self' svc)
              /\ Segment.service_destination seg
                 = Service.destination (Bus.read_service self' svc)
      | [] =>
          Bus.services_found r = 0%nat
          /\ Bus.service_info self' = None
          /\ forall seg,
              In seg (Bus.data r) ->
              Segment.service_code seg = "" /\ Segment.line_name seg = ""
              /\ Segment.service_origin seg = "" /\ Segment.service_destination seg = ""
      end)
  /\ (forall root filename records rec,
      Csv.file_records root filename = Py.Return records ->
      In rec records ->
      rec !! "service_origin"
      = Some (Py.VStr (default ""
                (Csv.get_text <$> head (List.filter (named "Origin") (ET.iter root)))))
      /\ rec !! "service_destination"
         = Some (Py.VStr (default ""
                   (Csv.get_text
                      <$> head (List.filter (named "Destination") (ET.iter root)))))).
Proof.
  split.
  - intros self name root self' r.
    pose proof (processed_service self name root) as Hsvc. cbv zeta in Hsvc.
    fold self' in Hsvc.
    destruct (processed_data self name root) as [Hdata Hcount]. cbv zeta in Hdata, Hcount.
    fold self' r in Hdata, Hcount.
    destruct (ET.findall root (ET.Descendant (Bus.get_tag self' "Service")))
      as [|svc rest]; cbn in Hsvc; rewrite Hsvc in Hcount;
      (split; [exact Hcount|]); (split; [exact Hsvc|]);
      intros seg Hin; rewrite Hdata in Hin;
      apply extract_timing_links_In in Hin as (section & link & _ & _ & ->);
      destruct (make_segment_service self' name (ET.get section "id" "") link)
        as (H1 & H2 & H3 & H4); cbv zeta in H1, H2, H3, H4;
      rewrite Hsvc in H1, H2, H3, H4; auto.
  - intros root filename records rec Hret Hin.
    destruct (file_records_In root filename records rec Hret Hin)
      as (section & link & rec0 & _ & _ & _ & _ & _ & _ & ->).
    unfold Csv.enrich, Py.get_str.
    rewrite extract_services_origin, extract_services_destination.
    split; simplify_map_eq; f_equal; f_equal;
      match goal with |- context [head ?l] => destruct (head l) end; reflexivity.
Qed.

(** The service record at the sample document with two services: the
    segment of [BusDataExtractor] carries the line name and the service
    code of the first. *)
Lemma first_service_wins_witness :
  exists seg,
    Bus.data (snd (Bus.process_single_file Bus.init
                     (MkFile "a.xml" (Parsed (Sample.two_services Sample.bare)))))
    = [seg]
    /\ Segment.line_name seg = "DIAM_14" /\ Segment.service_code seg = "SVC1".
Proof.
  destruct first_service_wins as [Hbus _].
  pose proof (Hbus Bus.init "a.xml" (Sample.two_services Sample.bare)) as H.
  cbv zeta in H.
  eexists. split; [vm_compute; reflexivity|].
  match goal with
  | |- Segment.line_name ?seg = _ /\ _ =>
      match type of H with
      | match ?l with _ => _ end =>
          let l' := eval vm_compute in l in
          change l with l' in H
      end;
      destruct H as (_ & _ & H); destruct (H seg) as (Hcode & Hline & _)
  end.
  - vm_compute. left. reflexivity.
  - split.
    + rewrite Hline. vm_compute. reflexivity.
    + rewrite Hcode. vm_compute. reflexivity.
Defined.

End ServiceClaims.

(** ** The stop index of XMLExtractor *)

Section StopIds.

Import StopIndex.

(** One child of a stop, seen from [stop_id]. *)
Lemma stop_child_step_id (acc : string * gmap string string) (child : ET.Element) :
  fst (Csv.stop_child_step acc child)
  = if is_id_child child then Csv.get_text child else fst acc.
Proof.
  destruct acc as [stop_id stop_data]. unfold Csv.stop_child_step, is_id_child.
  destruct (Py.str_in _ _); [reflexivity|].
  repeat match goal with |- context [if ?b then _ else _] => destruct b end;
    reflexivity.
Qed.

Lemma read_children_id (children : list ET.Element) (acc : string * gmap string string) :
  fst (fold_left Csv.stop_child_step children acc)
  = default (fst acc) (last (map Csv.get_text (List.filter is_id_child children))).
Proof.
  revert acc. induction children as [|c cs IH]; intros acc; [reflexivity|].
  cbn [fold_left List.filter]. rewrite IH, stop_child_step_id.
  destruct (is_id_child c); [|reflexivity].
  cbn [map]. rewrite last_cons.
  destruct (last (map Csv.get_text (List.filter is_id_child cs))); reflexivity.
Qed.

(** The id under which a stop is filed is the text of its last id
    child. *)
Lemma read_stop_id (stop : ET.Element) :
  fst (Csv.read_stop stop) = last_text stop.
Proof. unfold Csv.read_stop, last_text, id_texts. now rewrite read_children_id. Qed.

Lemma location_fold_id (children : list ET.Element) (stop_data : gmap string string) :
  fold_left Csv.location_step children stop_data !! "stop_id" = stop_data !! "stop_id".
Proof.
  revert stop_data. induction children as [|c cs IH]; intros sd; [reflexivity|].
  cbn [fold_left]. rewrite IH. unfold Csv.location_step.
  repeat match goal with |- context [if ?b then _ else _] => destruct b end;
    rewrite ?lookup_insert_ne by discriminate; reflexivity.
Qed.

(** The [stop_id] entry of the data of a stop follows [stop_id]. *)
Lemma stop_child_step_entry (acc : string * gmap string string) (child : ET.Element) :
  snd (Csv.stop_child_step acc child) !! "stop_id"
  = if is_id_child child then Some (Csv.get_text child) else snd acc !! "stop_id".
Proof.
  destruct acc as [stop_id stop_data]. unfold Csv.stop_child_step, is_id_child.
  destruct (Py.str_in _ _); [apply lookup_insert_eq|].
  repeat match goal with |- context [if ?b then _ else _] => destruct b end;
    cbn [snd]; rewrite ?location_fold_id, ?lookup_insert_ne by discriminate;
    reflexivity.
Qed.

Lemma read_children_entry (children : list ET.Element) (acc : string * gmap string string) :
  snd (fold_left Csv.stop_child_step children acc) !! "stop_id"
  = match last (map Csv.get_text (List.filter is_id_child children)) with
    | Some sid => Some sid
    | None => snd acc !! "stop_id"
    end.
Proof.
  revert acc. induction children as [|c cs IH]; intros acc; [reflexivity|].
  cbn [fold_left List.filter]. rewrite IH, stop_child_step_entry.
  destruct (is_id_child c); [|reflexivity].
  cbn [map]. rewrite last_cons.
  destruct (last (map Csv.get_text (List.filter is_id_child cs))); reflexivity.
Qed.

(** The loop over all elements: a key is in the index when it was there
    before or is the non-empty id of a stop element, and the data filed
    under a new key carries the key as its [stop_id]. *)
Lemma stop_step_fold (elems : list ET.Element)
    (stops : gmap string (gmap string string)) (k : string) :
  (is_Some (fold_left Csv.stop_step elems stops !! k) <->
   is_Some (stops !! k)
   \/ (k <> ""
       /\ exists stop,
           In stop elems /\ Csv.is_stop_element stop = true /\ last_text stop = k))
  /\ (forall d,
        fold_left Csv.stop_step elems stops !! k = Some d ->
        stops !! k = Some d \/ d !! "stop_id" = Some k).
Proof.
  revert stops. induction elems as [|e elems IH]; intros stops.
  - split; [|auto]. split; [auto|]. intros [H | (_ & stop & [] & _)]. exact H.
  - cbn [fold_left]. destruct (IH (Csv.stop_step stops e)) as [IH1 IH2].
    assert (Hstep :
      Csv.stop_step stops e
      = if Csv.is_stop_element e && Py.str_truthy (last_text e)
        then <[last_text e := snd (Csv.read_stop e)]> stops else stops).
    { unfold Csv.stop_step. rewrite <- read_stop_id.
      destruct (Csv.is_stop_element e); [|reflexivity].
      destruct (Csv.read_stop e) as [sid sd]. cbn [fst snd andb].
      destruct (Py.str_truthy sid); reflexivity. }
    assert (Hentry : Py.str_truthy (last_text e) = true ->
                     snd (Csv.read_stop e) !! "stop_id" = Some (last_text e)).
    { intros Ht. unfold Csv.read_stop. rewrite read_children_entry.
      unfold last_text, id_texts in *.
      destruct (last _); [reflexivity | discriminate Ht]. }
    split.
    + rewrite IH1, Hstep. split.
      * intros [Hsome | (Hne & stop & Hin & Hs & Hk)].
        -- destruct (Csv.is_stop_element e && Py.str_truthy (last_text e)) eqn:Hc;
             [|now left].
           apply andb_prop in Hc as [Hel Ht].
           rewrite lookup_insert in Hsome. case_decide as Heq; [|now left].
           right. split.
           ++ intros ->. rewrite Heq in Ht. discriminate Ht.
           ++ exists e. simpl. auto.
        -- right. split; [exact Hne|]. exists stop. simpl. auto.
      * intros [Hsome | (Hne & stop & [<- | Hin] & Hs & Hk)].
        -- left. destruct (_ && _); [|exact Hsome].
           rewrite lookup_insert. case_decide; [eauto | exact Hsome].
        -- left. rewrite Hs. subst k.
           assert (Ht : Py.str_truthy (last_text e) = true)
             by (destruct (last_text e); [contradiction | reflexivity]).
           rewrite Ht. cbn [andb]. rewrite lookup_insert_eq. eauto.
        -- right. split; [exact Hne|]. exists stop. auto.
    + intros d Hd. destruct (IH2 d Hd) as [Hhere | Hid]; [|now right].
      rewrite Hstep in Hhere.
      destruct (Csv.is_stop_element e && Py.str_truthy (last_text e)) eqn:Hc;
        [|now left].
      apply andb_prop in Hc as [_ Ht].
      rewrite lookup_insert in Hhere. case_decide as Heq; [|now left].
      right. injection Hhere as <-. rewrite <- Heq. now apply Hentry.
Qed.

End StopIds.

Section StopIdClaims.

Import StopIndex.

(** C7, as stated, fails: of the StopPointRef and AtcoCode children of a
    stop it is the last one that decides, empty or not, and not the first
    one that is not empty.  The first sample stop has the ids A then B:
    it is filed under B and not under A.  The second has the id C then an
    empty AtcoCode: it is not filed at all. *)
Lemma last_stop_id_wins_counterexample :
  let stops := Csv.extract_stops Sample.stop_points in
  first_non_empty Sample.two_ids = "A"
  /\ stops !! "A" = None
  /\ match stops !! "B" with
     | Some stop_data => stop_data !! "stop_name"
     | None => None
     end = Some "Both"
  /\ first_non_empty Sample.second_id_empty = "C"
  /\ stops !! "C" = None.
Proof. cbv zeta. repeat split; vm_compute; reflexivity. Qed.

(** C7 (amended): when the stop index of [XMLExtractor] is built, the id
    of a stop is the text of the last of its StopPointRef and AtcoCode
    children (the empty string when it has none); a key is in the index
    exactly when it is not empty and is the id of a StopPoint or
    AnnotatedStopPointRef element of the document; the data filed under a
    key carries the key as its [stop_id]. *)
Theorem last_stop_id_wins :
  (forall stop, fst (Csv.read_stop stop) = last_text stop)
  /\ (forall root k,
      is_Some (Csv.extract_stops root !! k) <->
      k <> ""
      /\ exists stop,
          In stop (ET.iter root) /\ Csv.is_stop_element stop = true
          /\ last_text stop = k)
  /\ (forall root k stop_data,
      Csv.extract_stops root !! k = Some stop_data ->
      stop_data !! "stop_id" = Some k).
Proof.
  split; [exact read_stop_id|]. split.
  - intros root k. unfold Csv.extract_stops.
    destruct (stop_step_fold (ET.iter root) ∅ k) as [H _]. rewrite H.
    split; [|auto]. intros [Hsome | H']; [|exact H'].
    rewrite lookup_empty in Hsome. destruct Hsome as [? Hsome]. discriminate Hsome.
  - intros root k d Hd. unfold Csv.extract_stops in Hd.
    destruct (stop_step_fold (ET.iter root) ∅ k) as [_ H].
    destruct (H d Hd) as [Hempty | Hid]; [|exact Hid].
    rewrite lookup_empty in Hempty. discriminate Hempty.
Qed.

(** The index of the sample stop points holds the key B, the last id of
    the first stop. *)
Lemma last_stop_id_wins_witness :
  is_Some (Csv.extract_stops Sample.stop_points !! "B")
  /\ fst (Csv.read_stop Sample.two_ids) = "B".
Proof.
  destruct last_stop_id_wins as (Hid & Hdom & _). split.
  - apply (proj2 (Hdom Sample.stop_points "B")). split; [discriminate|].
    exists Sample.two_ids. split; [right; left; reflexivity|].
    split; reflexivity.
  - rewrite Hid. reflexivity.
Defined.

End StopIdClaims.

(** ** The quality report *)

Section QualityReport.

Lemma dict_get_set {V : Type} (k k' : string) (v : V) (d : list (string * V)) :
  Py.dict_get k (Py.dict_set k' v d)
  = if decide (k' = k) then Some v else Py.dict_get k d.
Proof.
  induction d as [|[k0 v0] d IH]; simpl.
  - reflexivity.
  - destruct (decide (k0 = k')) as [->|Hne]; simpl.
    + destruct (decide (k' = k)); reflexivity.
    + rewrite IH. destruct (decide (k0 = k)) as [->|]; [|reflexivity].
      destruct (decide (k' = k)); [congruence | reflexivity].
Qed.

(** A dict filled key by key holds, under each of the keys, the value
    computed for it, and is unchanged under any other key. *)
Lemma dict_filled {V : Type} (g : string -> V) (keys : list string)
    (d : list (string * V)) (k : string) :
  Py.dict_get k (fold_left (fun d f => Py.dict_set f (g f) d) keys d)
  = if in_dec String.string_dec k keys then Some (g k) else Py.dict_get k d.
Proof.
  revert d. induction keys as [|f fs IH]; intros d; [reflexivity|].
  cbn [fold_left]. rewrite IH, dict_get_set.
  destruct (in_dec String.string_dec k fs) as [Hfs | Hfs];
    destruct (in_dec String.string_dec k (f :: fs)) as [Hin | Hin].
  - reflexivity.
  - exfalso. apply Hin. now right.
  - destruct Hin as [-> | Hin]; [|contradiction]. now rewrite decide_True.
  - rewrite decide_False; [reflexivity|]. intros ->. apply Hin. now left.
Qed.

(** The populated count of a field never exceeds the number of
    segments. *)
Lemma count_populated_le (segs : list Segment.t) (field : string) :
  (Bus.count_populated segs field <= length segs)%nat.
Proof. unfold Bus.count_populated. apply List.filter_length_le. Qed.

(** The report over a list of segments that is not empty. *)
Lemma quality_of_segments (self : Bus.Extractor) :
  Bus.timing_segments self <> [] ->
  Bus.calculate_data_quality self
  = fold_left
      (fun quality_metrics field =>
         Py.dict_set field (Bus.field_metrics (Bus.timing_segments self) field)
                     quality_metrics)
      Bus.key_fields [].
Proof.
  unfold Bus.calculate_data_quality.
  destruct (Bus.timing_segments self); [contradiction | reflexivity].
Qed.

Lemma field_metrics_nonempty (segs : list Segment.t) (field : string) :
  segs <> [] ->
  Bus.field_metrics segs field
  = Bus.MkMetrics
      (Bus.count_populated segs field)
      (Py.round2
         (PrimFloat.mul
            (Py.true_div (Bus.count_populated segs field) (length segs))
            (Py.float_of_nat 100))).
Proof.
  intros Hne. unfold Bus.field_metrics.
  destruct segs as [|seg segs]; [contradiction | reflexivity].
Qed.

End QualityReport.

Section QualityClaims.

(** C8, as stated, fails on the empty segment list: the report is then
    the empty dict, with no entry under any key field, and not a report
    with zero/zero entries. *)
Lemma empty_report_counterexample :
  Bus.timing_segments Bus.init = []
  /\ Bus.calculate_data_quality Bus.init = []
  /\ Py.dict_get "from_stop_id" (Bus.calculate_data_quality Bus.init) = None
  /\ Py.dict_get "from_stop_id" (Bus.calculate_data_quality Bus.init)
     <> Some (Bus.MkMetrics 0 (Py.float_of_nat 0)).
Proof. repeat split; try reflexivity. discriminate. Qed.

(** C8 (amended): over a segment list that is not empty the report has
    exactly the ten key fields, and the entry of each gives the number of
    segments in which the field is truthy (a text that is not empty, a
    run time that is not 0), which never exceeds the number of segments,
    and that number divided by the total and multiplied by 100 in binary64,
    rounded to two decimals; with ten segments of which seven have the
    field, the entry is populated = 7 and completeness = 70.0.  Over the
    empty segment list the report is the empty dict: no failure and no
    entry. *)
Theorem quality_report_entries :
  (forall self field,
      let segs := Bus.timing_segments self in
      segs <> [] -> In field Bus.key_fields ->
      Py.dict_get field (Bus.calculate_data_quality self)
      = Some (Bus.MkMetrics
                (Bus.count_populated segs field)
                (Py.round2
                   (PrimFloat.mul
                      (Py.true_div (Bus.count_populated segs field) (length segs))
                      (Py.float_of_nat 100))))
      /\ (Bus.count_populated segs field <= length segs)%nat)
  /\ (forall self,
      Bus.timing_segments self <> [] ->
      map fst (Bus.calculate_data_quality self) = Bus.key_fields)
  /\ (forall seg,
      Py.truthy_opt (Segment.get seg "from_stop_id")
      = Py.str_truthy (Segment.from_stop_id seg)
      /\ Py.truthy_opt (Segment.get seg "to_stop_id")
         = Py.str_truthy (Segment.to_stop_id seg)
      /\ Py.truthy_opt (Segment.get seg "from_stop_name")
         = Py.str_truthy (Segment.from_stop_name seg)
      /\ Py.truthy_opt (Segment.get seg "to_stop_name")
         = Py.str_truthy (Segment.to_stop_name seg)
      /\ Py.truthy_opt (Segment.get seg "from_latitude")
         = Py.str_truthy (Segment.from_latitude seg)
      /\ Py.truthy_opt (Segment.get seg "from_longitude")
         = Py.str_truthy (Segment.from_longitude seg)
      /\ Py.truthy_opt (Segment.get seg "to_latitude")
         = Py.str_truthy (Segment.to_latitude seg)
      /\ Py.truthy_opt (Segment.get seg "to_longitude")
         = Py.str_truthy (Segment.to_longitude seg)
      /\ Py.truthy_opt (Segment.get seg "runtime_seconds")
         = negb (Segment.runtime_seconds seg =? 0)
      /\ Py.truthy_opt (Segment.get seg "line_name")
         = Py.str_truthy (Segment.line_name seg))
  /\ (forall segs field,
      length segs = 10%nat -> Bus.count_populated segs field = 7%nat ->
      Bus.field_metrics segs field = Bus.MkMetrics 7 70%float)
  /\ (forall self,
      Bus.timing_segments self = [] -> Bus.calculate_data_quality self = []).
Proof.
  split; [|split; [|split; [|split]]].
  - intros self field segs Hne Hin. split; [|apply count_populated_le].
    rewrite quality_of_segments by exact Hne.
    rewrite (dict_filled (Bus.field_metrics segs)).
    destruct (in_dec String.string_dec field Bus.key_fields); [|contradiction].
    now rewrite field_metrics_nonempty.
  - intros self Hne. rewrite quality_of_segments by exact Hne. reflexivity.
  - intros seg. repeat split; reflexivity.
  - intros segs field Hlen Hcount. unfold Bus.field_metrics.
    rewrite Hlen, Hcount. vm_compute. reflexivity.
  - intros self Hnil. unfold Bus.calculate_data_quality. now rewrite Hnil.
Qed.

(** The report over the ten sample segments of which seven carry a
    from-side stop name. *)
Lemma quality_report_entries_witness :
  Py.dict_get "from_stop_name"
    (Bus.calculate_data_quality (Bus.set_timing_segments Bus.init Sample.seven_of_ten))
  = Some (Bus.MkMetrics 7 70%float)
  /\ Py.dict_get "runtime_seconds"
       (Bus.calculate_data_quality (Bus.set_timing_segments Bus.init Sample.seven_of_ten))
     = Some (Bus.MkMetrics 10 100%float)
  /\ Bus.field_metrics Sample.seven_of_ten "from_stop_name" = Bus.MkMetrics 7 70%float.
Proof.
  destruct quality_report_entries as (Hentry & _ & _ & Hseven & _).
  split; [|split].
  - destruct (Hentry (Bus.set_timing_segments Bus.init Sample.seven_of_ten)
                "from_stop_name") as [H _].
    + discriminate.
    + right. right. left. reflexivity.
    + rewrite H. vm_compute. reflexivity.
  - destruct (Hentry (Bus.set_timing_segments Bus.init Sample.seven_of_ten)
                "runtime_seconds") as [H _].
    + discriminate.
    + do 8 right. left. reflexivity.
    + rewrite H. vm_compute. reflexivity.
  - exact (Hseven Sample.seven_of_ten "from_stop_name" eq_refl eq_refl).
Defined.

End QualityClaims.

(** * Further properties of the code *)

(** ** Dicts filled by a loop *)

Section Dicts.

Context {V : Type}.

Lemma dict_get_None (k : string) (d : list (string * V)) :
  Py.dict_get k d = None <-> ~ In k (map fst d).
Proof.
  induction d as [|[k0 v0] d IH]; simpl.
  - tauto.
  - destruct (decide (k0 = k)) as [->|Hne].
    + split; [discriminate | intros H; exfalso; apply H; now left].
    + rewrite IH. tauto.
Qed.

Lemma dict_get_Some_In (k : string) (v : V) (d : list (string * V)) :
  Py.dict_get k d = Some v -> In (k, v) d.
Proof.
  induction d as [|[k0 v0] d IH]; simpl; [discriminate|].
  destruct (decide (k0 = k)) as [->|Hne].
  - intros [= ->]. now left.
  - intros H. right. now apply IH.
Qed.

(** [d[k] = v] keeps the keys in place and appends a new one. *)
Lemma dict_set_keys (k : string) (v : V) (d : list (string * V)) :
  map fst (Py.dict_set k v d)
  = match Py.dict_get k d with
    | Some _ => map fst d
    | None => (map fst d ++ [k])%list
    end.
Proof.
  induction d as [|[k0 v0] d IH]; simpl; [reflexivity|].
  destruct (decide (k0 = k)) as [->|Hne]; simpl; [reflexivity|].
  rewrite IH. now destruct (Py.dict_get k d).
Qed.

Lemma dict_set_NoDup (k : string) (v : V) (d : list (string * V)) :
  List.NoDup (map fst d) -> List.NoDup (map fst (Py.dict_set k v d)).
Proof.
  intros Hnd. rewrite dict_set_keys.
  destruct (Py.dict_get k d) eqn:Hk; [exact Hnd|].
  apply dict_get_None in Hk.
  apply List.NoDup_app; [exact Hnd | constructor; [intros [] | constructor] |].
  intros x Hx [<- | []]. contradiction.
Qed.

Lemma dict_set_length (k : string) (v : V) (d : list (string * V)) :
  (length d <= length (Py.dict_set k v d) <= S (length d))%nat.
Proof.
  rewrite <- !(length_map fst), dict_set_keys.
  destruct (Py.dict_get k d); [lia|]. rewrite length_app. simpl. lia.
Qed.

(** A dict that is not empty keeps its first key. *)
Lemma dict_set_first (k : string) (v : V) (x : string * V) (d : list (string * V)) :
  head (map fst (Py.dict_set k v (x :: d))) = Some (fst x).
Proof.
  destruct x as [k0 v0]. simpl.
  destruct (decide (k0 = k)) as [->|Hne]; reflexivity.
Qed.

Variables (E : Type) (key : E -> string) (val : E -> V).

(** Under each key the last element with that key decides. *)
Lemma dict_loop_get (elems : list E) (d : list (string * V)) (k : string) :
  Py.dict_get k (Dict.loop key val elems d)
  = match last (List.filter (fun e => String.eqb (key e) k) elems) with
    | Some e => Some (val e)
    | None => Py.dict_get k d
    end.
Proof.
  unfold Dict.loop. revert d.
  induction elems as [|e elems IH]; intros d; [reflexivity|].
  cbn [fold_left List.filter]. rewrite IH, dict_get_set.
  destruct (String.eqb (key e) k) eqn:Hk.
  - apply String.eqb_eq in Hk. rewrite last_cons.
    destruct (last _); [reflexivity|]. now rewrite decide_True.
  - apply String.eqb_neq in Hk.
    destruct (last _); [reflexivity|]. now rewrite decide_False.
Qed.

Lemma dict_loop_NoDup (elems : list E) (d : list (string * V)) :
  List.NoDup (map fst d) -> List.NoDup (map fst (Dict.loop key val elems d)).
Proof.
  unfold Dict.loop. revert d.
  induction elems as [|e elems IH]; intros d Hnd; [exact Hnd|].
  cbn [fold_left]. apply IH. now apply dict_set_NoDup.
Qed.

Lemma dict_loop_length (elems : list E) (d : list (string * V)) :
  (length d <= length (Dict.loop key val elems d) <= length d + length elems)%nat.
Proof.
  unfold Dict.loop. revert d.
  induction elems as [|e elems IH]; intros d; cbn [fold_left length]; [lia|].
  pose proof (IH (Py.dict_set (key e) (val e) d)).
  pose proof (dict_set_length (key e) (val e) d). lia.
Qed.

(** Every key of the dict was there before or is the key of an
    element. *)
Lemma dict_loop_keys (elems : list E) (d : list (string * V)) (k : string) :
  In k (map fst (Dict.loop key val elems d)) <->
  In k (map fst d) \/ In k (map key elems).
Proof.
  unfold Dict.loop. revert d.
  induction elems as [|e elems IH]; intros d; cbn [fold_left map].
  - simpl. tauto.
  - rewrite IH, dict_set_keys.
    destruct (Py.dict_get (key e) d) eqn:Hk.
    + apply dict_get_Some_In in Hk. apply (in_map fst) in Hk. simpl in *.
      split; [tauto|]. intros [H | [<- | H]]; auto.
    + rewrite in_app_iff. simpl. tauto.
Qed.

(** A dict that is not empty keeps its first key through the loop. *)
Lemma dict_loop_first_kept (elems : list E) (x : string * V) (d : list (string * V)) :
  head (map fst (Dict.loop key val elems (x :: d))) = Some (fst x).
Proof.
  unfold Dict.loop. revert x d.
  induction elems as [|e elems IH]; intros x d; [reflexivity|].
  cbn [fold_left].
  pose proof (dict_set_first (key e) (val e) x d) as Hfirst.
  destruct (Py.dict_set (key e) (val e) (x :: d)) as [|x' d'] eqn:Hset.
  - discriminate Hfirst.
  - rewrite IH. exact Hfirst.
Qed.

(** Started empty, the dict has the key of the first element first, and
    its first value is that of the last element with this key. *)
Lemma dict_loop_first (e : E) (elems : list E) :
  exists v rest,
    Dict.loop key val (e :: elems) [] = (key e, v) :: rest
    /\ Some v = val <$> last (List.filter (fun e' => String.eqb (key e') (key e))
                                         (e :: elems)).
Proof.
  pose proof (dict_loop_first_kept elems (key e, val e) []) as Hfirst.
  pose proof (dict_loop_get (e :: elems) [] (key e)) as Hget.
  change (Dict.loop key val elems [(key e, val e)])
    with (Dict.loop key val (e :: elems) []) in Hfirst.
  destruct (Dict.loop key val (e :: elems) []) as [|[k v] rest]; [discriminate|].
  simpl in Hfirst. injection Hfirst as ->.
  exists v, rest. split; [reflexivity|].
  simpl in Hget. rewrite decide_True in Hget by reflexivity.
  rewrite Hget. destruct (last _); reflexivity.
Qed.

End Dicts.

(** ** The two duration parsers side by side *)

Section DurationAgreement.

Import DurationSpec.

(** X1.  The two variants of [parse_duration] side by side, on every
    argument, one of three cases holds: the strict one returns [None] and
    the permissive one 0; or the strict one returns a non-negative
    integer and the permissive one the same integer; or the argument is a
    string on which the pattern captures a group of more than 4300
    digits, the strict one raises [ValueError] and the permissive one
    returns 0.  The strict variant returns nothing else. *)
Theorem parse_duration_variants_compared (v : Py.value) :
  (Csv.parse_duration v = Py.Return Py.VNone /\ Bus.parse_duration v = 0)
  \/ (exists n, 0 <= n /\ Csv.parse_duration v = Py.Return (Py.VInt n)
                /\ Bus.parse_duration v = n)
  \/ (exists s, v = Py.VStr s /\ Entry.overflows s = true
                /\ Csv.parse_duration v = Py.Raise Py.ValueError
                /\ Bus.parse_duration v = 0).
Proof.
  destruct v as [|s|z].
  - left. split; reflexivity.
  - destruct (Re.match_duration s) as [m|] eqn:Hm.
    + destruct (match_duration_well_formed s m Hm) as (H1 & H2 & H3).
      pose proof (parse_duration_matched s m Hm) as H. cbv zeta in H.
      destruct (convertible _ _ _) eqn:Hconv; destruct H as [Hb Hc].
      * right. left. eexists. split; [|split; [exact Hc | exact Hb]].
        now apply total_seconds_nonneg.
      * right. right. exists s. split; [reflexivity|].
        split; [|split; [exact Hc | exact Hb]].
        now apply (parse_duration_raises s Py.ValueError).
    + left. destruct (parse_duration_unmatched s Hm) as [Hb Hc]. auto.
  - left. unfold Bus.parse_duration, Csv.parse_duration. simpl.
    destruct (negb (z =? 0)); split; reflexivity.
Qed.

End DurationAgreement.

(** ** Qualified tags *)

Section QualifiedTags.

Import Entry.

Lemma chars_app (a b : string) :
  list_ascii_of_string (a +:+ b)
  = (list_ascii_of_string a ++ list_ascii_of_string b)%list.
Proof. induction a as [|c a IH]; simpl; [reflexivity | now rewrite IH]. Qed.

Lemma until_close_free (l : list ascii) :
  forallb (fun x => negb (Ascii.eqb x "}")) l = true -> Csv.until_close l = l.
Proof.
  induction l as [|c l IH]; simpl; [reflexivity|].
  intros H. apply andb_prop in H as [Hc Hl].
  apply negb_true_iff in Hc. rewrite Hc. now rewrite IH.
Qed.

Lemma until_close_app (a b : list ascii) :
  forallb (fun x => negb (Ascii.eqb x "}")) a = true ->
  Csv.until_close (a ++ "}"%char :: b) = a.
Proof.
  induction a as [|c a IH]; simpl; [reflexivity|].
  intros H. apply andb_prop in H as [Hc Hl].
  apply negb_true_iff in Hc. rewrite Hc. now rewrite IH.
Qed.

Lemma forallb_rev {A : Type} (f : A -> bool) (l : list A) :
  forallb f (rev l) = forallb f l.
Proof.
  induction l as [|x l IH]; simpl; [reflexivity|].
  rewrite forallb_app, IH. simpl. rewrite andb_true_r. apply andb_comm.
Qed.

(** The local name of a name without ['}'] is the name, qualified or
    not. *)
Lemma local_name_bare (name : string) :
  free_of "}" name = true -> Csv.local_name name = name.
Proof.
  unfold free_of, Csv.local_name. intros H.
  rewrite until_close_free by now rewrite forallb_rev.
  rewrite rev_involutive. apply string_of_list_ascii_of_string.
Qed.

Lemma local_name_qualified (ns name : string) :
  free_of "}" name = true ->
  Csv.local_name ("{" +:+ ns +:+ "}" +:+ name) = name.
Proof.
  unfold free_of, Csv.local_name. intros H.
  rewrite !chars_app. cbn [list_ascii_of_string].
  rewrite !rev_app_distr. cbn [rev]. rewrite <- !app_assoc. cbn [app].
  rewrite until_close_app by now rewrite forallb_rev.
  rewrite rev_involutive. apply string_of_list_ascii_of_string.
Qed.

Lemma last_close_free (l : list ascii) (i : nat) :
  forallb (fun x => negb (Ascii.eqb x "}")) l = true -> Re.last_close i l = None.
Proof.
  revert i. induction l as [|c l IH]; intros i; simpl; [reflexivity|].
  intros H. apply andb_prop in H as [Hc Hl].
  apply negb_true_iff in Hc. now rewrite IH, Hc.
Qed.

Lemma last_close_app (a b : list ascii) (i : nat) :
  forallb (fun x => negb (Ascii.eqb x "}")) b = true ->
  Re.last_close i (a ++ "}"%char :: b) = Some (i + length a)%nat.
Proof.
  intros Hb. revert i. induction a as [|c a IH]; intros i; simpl.
  - rewrite last_close_free by exact Hb. f_equal. lia.
  - rewrite IH. f_equal. lia.
Qed.

Lemma line_prefix_free (l : list ascii) :
  forallb (fun x => negb (Ascii.eqb x "}")) l = true ->
  forallb (fun x => negb (Ascii.eqb x "}")) (Re.line_prefix l) = true.
Proof.
  induction l as [|c l IH]; simpl; [reflexivity|].
  intros H. apply andb_prop in H as [Hc Hl].
  destruct (Ascii.eqb c "010"); [reflexivity|]. simpl. now rewrite Hc, IH.
Qed.

Lemma line_prefix_app (a b : list ascii) :
  forallb (fun x => negb (Ascii.eqb x "010")) a = true ->
  Re.line_prefix (a ++ "}"%char :: b) = (a ++ "}"%char :: Re.line_prefix b)%list.
Proof.
  induction a as [|c a IH]; simpl; [reflexivity|].
  intros H. apply andb_prop in H as [Hc Hl].
  apply negb_true_iff in Hc. now rewrite Hc, IH.
Qed.

(** The namespace of a qualified tag is read back. *)
Lemma match_namespace_qualified (ns name : string) :
  ns <> "" -> free_of "010" ns = true -> free_of "}" name = true ->
  Re.match_namespace ("{" +:+ ns +:+ "}" +:+ name) = Some ns.
Proof.
  unfold free_of. intros Hne Hns Hname.
  change ("{" +:+ ns +:+ "}" +:+ name) with (String "{" (ns +:+ String "}" name)).
  unfold Re.match_namespace. rewrite chars_app. cbn [list_ascii_of_string].
  rewrite line_prefix_app by exact Hns.
  destruct ns as [|c ns]; [contradiction|].
  cbn [list_ascii_of_string app].
  rewrite last_close_app by now apply line_prefix_free.
  cbn [Nat.add take]. rewrite take_app_length. cbn [string_of_list_ascii].
  now rewrite string_of_list_ascii_of_string.
Qed.

(** X2.  A tag built by [get_tag] is read back: under a namespace (not
    empty, on one line) [find_namespace]'s pattern gives that namespace
    for the tag of any name without ['}'], and the tag-suffix scan of
    [XMLExtractor] gives the name; without a namespace the tag is the
    name itself. *)
Theorem get_tag_round_trip (self : Bus.Extractor) (name : string) :
  free_of "}" name = true ->
  Csv.local_name (Bus.get_tag self name) = name
  /\ match Bus.namespace self with
     | Some ns =>
         ns <> "" -> free_of "010" ns = true ->
         Re.match_namespace (Bus.get_tag self name) = Some ns
     | None => Bus.get_tag self name = name
     end.
Proof.
  intros Hname. unfold Bus.get_tag.
  destruct (Bus.namespace self) as [ns|]; [|split; [now apply local_name_bare | reflexivity]].
  destruct (Py.str_truthy ns) eqn:Ht.
  - split; [now apply local_name_qualified|].
    intros Hne Hns. now apply match_namespace_qualified.
  - split; [now apply local_name_bare|].
    intros Hne. destruct ns; [contradiction | discriminate Ht].
Qed.

(** The round trip at the namespace of the sample documents. *)
Lemma get_tag_round_trip_witness :
  let self := Bus.set_namespace Bus.init (Some Sample.uri) in
  Csv.local_name (Bus.get_tag self "StopPointRef") = "StopPointRef"
  /\ Re.match_namespace (Bus.get_tag self "StopPointRef") = Some Sample.uri.
Proof.
  cbv zeta.
  destruct (get_tag_round_trip (Bus.set_namespace Bus.init (Some Sample.uri))
              "StopPointRef" eq_refl) as [Hlocal Hns].
  split; [exact Hlocal|]. apply Hns; [discriminate | reflexivity].
Defined.

End QualifiedTags.

(** ** The state that a document leaves *)

Section ProcessedState.

Import Batch Entry.

(** The context of a document keeps the segments of the extractor and
    takes the namespace of the root tag when there is one. *)
Lemma document_context_unfold (self : Bus.Extractor) (root : ET.Element) :
  document_context self root
  = Bus.MkExtractor ∅ (Bus.timing_segments self) None []
      (match Re.match_namespace (ET.tag root) with
       | Some ns => Some ns
       | None => Bus.namespace self
       end).
Proof.
  unfold document_context, Bus.find_namespace.
  destruct (Re.match_namespace (ET.tag root)); reflexivity.
Qed.

Lemma add_stop_unfold (self : Bus.Extractor) (sd : gmap string Stop.t)
    (stop : ET.Element) :
  Bus.add_stop self sd stop
  = if Py.str_truthy (stop_id_of self stop)
    then <[stop_id_of self stop := stop_of self stop]> sd else sd.
Proof. reflexivity. Qed.

(** The five attributes after a document that parses, from its
    context. *)
Lemma processed_state (self : Bus.Extractor) (name : string) (root : ET.Element) :
  let ctx := document_context self root in
  fst (Bus.process_single_file self (MkFile name (Parsed root)))
  = Bus.MkExtractor
      (fold_left (Bus.add_stop ctx)
         (ET.findall root (ET.Descendant (Bus.get_tag ctx "AnnotatedStopPointRef"))) ∅)
      (Bus.timing_segments self)
      (Bus.read_service ctx
         <$> head (ET.findall root (ET.Descendant (Bus.get_tag ctx "Service"))))
      (Dict.loop operator_id_of (operator_of ctx)
         (ET.findall root (ET.Descendant (Bus.get_tag ctx "Operator"))) [])
      (Bus.namespace ctx).
Proof.
  intros ctx. rewrite process_single_file_parsed. cbv zeta. cbn [fst]. fold ctx.
  unfold Bus.extract_services. cbn [fst].
  set (self4 := fst (Bus.extract_operators (fst (Bus.extract_stops ctx root)) root)).
  assert (Htag : Bus.get_tag self4 "Service" = Bus.get_tag ctx "Service")
    by reflexivity.
  rewrite Htag.
  assert (Hts : Bus.timing_segments ctx = Bus.timing_segments self).
  { unfold ctx. now rewrite document_context_unfold. }
  rewrite <- Hts.
  destruct (ET.findall root (ET.Descendant (Bus.get_tag ctx "Service")));
    reflexivity.
Qed.

Lemma stop_of_namespace (a b : Bus.Extractor) (stop : ET.Element) :
  Bus.namespace a = Bus.namespace b ->
  stop_id_of a stop = stop_id_of b stop /\ stop_of a stop = stop_of b stop.
Proof.
  intros H. unfold stop_of, stop_id_of.
  rewrite !(get_tag_namespace a b) by exact H. split; reflexivity.
Qed.

Lemma operator_of_namespace (a b : Bus.Extractor) (oper : ET.Element) :
  Bus.namespace a = Bus.namespace b -> operator_of a oper = operator_of b oper.
Proof.
  intros H. unfold operator_of.
  rewrite !(get_tag_namespace a b) by exact H. reflexivity.
Qed.

(** The two counts of the result are the sizes of the indexes. *)
Lemma processed_counts (self : Bus.Extractor) (name : string) (root : ET.Element) :
  let self' := fst (Bus.process_single_file self (MkFile name (Parsed root))) in
  let r := snd (Bus.process_single_file self (MkFile name (Parsed root))) in
  Bus.stops_found r = size (Bus.stops_data self')
  /\ Bus.operators_found r = length (Bus.operator_info self').
Proof.
  cbv zeta. rewrite process_single_file_parsed. cbv zeta. cbn [fst snd].
  unfold Bus.extract_services. cbn [fst].
  match goal with
  | |- context [match ?l with [] => _ | _ :: _ => _ end] => destruct l
  end; split; reflexivity.
Qed.

(** The namespace and the segments after any file. *)
Lemma processed_frame (self : Bus.Extractor) (f : XmlFile) :
  Bus.namespace (fst (Bus.process_single_file self f))
  = namespace_after (Bus.namespace self) f
  /\ Bus.timing_segments (fst (Bus.process_single_file self f))
     = Bus.timing_segments self.
Proof.
  destruct f as [name [msg|root]]; unfold namespace_after; cbn [file_parse].
  - split; reflexivity.
  - rewrite processed_state. cbv zeta. rewrite document_context_unfold.
    split; reflexivity.
Qed.

(** X3.  Processing the same file twice in a row is the same as
    processing it once: the second pass returns the same result and
    leaves the same state. *)
Theorem process_single_file_idempotent (self : Bus.Extractor) (f : XmlFile) :
  Bus.process_single_file (fst (Bus.process_single_file self f)) f
  = Bus.process_single_file self f.
Proof.
  destruct f as [name [msg|root]]; [reflexivity|].
  destruct (processed_frame self (MkFile name (Parsed root))) as [Hns Hts].
  unfold namespace_after in Hns. cbn [file_parse] in Hns.
  set (self' := fst (Bus.process_single_file self (MkFile name (Parsed root)))) in *.
  rewrite !process_single_file_parsed.
  assert (Hctx : document_context self' root = document_context self root).
  { rewrite !document_context_unfold, Hts, Hns.
    destruct (Re.match_namespace (ET.tag root)); reflexivity. }
  now rewrite Hctx.
Qed.

(** X4.  The namespace is never cleared: after a file it is the
    namespace of the root tag when the file parses and its root is
    qualified, and the namespace from before otherwise; so once a
    namespace is set it stays set over any batch, and a document with an
    unqualified root that comes later is looked up under qualified
    names. *)
Theorem namespace_never_cleared :
  (forall self f,
      Bus.namespace (fst (Bus.process_single_file self f))
      = namespace_after (Bus.namespace self) f)
  /\ (forall files self,
      Bus.namespace (final_extractor self files)
      = fold_left namespace_after files (Bus.namespace self))
  /\ (forall files self,
      is_Some (Bus.namespace self) ->
      is_Some (Bus.namespace (final_extractor self files)))
  /\ (forall self name root ns tag,
      Bus.namespace self = Some ns -> ns <> "" ->
      Re.match_namespace (ET.tag root) = None ->
      Bus.get_tag (fst (Bus.process_single_file self (MkFile name (Parsed root)))) tag
      = "{" +:+ ns +:+ "}" +:+ tag).
Proof.
  assert (Hbatch : forall files self,
             Bus.namespace (final_extractor self files)
             = fold_left namespace_after files (Bus.namespace self)).
  { induction files as [|f fs IH]; intros self; [reflexivity|].
    cbn [final_extractor fold_left]. rewrite IH.
    now destruct (processed_frame self f) as [-> _]. }
  split; [intros; apply processed_frame|]. split; [exact Hbatch|]. split.
  - intros files self. rewrite Hbatch. generalize (Bus.namespace self).
    induction files as [|f fs IH]; intros ns Hns; [exact Hns|].
    cbn [fold_left]. apply IH. unfold namespace_after.
    destruct (file_parse f) as [msg|root]; [exact Hns|].
    destruct (Re.match_namespace (ET.tag root)); [eauto | exact Hns].
  - intros self name root ns tag Hns Hne Hroot.
    destruct (processed_frame self (MkFile name (Parsed root))) as [H _].
    unfold namespace_after in H. cbn [file_parse] in H. rewrite Hroot, Hns in H.
    unfold Bus.get_tag. rewrite H.
    destruct ns; [contradiction | reflexivity].
Qed.

(** The namespace after the qualified and then the bare sample file. *)
Lemma namespace_never_cleared_witness :
  is_Some (Bus.namespace
             (final_extractor (Bus.set_namespace Bus.init (Some Sample.uri))
                              [Sample.bare_file; Sample.bare_file]))
  /\ Bus.get_tag
       (fst (Bus.process_single_file (Bus.set_namespace Bus.init (Some Sample.uri))
               Sample.bare_file))
       "From"
     = "{http://www.transxchange.org.uk/}From".
Proof.
  destruct namespace_never_cleared as (_ & _ & Hkept & Htag). split.
  - apply Hkept. exists Sample.uri. reflexivity.
  - apply (Htag (Bus.set_namespace Bus.init (Some Sample.uri)) "bare.xml"
             (Sample.scenario Sample.bare) Sample.uri "From");
      [reflexivity | discriminate | reflexivity].
Defined.

End ProcessedState.

(** ** The reference indexes of BusDataExtractor, entry by entry *)

Section ReferenceEntries.

Import Batch Entry.

(** The loop of [extract_stops], key by key: the last element with a
    key decides, and the empty id files nothing. *)
Lemma add_stop_fold_exact (self : Bus.Extractor) (stops : list ET.Element)
    (sd : gmap string Stop.t) (k : string) :
  fold_left (Bus.add_stop self) stops sd !! k
  = match last (List.filter (fun e => String.eqb (stop_id_of self e) k) stops) with
    | Some e => if Py.str_truthy k then Some (stop_of self e) else sd !! k
    | None => sd !! k
    end.
Proof.
  revert sd. induction stops as [|e stops IH]; intros sd; [reflexivity|].
  cbn [fold_left List.filter]. rewrite IH, add_stop_unfold.
  destruct (String.eqb (stop_id_of self e) k) eqn:Hk.
  - apply String.eqb_eq in Hk. rewrite last_cons, Hk.
    destruct (last _); destruct (Py.str_truthy k);
      rewrite ?lookup_insert_eq; reflexivity.
  - apply String.eqb_neq in Hk.
    assert (Hsame : (if Py.str_truthy (stop_id_of self e)
                     then <[stop_id_of self e := stop_of self e]> sd else sd) !! k
                    = sd !! k).
    { destruct (Py.str_truthy (stop_id_of self e));
        [now rewrite lookup_insert_ne | reflexivity]. }
    rewrite Hsame. reflexivity.
Qed.

Lemma add_stop_fold_size (self : Bus.Extractor) (stops : list ET.Element)
    (sd : gmap string Stop.t) :
  (size (fold_left (Bus.add_stop self) stops sd) <= size sd + length stops)%nat.
Proof.
  revert sd. induction stops as [|e stops IH]; intros sd; cbn [fold_left length].
  - lia.
  - etransitivity; [apply IH|]. rewrite add_stop_unfold.
    destruct (Py.str_truthy (stop_id_of self e)); [|lia].
    rewrite map_size_insert. destruct (sd !! _); simpl; lia.
Qed.

(** X5.  The stop index that a document leaves, entry by entry: under a
    key that is not empty it holds the record read from the last
    AnnotatedStopPointRef element whose StopPointRef text is the key
    (a later element with the same id replaces an earlier one), and
    nothing under the empty key; [stops_found] is the number of entries,
    at most the number of such elements. *)
Theorem stop_index_last_element_wins (self : Bus.Extractor) (name : string)
    (root : ET.Element) (k : string) :
  let self' := fst (Bus.process_single_file self (MkFile name (Parsed root))) in
  let r := snd (Bus.process_single_file self (MkFile name (Parsed root))) in
  let stops :=
    ET.findall root (ET.Descendant (Bus.get_tag self' "AnnotatedStopPointRef")) in
  Bus.stops_data self' !! k
  = (if Py.str_truthy k
     then stop_of self'
            <$> last (List.filter (fun e => String.eqb (stop_id_of self' e) k) stops)
     else None)
  /\ Bus.stops_found r = size (Bus.stops_data self')
  /\ (Bus.stops_found r <= length stops)%nat.
Proof.
  intros self' r stops.
  pose proof (processed_state self name root) as Hst. cbv zeta in Hst.
  fold self' in Hst.
  set (ctx := document_context self root) in *.
  assert (Hns : Bus.namespace self' = Bus.namespace ctx) by now rewrite Hst.
  assert (Hstops : stops
                   = ET.findall root
                       (ET.Descendant (Bus.get_tag ctx "AnnotatedStopPointRef"))).
  { unfold stops. now rewrite (get_tag_namespace self' ctx). }
  assert (Hsd : Bus.stops_data self' = fold_left (Bus.add_stop ctx) stops ∅)
    by now rewrite Hst, Hstops.
  assert (Hfound : Bus.stops_found r = size (Bus.stops_data self'))
    by apply (processed_counts self name root).
  split; [|split; [exact Hfound|]].
  - rewrite Hsd, add_stop_fold_exact, lookup_empty.
    assert (Hfilter :
      List.filter (fun e => String.eqb (stop_id_of ctx e) k) stops
      = List.filter (fun e => String.eqb (stop_id_of self' e) k) stops).
    { apply List.filter_ext. intros e.
      now destruct (stop_of_namespace self' ctx e Hns) as [-> _]. }
    rewrite Hfilter.
    destruct (last _) as [e|]; [|now destruct (Py.str_truthy k)].
    destruct (Py.str_truthy k); [|reflexivity].
    cbn. now destruct (stop_of_namespace self' ctx e Hns) as [_ ->].
  - rewrite Hfound, Hsd.
    etransitivity; [apply add_stop_fold_size|]. rewrite map_size_empty. lia.
Qed.

(** X6.  The operator index that a document leaves has one entry for
    each id among its Operator elements ([unknown] for an element
    without id), the entry of an id being read from the last element
    with that id; [operators_found] is the number of entries.  The
    operator name stamped on every segment of the document is the short
    name in the entry of the id of the first Operator element, that is,
    of the last element that shares the id of the first, and the empty
    string when the document has no Operator element. *)
Theorem operator_of_first_id_is_stamped (self : Bus.Extractor) (name : string)
    (root : ET.Element) :
  let self' := fst (Bus.process_single_file self (MkFile name (Parsed root))) in
  let r := snd (Bus.process_single_file self (MkFile name (Parsed root))) in
  let operators := ET.findall root (ET.Descendant (Bus.get_tag self' "Operator")) in
  List.NoDup (map fst (Bus.operator_info self'))
  /\ (forall k, In k (map fst (Bus.operator_info self'))
                <-> In k (map operator_id_of operators))
  /\ (forall k,
      Py.dict_get k (Bus.operator_info self')
      = operator_of self'
          <$> last (List.filter (fun o => String.eqb (operator_id_of o) k) operators))
  /\ Bus.operators_found r = length (Bus.operator_info self')
  /\ (Bus.operators_found r <= length operators)%nat
  /\ (forall seg,
      In seg (Bus.data r) ->
      Segment.operator_name seg
      = match operators with
        | [] => ""
        | first :: _ =>
            default ""
              ((fun o => Operator.operator_name (operator_of self' o))
                 <$> last (List.filter
                             (fun o => String.eqb (operator_id_of o)
                                                  (operator_id_of first))
                             operators))
        end).
Proof.
  intros self' r operators.
  pose proof (processed_state self name root) as Hst. cbv zeta in Hst.
  fold self' in Hst.
  set (ctx := document_context self root) in *.
  assert (Hns : Bus.namespace self' = Bus.namespace ctx) by now rewrite Hst.
  assert (Hops : operators
                 = ET.findall root (ET.Descendant (Bus.get_tag ctx "Operator"))).
  { unfold operators. now rewrite (get_tag_namespace self' ctx). }
  assert (Hval : forall o, operator_of ctx o = operator_of self' o)
    by (intros; now apply operator_of_namespace).
  assert (Hoi : Bus.operator_info self'
                = Dict.loop operator_id_of (operator_of self') operators []).
  { rewrite Hst, Hops. cbn [Bus.operator_info]. unfold Dict.loop.
    f_equal. }
  assert (Hfound : Bus.operators_found r = length (Bus.operator_info self'))
    by apply (processed_counts self name root).
  split; [|split; [|split; [|split; [exact Hfound|split]]]].
  - rewrite Hoi. apply dict_loop_NoDup. constructor.
  - intros k. rewrite Hoi, dict_loop_keys. simpl. tauto.
  - intros k. rewrite Hoi, dict_loop_get. now destruct (last _).
  - rewrite Hfound, Hoi.
    pose proof (dict_loop_length _ operator_id_of (operator_of self') operators []).
    simpl in *. lia.
  - intros seg Hin.
    destruct (processed_data self name root) as [Hdata _]. cbv zeta in Hdata.
    fold self' r in Hdata. rewrite Hdata in Hin.
    apply extract_timing_links_In in Hin as (section & link & _ & _ & ->).
    change (Segment.operator_name (Bus.make_segment self' name _ link))
      with (Bus.first_operator_name (Bus.operator_info self')).
    rewrite Hoi. destruct operators as [|first rest]; [reflexivity|].
    destruct (dict_loop_first _ operator_id_of (operator_of self') first rest)
      as (v & others & -> & Hv).
    cbn [Bus.first_operator_name].
    destruct (last _) as [o|]; [|discriminate Hv].
    cbn in Hv. injection Hv as ->. reflexivity.
Qed.

(** The sample with the operators OP1 (Diamond), OP2 (Green) and OP1
    again (Diamond West): the one segment is stamped Diamond West. *)
Lemma operator_of_first_id_is_stamped_witness :
  exists seg,
    Bus.data (snd (Bus.process_single_file Bus.init
                     (MkFile "a.xml" (Parsed Sample.two_operators)))) = [seg]
    /\ Segment.operator_name seg = "Diamond West".
Proof.
  eexists. split; [vm_compute; reflexivity|].
  destruct (operator_of_first_id_is_stamped Bus.init "a.xml" Sample.two_operators)
    as (_ & _ & _ & _ & _ & H).
  match goal with
  | |- Segment.operator_name ?seg = _ => rewrite (H seg (or_introl eq_refl))
  end.
  vm_compute. reflexivity.
Defined.

End ReferenceEntries.

(** ** Journey patterns *)

Section JourneyPatterns.

Import Entry.

(** X7.  [extract_journey_patterns] returns one entry for each id among
    the JourneyPattern elements below the root (the empty id for an
    element without one), never more entries than elements, and the entry
    of an id is read from the last element with that id. *)
Theorem journey_patterns_by_id (self : Bus.Extractor) (root : ET.Element) :
  let patterns := Bus.extract_journey_patterns self root in
  let jp_elems := ET.findall root (ET.Descendant (Bus.get_tag self "JourneyPattern")) in
  List.NoDup (map fst patterns)
  /\ (forall k, In k (map fst patterns) <-> In k (map pattern_id_of jp_elems))
  /\ (forall k,
      Py.dict_get k patterns
      = pattern_of self
          <$> last (List.filter (fun jp => String.eqb (pattern_id_of jp) k) jp_elems))
  /\ (length patterns <= length jp_elems)%nat.
Proof.
  intros patterns jp_elems.
  assert (Hp : patterns = Dict.loop pattern_id_of (pattern_of self) jp_elems [])
    by reflexivity.
  rewrite Hp. split; [|split; [|split]].
  - apply dict_loop_NoDup. constructor.
  - intros k. rewrite dict_loop_keys. simpl. tauto.
  - intros k. rewrite dict_loop_get. now destruct (last _).
  - pose proof (dict_loop_length _ pattern_id_of (pattern_of self) jp_elems []).
    simpl in *. lia.
Qed.

End JourneyPatterns.

(** ** The table of unique stops *)

Section UniqueStops.

Import Entry.

(** One end of a segment added to [all_stops]. *)
Lemma add_unique_get (d : list (string * Stop.t)) (id : string) (row : Stop.t)
    (k : string) :
  Py.dict_get k (Bus.add_unique d id row)
  = match Py.dict_get k d with
    | Some v => Some v
    | None => if Py.str_truthy k && String.eqb id k then Some row else None
    end.
Proof.
  unfold Bus.add_unique.
  destruct (String.eqb id k) eqn:Hk.
  - apply String.eqb_eq in Hk. subst id.
    destruct (Py.dict_get k d) eqn:Hd; cbn [andb].
    + rewrite andb_false_r. exact Hd.
    + rewrite andb_true_r. destruct (Py.str_truthy k); [|exact Hd].
      rewrite dict_get_set. now rewrite decide_True.
  - apply String.eqb_neq in Hk. rewrite andb_false_r.
    destruct (Py.str_truthy id && _).
    + rewrite dict_get_set, decide_False by exact Hk.
      now destruct (Py.dict_get k d).
    + now destruct (Py.dict_get k d).
Qed.

Lemma add_unique_keys (d : list (string * Stop.t)) (id : string) (row : Stop.t) :
  map fst (Bus.add_unique d id row)
  = if Py.str_truthy id
       && match Py.dict_get id d with Some _ => false | None => true end
    then (map fst d ++ [id])%list else map fst d.
Proof.
  unfold Bus.add_unique.
  destruct (Py.dict_get id d) eqn:Hd; rewrite ?andb_false_r, ?andb_true_r.
  - reflexivity.
  - destruct (Py.str_truthy id); [|reflexivity].
    now rewrite dict_set_keys, Hd.
Qed.

(** The loop over the segments is a loop over their ends. *)
Lemma unique_stops_ends (segs : list Segment.t) (d : list (string * Stop.t)) :
  fold_left Bus.stops_step segs d
  = fold_left (fun d e => Bus.add_unique d (fst e) (snd e)) (ends segs) d.
Proof.
  revert d. induction segs as [|seg segs IH]; intros d; [reflexivity|].
  unfold ends. cbn [fold_left flat_map]. rewrite fold_left_app. cbn [fold_left].
  rewrite IH. reflexivity.
Qed.

Lemma ends_loop_get (es : list (string * Stop.t)) (d : list (string * Stop.t))
    (k : string) :
  Py.dict_get k (fold_left (fun d e => Bus.add_unique d (fst e) (snd e)) es d)
  = match Py.dict_get k d with
    | Some v => Some v
    | None =>
        if Py.str_truthy k
        then snd <$> head (List.filter (fun e => String.eqb (fst e) k) es)
        else None
    end.
Proof.
  revert d. induction es as [|e es IH]; intros d; cbn [fold_left List.filter].
  - destruct (Py.dict_get k d); [reflexivity|]. now destruct (Py.str_truthy k).
  - rewrite IH, add_unique_get.
    destruct (Py.dict_get k d); [reflexivity|].
    destruct (Py.str_truthy k); cbn [andb]; [|reflexivity].
    destruct (String.eqb (fst e) k); reflexivity.
Qed.

Lemma ends_loop_keys (es : list (string * Stop.t)) (d : list (string * Stop.t)) :
  List.NoDup (map fst d) -> ~ In "" (map fst d) ->
  List.NoDup (map fst (fold_left (fun d e => Bus.add_unique d (fst e) (snd e)) es d))
  /\ ~ In "" (map fst (fold_left (fun d e => Bus.add_unique d (fst e) (snd e)) es d))
  /\ (length (fold_left (fun d e => Bus.add_unique d (fst e) (snd e)) es d)
      <= length d + length es)%nat.
Proof.
  revert d. induction es as [|e es IH]; intros d Hnd Hne; cbn [fold_left length].
  - split; [exact Hnd|]. split; [exact Hne | lia].
  - assert (Hstep : List.NoDup (map fst (Bus.add_unique d (fst e) (snd e)))
                    /\ ~ In "" (map fst (Bus.add_unique d (fst e) (snd e)))
                    /\ (length (Bus.add_unique d (fst e) (snd e)) <= S (length d))%nat).
    { rewrite <- (length_map fst (Bus.add_unique _ _ _)), add_unique_keys.
      destruct (Py.str_truthy (fst e)) eqn:Ht; cbn [andb];
        [|rewrite length_map; auto].
      destruct (Py.dict_get (fst e) d) eqn:Hd; [rewrite length_map; auto|].
      apply dict_get_None in Hd. split; [|split].
      - apply List.NoDup_app; [exact Hnd | constructor; [intros [] | constructor] |].
        intros x Hx [<- | []]. contradiction.
      - rewrite in_app_iff. intros [H | [H | []]]; [contradiction|].
        rewrite H in Ht. discriminate Ht.
      - rewrite length_app, length_map. simpl. lia. }
    destruct Hstep as (H1 & H2 & H3).
    destruct (IH _ H1 H2) as (I1 & I2 & I3). split; [exact I1|].
    split; [exact I2 | lia].
Qed.

Lemma ends_length (segs : list Segment.t) :
  length (ends segs) = (2 * length segs)%nat.
Proof.
  unfold ends. induction segs as [|seg segs IH]; simpl; [reflexivity|].
  simpl in IH. rewrite IH. lia.
Qed.

(** X8.  [create_stops_csv] builds a table with one row for each stop id
    that is not empty among the from and to ends of the segments: ids are
    not repeated and never empty, the row of an id is taken from the
    first end with that id (from end before to end within a segment,
    segments in order), there are at most two rows per segment, the
    value returned is the number of rows, and no file is written exactly
    when there is no row. *)
Theorem unique_stops_first_end_wins (self : Bus.Extractor) :
  let segs := Bus.timing_segments self in
  let table := Bus.unique_stops segs in
  List.NoDup (map fst table)
  /\ ~ In "" (map fst table)
  /\ (forall k,
      Py.dict_get k table
      = if Py.str_truthy k
        then snd <$> head (List.filter (fun e => String.eqb (fst e) k) (ends segs))
        else None)
  /\ snd (Bus.create_stops_csv self) = length table
  /\ (snd (Bus.create_stops_csv self) <= 2 * length segs)%nat
  /\ fst (Bus.create_stops_csv self)
     = match table with [] => None | _ :: _ => Some (map snd table) end.
Proof.
  intros segs table.
  assert (Ht : table
               = fold_left (fun d e => Bus.add_unique d (fst e) (snd e)) (ends segs) [])
    by apply unique_stops_ends.
  destruct (ends_loop_keys (ends segs) [] (List.NoDup_nil _) (fun H => H))
    as (Hnd & Hne & Hlen).
  rewrite <- Ht in Hnd, Hne, Hlen. rewrite ends_length in Hlen. simpl in Hlen.
  assert (Hret : snd (Bus.create_stops_csv self) = length table).
  { unfold Bus.create_stops_csv. fold segs table. now destruct table. }
  split; [exact Hnd|]. split; [exact Hne|]. split; [|split; [exact Hret|split]].
  - intros k. rewrite Ht, ends_loop_get. reflexivity.
  - rewrite Hret. lia.
  - unfold Bus.create_stops_csv. fold segs table. now destruct table.
Qed.

End UniqueStops.

(** ** The service data of XMLExtractor, key by key *)

Section ServiceKeys.

Import Link.

Lemma service_step_line_name (service_data : gmap string string) (elem : ET.Element) :
  Csv.service_step service_data elem !! "line_name"
  = if named "LineName" elem then Some (Csv.get_text elem)
    else service_data !! "line_name".
Proof.
  unfold Csv.service_step, named.
  destruct (String.eqb (Csv.local_name (ET.tag elem)) "LineName");
    [apply lookup_insert_eq|].
  repeat match goal with
         | |- context [if ?b then _ else _] => destruct b
         end; rewrite ?lookup_insert_ne by discriminate; reflexivity.
Qed.

Lemma service_step_service_code (service_data : gmap string string) (elem : ET.Element) :
  Csv.service_step service_data elem !! "service_code"
  = if named "ServiceCode" elem then Some (Csv.get_text elem)
    else service_data !! "service_code".
Proof.
  unfold Csv.service_step, named.
  destruct (String.eqb (Csv.local_name (ET.tag elem)) "LineName") eqn:H1.
  { apply String.eqb_eq in H1. rewrite H1. cbn.
    now rewrite lookup_insert_ne by discriminate. }
  destruct (String.eqb (Csv.local_name (ET.tag elem)) "ServiceCode");
    [apply lookup_insert_eq|].
  repeat match goal with
         | |- context [if ?b then _ else _] => destruct b
         end; rewrite ?lookup_insert_ne by discriminate; reflexivity.
Qed.

(** A key that every element with the local name [name] overwrites ends
    with the text of the last such element. *)
Lemma last_wins_fold (key name : string) (elems : list ET.Element)
    (service_data : gmap string string) :
  (forall sd e,
      Csv.service_step sd e !! key
      = if named name e then Some (Csv.get_text e) else sd !! key) ->
  fold_left Csv.service_step elems service_data !! key
  = match last (List.filter (named name) elems) with
    | Some e => Some (Csv.get_text e)
    | None => service_data !! key
    end.
Proof.
  intros Hstep. revert service_data.
  induction elems as [|e elems IH]; intros sd; [reflexivity|].
  cbn [fold_left List.filter]. rewrite IH, Hstep.
  destruct (named name e); [|reflexivity].
  rewrite last_cons. now destruct (last _).
Qed.

(** X9.  In [XMLExtractor] the line name and the service code of a
    document are the texts of its last LineName and of its last
    ServiceCode element in document order (every such element overwrites
    the one before), and every record of the document carries them, the
    empty string when there is no such element. *)
Theorem line_name_last_element_wins :
  (forall root,
      Csv.extract_services root !! "line_name"
      = Csv.get_text <$> last (List.filter (named "LineName") (ET.iter root))
      /\ Csv.extract_services root !! "service_code"
         = Csv.get_text <$> last (List.filter (named "ServiceCode") (ET.iter root)))
  /\ (forall root filename records rec,
      Csv.file_records root filename = Py.Return records ->
      In rec records ->
      rec !! "line_name"
      = Some (Py.VStr (default ""
                (Csv.get_text <$> last (List.filter (named "LineName") (ET.iter root)))))
      /\ rec !! "service_code"
         = Some (Py.VStr (default ""
                   (Csv.get_text
                      <$> last (List.filter (named "ServiceCode") (ET.iter root)))))).
Proof.
  assert (Hdata : forall root,
      Csv.extract_services root !! "line_name"
      = Csv.get_text <$> last (List.filter (named "LineName") (ET.iter root))
      /\ Csv.extract_services root !! "service_code"
         = Csv.get_text <$> last (List.filter (named "ServiceCode") (ET.iter root))).
  { intros root. unfold Csv.extract_services. split.
    - rewrite (last_wins_fold "line_name" "LineName") by apply service_step_line_name.
      now destruct (last _).
    - rewrite (last_wins_fold "service_code" "ServiceCode")
        by apply service_step_service_code.
      now destruct (last _). }
  split; [exact Hdata|].
  intros root filename records rec Hret Hin.
  destruct (file_records_In root filename records rec Hret Hin)
    as (section & link & rec0 & _ & _ & _ & _ & _ & _ & ->).
  destruct (Hdata root) as [Hline Hcode].
  unfold Csv.enrich, Py.get_str. rewrite Hline, Hcode.
  split.
  - rewrite !lookup_insert_ne by discriminate. rewrite lookup_insert_eq.
    now destruct (last _).
  - rewrite lookup_insert_eq. now destruct (last _).
Qed.

(** The two services of the sample: the record carries the line of the
    second. *)
Lemma line_name_last_element_wins_witness :
  match Csv.file_records (Sample.two_services Sample.bare) "a.xml" with
  | Py.Return records =>
      length records = 1%nat
      /\ List.Forall (fun rec => rec !! "line_name" = Some (Py.VStr "X99")) records
  | Py.Raise _ => False
  end.
Proof.
  assert (Hlen : match Csv.file_records (Sample.two_services Sample.bare) "a.xml" with
                 | Py.Return records => length records
                 | Py.Raise _ => 0%nat
                 end = 1%nat) by (vm_compute; reflexivity).
  destruct (Csv.file_records (Sample.two_services Sample.bare) "a.xml")
    as [records|e] eqn:Hret; [|discriminate Hlen].
  split; [exact Hlen|].
  apply List.Forall_forall. intros rec Hin.
  destruct line_name_last_element_wins as [_ H].
  destruct (H (Sample.two_services Sample.bare) "a.xml" records rec Hret Hin)
    as [Hline _].
  exact Hline.
Defined.

End ServiceKeys.

(** ** The record of a timing link, key by key *)

Section LinkRecordKeys.

Import Link Entry.

Lemma not_in_keys (k : string) :
  In k ["source_file"; "section_id"; "timing_link_id"; "runtime_raw";
        "runtime_seconds"; "route_link_ref"] ->
  ~ In k (keys_of "from") /\ ~ In k (keys_of "to").
Proof.
  unfold keys_of. cbv [String.append]. simpl.
  intros H. repeat (destruct H as [<- | H]; [split; intuition discriminate|]).
  contradiction.
Qed.

(** One child of a link, seen from a key that belongs to neither side,
    when the round returns: a RunTime child sets the two run time keys, a
    RouteLinkRef child sets the route link, and nothing else changes. *)
Lemma link_step_plain (stops : gmap string (gmap string string))
    (rec rec' : gmap string Py.value) (child : ET.Element) (k : string) :
  Csv.link_step stops rec child = Py.Return rec' ->
  In k ["source_file"; "section_id"; "timing_link_id"; "runtime_raw";
        "runtime_seconds"; "route_link_ref"] ->
  rec' !! k
  = if named "RunTime" child then
      if String.eqb k "runtime_raw" then Some (Py.VStr (Csv.get_text child))
      else if String.eqb k "runtime_seconds"
           then returned (Csv.parse_duration (Py.VStr (Csv.get_text child)))
           else rec !! k
    else if named "RouteLinkRef" child then
      if String.eqb k "route_link_ref" then Some (Py.VStr (Csv.get_text child))
      else rec !! k
    else rec !! k.
Proof.
  intros Hret Hk. destruct (not_in_keys k Hk) as [Hfrom Hto].
  unfold Csv.link_step, named in *.
  destruct (String.eqb (Csv.local_name (ET.tag child)) "From") eqn:H1.
  { apply String.eqb_eq in H1. rewrite H1. cbn [String.eqb Ascii.eqb Bool.eqb].
    injection Hret as <-. now apply extract_stop_point_frame. }
  destruct (String.eqb (Csv.local_name (ET.tag child)) "To") eqn:H2.
  { apply String.eqb_eq in H2. rewrite H2. cbn [String.eqb Ascii.eqb Bool.eqb].
    injection Hret as <-. now apply extract_stop_point_frame. }
  destruct (String.eqb (Csv.local_name (ET.tag child)) "RunTime").
  - apply bind_Return in Hret as (secs & Hsecs & [= <-]). rewrite Hsecs.
    simpl in Hk.
    repeat (destruct Hk as [<- | Hk]; [cbn; simplify_map_eq; reflexivity|]).
    contradiction.
  - destruct (String.eqb (Csv.local_name (ET.tag child)) "RouteLinkRef");
      injection Hret as <-; [|reflexivity].
    simpl in Hk.
    repeat (destruct Hk as [<- | Hk]; [cbn; simplify_map_eq; reflexivity|]).
    contradiction.
Qed.

(** The value kept by a loop in which the elements that pass a test
    overwrite it: that of the last such element. *)
Lemma fold_left_last {E V : Type} (test : E -> bool) (h : E -> V)
    (l : list E) (v : V) :
  fold_left (fun v c => if test c then h c else v) l v
  = match last (List.filter test l) with
    | Some c => h c
    | None => v
    end.
Proof.
  revert v. induction l as [|c l IH]; intros v; cbn; [reflexivity|].
  rewrite IH. destruct (test c); [|reflexivity].
  rewrite last_cons. now destruct (last _).
Qed.

Lemma link_record_identity (stops : gmap string (gmap string string))
    (filename section_id : string) (link : ET.Element)
    (rec : gmap string Py.value) (k : string) :
  Csv.link_record stops filename section_id link = Py.Return rec ->
  In k ["source_file"; "section_id"; "timing_link_id"] ->
  rec !! k = Csv.new_record filename section_id link !! k.
Proof.
  intros Hret Hk. unfold Csv.link_record in Hret.
  rewrite <- (fold_left_const (ET.children link)
                (Csv.new_record filename section_id link !! k)).
  apply (for_each_fold (Csv.link_step stops) (fun rec => rec !! k)) with (2 := Hret).
  intros a b a' _ Hstep.
  rewrite (link_step_plain _ _ _ _ k Hstep) by (simpl in *; tauto).
  simpl in Hk.
  repeat (destruct Hk as [<- | Hk];
          [destruct (named "RunTime" b), (named "RouteLinkRef" b); reflexivity|]).
  contradiction.
Qed.

Lemma link_record_runtime (stops : gmap string (gmap string string))
    (filename section_id : string) (link : ET.Element)
    (rec : gmap string Py.value) :
  Csv.link_record stops filename section_id link = Py.Return rec ->
  (rec !! "runtime_raw", rec !! "runtime_seconds")
  = match last (List.filter (named "RunTime") (ET.children link)) with
    | Some c => (Some (Py.VStr (Csv.get_text c)),
                 returned (Csv.parse_duration (Py.VStr (Csv.get_text c))))
    | None => (None, None)
    end.
Proof.
  intros Hret. unfold Csv.link_record in Hret.
  rewrite <- (fold_left_last (named "RunTime")
                (fun c => (Some (Py.VStr (Csv.get_text c)),
                           returned (Csv.parse_duration (Py.VStr (Csv.get_text c)))))
                (ET.children link) (None, None)).
  change (@None Py.value, @None Py.value)
    with ((fun rec : gmap string Py.value =>
             (rec !! "runtime_raw", rec !! "runtime_seconds"))
            (Csv.new_record filename section_id link)).
  apply (for_each_fold (Csv.link_step stops)
           (fun rec => (rec !! "runtime_raw", rec !! "runtime_seconds")))
    with (2 := Hret).
  intros a b a' _ Hstep.
  rewrite (link_step_plain _ _ _ _ "runtime_raw" Hstep) by (simpl; tauto).
  rewrite (link_step_plain _ _ _ _ "runtime_seconds" Hstep) by (simpl; tauto).
  destruct (named "RunTime" b); [reflexivity|].
  destruct (named "RouteLinkRef" b); reflexivity.
Qed.

Lemma link_record_route (stops : gmap string (gmap string string))
    (filename section_id : string) (link : ET.Element)
    (rec : gmap string Py.value) :
  Csv.link_record stops filename section_id link = Py.Return rec ->
  rec !! "route_link_ref"
  = match last (List.filter (named "RouteLinkRef") (ET.children link)) with
    | Some c => Some (Py.VStr (Csv.get_text c))
    | None => None
    end.
Proof.
  intros Hret. unfold Csv.link_record in Hret.
  rewrite <- (fold_left_last (named "RouteLinkRef")
                (fun c => Some (Py.VStr (Csv.get_text c)))
                (ET.children link) None).
  change (@None Py.value)
    with ((fun rec : gmap string Py.value => rec !! "route_link_ref")
            (Csv.new_record filename section_id link)).
  apply (for_each_fold (Csv.link_step stops) (fun rec => rec !! "route_link_ref"))
    with (2 := Hret).
  intros a b a' _ Hstep.
  rewrite (link_step_plain _ _ _ _ "route_link_ref" Hstep) by (simpl; tauto).
  destruct (named "RunTime" b) eqn:Hrt.
  - assert (Hn : named "RouteLinkRef" b = false).
    { unfold named in *. apply String.eqb_eq in Hrt. now rewrite Hrt. }
    now rewrite Hn.
  - destruct (named "RouteLinkRef" b); reflexivity.
Qed.

(** The run time of a link whose record is built is one that
    [parse_duration] returns a value for. *)
Lemma link_record_runtime_returns (stops : gmap string (gmap string string))
    (filename section_id : string) (link c : ET.Element)
    (rec : gmap string Py.value) :
  Csv.link_record stops filename section_id link = Py.Return rec ->
  last (List.filter (named "RunTime") (ET.children link)) = Some c ->
  exists secs, Csv.parse_duration (Py.VStr (Csv.get_text c)) = Py.Return secs.
Proof.
  intros Hret Hlast.
  destruct (outcome_cases (Csv.parse_duration (Py.VStr (Csv.get_text c))))
    as [Hok | Hr]; [exact Hok|].
  assert (Hin : In c (List.filter (named "RunTime") (ET.children link))).
  { apply list_elem_of_In. now apply last_Some_elem_of. }
  apply filter_In in Hin as [Hin Hname].
  assert (Hover : overlong link = true).
  { unfold overlong. apply existsb_exists. exists c. split; [exact Hin|].
    rewrite Hname. now apply (parse_duration_raises _ Py.ValueError). }
  apply (link_record_Raise stops filename section_id) in Hover. congruence.
Qed.

(** X10.  The record that [XMLExtractor] builds for a timing link
    always names its file, its section and the link; its raw run time is
    the text of the last RunTime child of the link and its run time in
    seconds is what the strict [parse_duration] returns on that very
    text, both keys being absent when the link has no RunTime child; its
    route link is the text of the last RouteLinkRef child.  The
    enrichment of [process_file] changes none of these keys. *)
Theorem link_record_plain_keys (stops : gmap string (gmap string string))
    (service_data operator_data : gmap string string)
    (filename section_id : string) (link : ET.Element)
    (rec0 : gmap string Py.value) :
  Csv.link_record stops filename section_id link = Py.Return rec0 ->
  let rec := Csv.enrich service_data operator_data rec0 in
  rec !! "source_file" = Some (Py.VStr filename)
  /\ rec !! "section_id" = Some (Py.VStr section_id)
  /\ rec !! "timing_link_id" = Some (Py.VStr (ET.get link "id" ""))
  /\ rec !! "runtime_raw" = Py.VStr <$> last_child_text "RunTime" link
  /\ match last_child_text "RunTime" link with
     | Some raw =>
         exists secs,
           Csv.parse_duration (Py.VStr raw) = Py.Return secs
           /\ rec !! "runtime_seconds" = Some secs
     | None => rec !! "runtime_seconds" = None
     end
  /\ rec !! "route_link_ref" = Py.VStr <$> last_child_text "RouteLinkRef" link.
Proof.
  intros Hret rec. subst rec. unfold Csv.enrich, last_child_text.
  rewrite !lookup_insert_ne by discriminate.
  rewrite !(link_record_identity _ _ _ _ _ _ Hret) by (simpl; tauto).
  pose proof (link_record_runtime _ _ _ _ _ Hret) as Hrun.
  rewrite (link_record_route _ _ _ _ _ Hret).
  unfold Csv.new_record.
  split; [now simplify_map_eq|]. split; [now simplify_map_eq|].
  split; [now simplify_map_eq|].
  destruct (last (List.filter (named "RunTime") (ET.children link))) as [c|] eqn:Hlast;
    injection Hrun as -> Hsecs; cbn.
  - split; [reflexivity|]. split.
    + destruct (link_record_runtime_returns _ _ _ _ _ _ Hret Hlast) as [secs Hp].
      exists secs. split; [exact Hp|]. now rewrite Hsecs, Hp.
    + now destruct (last (List.filter (named "RouteLinkRef") _)).
  - split; [reflexivity|]. split; [exact Hsecs|].
    now destruct (last (List.filter (named "RouteLinkRef") _)).
Qed.

(** The sample link with two references: 40 seconds from PT40S. *)
Lemma link_record_plain_keys_witness :
  exists rec0,
    Csv.link_record Sample.high_street_index "a.xml" "JPS1" Sample.double_ref_link
    = Py.Return rec0
    /\ Csv.enrich ∅ ∅ rec0 !! "source_file" = Some (Py.VStr "a.xml")
    /\ Csv.enrich ∅ ∅ rec0 !! "runtime_raw" = Some (Py.VStr "PT40S")
    /\ Csv.enrich ∅ ∅ rec0 !! "runtime_seconds" = Some (Py.VInt 40).
Proof.
  destruct (link_record_Return Sample.high_street_index "a.xml" "JPS1"
              Sample.double_ref_link eq_refl) as [rec0 H0].
  exists rec0. split; [exact H0|].
  destruct (link_record_plain_keys Sample.high_street_index ∅ ∅ "a.xml" "JPS1"
              Sample.double_ref_link rec0 H0) as (Hsrc & _ & _ & Hraw & Hsecs & _).
  assert (Hlast : last_child_text "RunTime" Sample.double_ref_link = Some "PT40S")
    by reflexivity.
  rewrite Hlast in Hraw, Hsecs.
  split; [exact Hsrc|]. split; [exact Hraw|].
  destruct Hsecs as (secs & Hp & Hs).
  assert (Hp' : Csv.parse_duration (Py.VStr "PT40S") = Py.Return (Py.VInt 40))
    by reflexivity.
  rewrite Hp' in Hp. injection Hp as <-. exact Hs.
Defined.

End LinkRecordKeys.

(** ** A side with several stop references *)

Section SeveralReferences.

Import Link Entry.

(** What a run of stop references leaves in the joined entries: the id
    of the last reference, and the name and position of the last
    reference that the index knows. *)
Lemma apply_refs_joined (stops : gmap string (gmap string string))
    (refs : list string) (v : join_view) :
  fold_left (apply_ref stops) refs v
  = View (match last refs with
          | Some sid => Some (Py.VStr sid)
          | None => v_id v
          end)
         (match joined stops refs with
          | Some stop => Some (Py.VStr (Py.get_str stop "stop_name"))
          | None => v_name v
          end)
         (match joined stops refs with
          | Some stop => Some (Py.VStr (Py.get_str stop "latitude"))
          | None => v_latitude v
          end)
         (match joined stops refs with
          | Some stop => Some (Py.VStr (Py.get_str stop "longitude"))
          | None => v_longitude v
          end).
Proof.
  unfold joined. revert v.
  induction refs as [|sid refs IH]; intros v; [now destruct v|].
  cbn [fold_left omap list_omap]. rewrite IH, last_cons. unfold apply_ref.
  destruct (stops !! sid) as [stop|]; cbn [v_id v_name v_latitude v_longitude].
  - rewrite last_cons.
    destruct (last refs); destruct (last (omap _ refs)); reflexivity.
  - destruct (last refs); reflexivity.
Qed.

Lemma joined_view (stops : gmap string (gmap string string))
    (service_data operator_data : gmap string string)
    (filename section_id : string) (link : ET.Element)
    (rec0 : gmap string Py.value) (prefix side : string) :
  Csv.link_record stops filename section_id link = Py.Return rec0 ->
  (prefix = "from" /\ side = "From") \/ (prefix = "to" /\ side = "To") ->
  view prefix (Csv.enrich service_data operator_data rec0)
  = View (Py.VStr <$> last (stop_refs side link))
         ((fun stop => Py.VStr (Py.get_str stop "stop_name"))
            <$> joined stops (stop_refs side link))
         ((fun stop => Py.VStr (Py.get_str stop "latitude"))
            <$> joined stops (stop_refs side link))
         ((fun stop => Py.VStr (Py.get_str stop "longitude"))
            <$> joined stops (stop_refs side link)).
Proof.
  intros Hret [[-> ->] | [-> ->]].
  - rewrite enrich_view by now left.
    rewrite (link_record_view_from _ _ _ _ _ Hret), apply_refs_joined.
    destruct (last _); destruct (joined _ _); reflexivity.
  - rewrite enrich_view by now right.
    rewrite (link_record_view_to _ _ _ _ _ Hret), apply_refs_joined.
    destruct (last _); destruct (joined _ _); reflexivity.
Qed.

(** X11.  On a side of a timing link with any number of stop
    references, the record of [XMLExtractor] has as stop id the last
    reference, and as stop name, latitude and longitude those of the last
    reference that the stop index knows (absent when it knows none): a
    reference that the index does not know replaces the id and leaves the
    name and the position of an earlier, known, reference in place.  So
    when the references are [a] and then [b], with only [a] in the index,
    the record carries the id [b] beside the name of [a]. *)
Theorem join_follows_last_known_reference
    (stops : gmap string (gmap string string))
    (service_data operator_data : gmap string string)
    (filename section_id : string) (link : ET.Element)
    (rec0 : gmap string Py.value) :
  Csv.link_record stops filename section_id link = Py.Return rec0 ->
  let rec := Csv.enrich service_data operator_data rec0 in
  let name_of := fun stop : gmap string string => Py.VStr (Py.get_str stop "stop_name") in
  let latitude_of := fun stop : gmap string string => Py.VStr (Py.get_str stop "latitude") in
  let longitude_of := fun stop : gmap string string => Py.VStr (Py.get_str stop "longitude") in
  (rec !! "from_stop_id" = Py.VStr <$> last (stop_refs "From" link)
   /\ rec !! "from_stop_name" = name_of <$> joined stops (stop_refs "From" link)
   /\ rec !! "from_latitude" = latitude_of <$> joined stops (stop_refs "From" link)
   /\ rec !! "from_longitude" = longitude_of <$> joined stops (stop_refs "From" link))
  /\ (rec !! "to_stop_id" = Py.VStr <$> last (stop_refs "To" link)
      /\ rec !! "to_stop_name" = name_of <$> joined stops (stop_refs "To" link)
      /\ rec !! "to_latitude" = latitude_of <$> joined stops (stop_refs "To" link)
      /\ rec !! "to_longitude" = longitude_of <$> joined stops (stop_refs "To" link))
  /\ (forall a b stop,
         stop_refs "From" link = [a; b] ->
         stops !! a = Some stop -> stops !! b = None ->
         rec !! "from_stop_id" = Some (Py.VStr b)
         /\ rec !! "from_stop_name" = Some (name_of stop)
         /\ rec !! "from_latitude" = Some (latitude_of stop)
         /\ rec !! "from_longitude" = Some (longitude_of stop)).
Proof.
  intros Hret rec name_of latitude_of longitude_of.
  pose proof (joined_view stops service_data operator_data filename section_id
                link rec0 "from" "From" Hret
                (or_introl (conj eq_refl eq_refl))) as Hfrom.
  pose proof (joined_view stops service_data operator_data filename section_id
                link rec0 "to" "To" Hret
                (or_intror (conj eq_refl eq_refl))) as Hto.
  unfold view in Hfrom, Hto. cbv [String.append] in Hfrom, Hto.
  injection Hfrom as F1 F2 F3 F4. injection Hto as T1 T2 T3 T4.
  fold rec in F1, F2, F3, F4, T1, T2, T3, T4.
  split; [|split].
  - now rewrite F1, F2, F3, F4.
  - now rewrite T1, T2, T3, T4.
  - intros a b stop Hrefs Ha Hb.
    rewrite F1, F2, F3, F4, Hrefs. unfold joined.
    cbn [omap list_omap]. rewrite Ha, Hb. repeat split; reflexivity.
Qed.

Lemma join_follows_last_known_reference_witness :
  exists rec0,
    Csv.link_record Sample.high_street_index "a.xml" "JPS1" Sample.double_ref_link
    = Py.Return rec0
    /\ Csv.enrich ∅ ∅ rec0 !! "from_stop_id" = Some (Py.VStr "S9")
    /\ Csv.enrich ∅ ∅ rec0 !! "from_stop_name" = Some (Py.VStr "High Street").
Proof.
  destruct (link_record_Return Sample.high_street_index "a.xml" "JPS1"
              Sample.double_ref_link eq_refl) as [rec0 H0].
  exists rec0. split; [exact H0|].
  destruct (join_follows_last_known_reference Sample.high_street_index ∅ ∅
              "a.xml" "JPS1" Sample.double_ref_link rec0 H0) as (_ & _ & H).
  destruct (H "S1" "S9" (<["stop_name" := "High Street"]> ∅)) as (Hid & Hname & _).
  - vm_compute. reflexivity.
  - apply lookup_insert_eq.
  - unfold Sample.high_street_index.
    rewrite lookup_insert_ne by discriminate. apply lookup_empty.
  - split; [exact Hid|]. rewrite Hname. vm_compute. reflexivity.
Defined.

End SeveralReferences.

(** ** The files of a folder, for XMLExtractor *)

Section CsvBatch.

Import Link Entry.

Lemma process_file_records (self : Csv.XMLExtractor) (f : XmlFile) :
  Csv.process_file self f
  = match records_of f with
    | Some records =>
        (Csv.MkExtractor (Csv.all_records self ++ records)%list
                         (S (Csv.files_processed self)),
         length records)
    | None => (self, 0%nat)
    end.
Proof.
  unfold Csv.process_file, records_of.
  destruct (file_parse f) as [msg|root]; [reflexivity|].
  destruct (Csv.file_records root (file_name f)); reflexivity.
Qed.

Lemma process_files_records (files : list XmlFile) (self : Csv.XMLExtractor) :
  Csv.all_records (Csv.process_files self files)
  = (Csv.all_records self ++ flat_map added files)%list
  /\ Csv.files_processed (Csv.process_files self files)
     = (Csv.files_processed self + length (List.filter counted files))%nat.
Proof.
  unfold Csv.process_files. revert self.
  induction files as [|f fs IH]; intros self.
  - cbn. rewrite app_nil_r. split; [reflexivity | lia].
  - cbn [fold_left flat_map List.filter].
    destruct (IH (fst (Csv.process_file self f))) as [IH1 IH2].
    rewrite IH1, IH2, process_file_records.
    assert (Hc : counted f = match records_of f with Some _ => true | None => false end)
      by reflexivity.
    assert (Ha : added f = default [] (records_of f)) by reflexivity.
    rewrite Hc, Ha.
    destruct (records_of f) as [records|]; cbn [fst default Csv.all_records
                                                 Csv.files_processed].
    + rewrite <- app_assoc. split; [reflexivity|].
      change (length (f :: List.filter counted fs))
        with (S (length (List.filter counted fs))). lia.
    + split; reflexivity.
Qed.

(** A file gives no records exactly when it does not parse or one of
    the timing links visited has a run time that overflows. *)
Lemma records_of_None (f : XmlFile) :
  records_of f = None
  <-> parses f = false
      \/ exists root, file_parse f = Parsed root
                      /\ existsb overlong (visited_links root) = true.
Proof.
  unfold records_of, parses.
  destruct (file_parse f) as [msg|root].
  - split; [now left | reflexivity].
  - destruct (Csv.file_records root (file_name f)) as [records|[]] eqn:Hrec.
    + split; [discriminate|].
      intros [H | (root' & [= <-] & H)]; [discriminate|].
      apply (file_records_Raise root (file_name f)) in H. congruence.
    + split; [|reflexivity]. intros _. right. exists root. split; [reflexivity|].
      now apply (file_records_Raise root (file_name f)).
Qed.

Lemma records_of_source (f : XmlFile) (records : list (gmap string Py.value))
    (rec : gmap string Py.value) :
  records_of f = Some records -> In rec records ->
  rec !! "source_file" = Some (Py.VStr (file_name f)).
Proof.
  unfold records_of. destruct (file_parse f) as [msg|root]; [discriminate|].
  destruct (Csv.file_records root (file_name f)) as [records'|e] eqn:Hret;
    [|discriminate].
  intros [= <-] Hin.
  destruct (file_records_In root (file_name f) records' rec Hret Hin)
    as (section & link & rec0 & _ & _ & _ & _ & Hrec0 & _ & ->).
  unfold Csv.enrich. rewrite !lookup_insert_ne by discriminate.
  rewrite (link_record_identity _ _ _ _ _ "source_file" Hrec0) by (simpl; tauto).
  unfold Csv.new_record. rewrite !lookup_insert_ne by discriminate.
  apply lookup_insert_eq.
Qed.

(** X12.  Over the files of a folder, [XMLExtractor] keeps the records
    it already had and appends the records of each file in the order of
    the files, and [files_processed] counts the files that gave their
    records.  A file gives its records unless it does not parse or one of
    the timing links visited in it has a run time that [int] cannot
    convert: such a file adds nothing, changes nothing, is not counted
    and makes [process_file] return 0, although it may be well formed.  A
    file that gives its records is counted even when there is none;
    [process_file] then returns their number, and every record names,
    under [source_file], the file it came from. *)
Theorem batch_records_in_file_order (self : Csv.XMLExtractor) (files : list XmlFile) :
  Csv.all_records (Csv.process_files self files)
  = (Csv.all_records self ++ flat_map added files)%list
  /\ Csv.files_processed (Csv.process_files self files)
     = (Csv.files_processed self + length (List.filter counted files))%nat
  /\ (forall f,
        Csv.process_file self f
        = match records_of f with
          | Some records =>
              (Csv.MkExtractor (Csv.all_records self ++ records)%list
                               (S (Csv.files_processed self)),
               length records)
          | None => (self, 0%nat)
          end)
  /\ (forall f,
        records_of f = None
        <-> parses f = false
            \/ exists root, file_parse f = Parsed root
                            /\ existsb overlong (visited_links root) = true)
  /\ (forall f records rec,
        records_of f = Some records -> In rec records ->
        rec !! "source_file" = Some (Py.VStr (file_name f))).
Proof.
  destruct (process_files_records files self) as [H1 H2].
  split; [exact H1|]. split; [exact H2|].
  split; [apply process_file_records|].
  split; [apply records_of_None | apply records_of_source].
Qed.

(** A well-formed file with a run time of 4301 digits beside the bare
    sample file and a file that does not parse: only the bare file gives
    records and is counted. *)
Lemma batch_records_in_file_order_witness :
  let broken := MkFile "broken.xml" (ParseError "no element found") in
  let batch := [Sample.bare_file; Sample.overlong_file; broken] in
  parses Sample.overlong_file = true
  /\ records_of Sample.overlong_file = None
  /\ Csv.process_file Csv.init Sample.overlong_file = (Csv.init, 0%nat)
  /\ Csv.process_file Csv.init broken = (Csv.init, 0%nat)
  /\ Csv.files_processed (Csv.process_files Csv.init batch) = 1%nat
  /\ length (Csv.all_records (Csv.process_files Csv.init batch)) = 1%nat
  /\ List.Forall (fun rec => rec !! "source_file" = Some (Py.VStr "bare.xml"))
                 (Csv.all_records (Csv.process_files Csv.init batch)).
Proof.
  cbv zeta.
  destruct (batch_records_in_file_order Csv.init
              [Sample.bare_file; Sample.overlong_file;
               MkFile "broken.xml" (ParseError "no element found")])
    as (Hall & Hcount & Hfile & Hnone & Hsource).
  assert (Hlong : records_of Sample.overlong_file = None).
  { apply Hnone. right. exists (Sample.overlong_scenario Sample.bare).
    split; [reflexivity | vm_compute; reflexivity]. }
  assert (Hbroken : records_of (MkFile "broken.xml" (ParseError "no element found"))
                    = None).
  { apply Hnone. left. reflexivity. }
  assert (Hlen : length (added Sample.bare_file) = 1%nat) by (vm_compute; reflexivity).
  assert (Hl : added Sample.overlong_file = []) by (unfold added; now rewrite Hlong).
  assert (Hb : added (MkFile "broken.xml" (ParseError "no element found")) = [])
    by reflexivity.
  split; [reflexivity|]. split; [exact Hlong|].
  split; [now rewrite Hfile, Hlong|]. split; [now rewrite Hfile, Hbroken|].
  split; [|split].
  - rewrite Hcount. unfold counted. cbn [List.filter]. rewrite Hlong, Hbroken.
    destruct (records_of Sample.bare_file) eqn:Hbare; [reflexivity|].
    unfold added in Hlen. rewrite Hbare in Hlen. discriminate Hlen.
  - rewrite Hall. cbn [flat_map]. rewrite Hl, Hb.
    cbn [app Csv.all_records Csv.init]. rewrite app_nil_r. exact Hlen.
  - rewrite Hall. cbn [flat_map]. rewrite Hl, Hb.
    cbn [app Csv.all_records Csv.init]. rewrite app_nil_r.
    apply List.Forall_forall. intros rec Hin.
    unfold added in Hin.
    destruct (records_of Sample.bare_file) as [records|] eqn:Hbare; [|contradiction].
    exact (Hsource Sample.bare_file records rec Hbare Hin).
Defined.

End CsvBatch.

(** ** The column order of the output table *)

Section ColumnOrder.

Lemma str_in_In (x : string) (l : list string) :
  Py.str_in x l = true <-> In x l.
Proof.
  unfold Py.str_in. rewrite existsb_exists. split.
  - intros (y & Hy & Heq). apply String.eqb_eq in Heq. now subst.
  - intros Hx. exists x. split; [exact Hx | apply String.eqb_refl].
Qed.

Lemma str_in_not_In (x : string) (l : list string) :
  Py.str_in x l = false <-> ~ In x l.
Proof.
  rewrite <- str_in_In. destruct (Py.str_in x l); split; intros H;
    try discriminate; try reflexivity; try (intros ?; discriminate).
  now contradiction H.
Qed.

Lemma filter_sublist {A : Type} (f : A -> bool) (l : list A) :
  sublist (List.filter f l) l.
Proof.
  induction l as [|x l IH]; cbn [List.filter]; [constructor|].
  destruct (f x); now constructor.
Qed.

Lemma priority_cols_NoDup : List.NoDup Csv.priority_cols.
Proof.
  unfold Csv.priority_cols.
  repeat (constructor; [simpl; intuition discriminate|]). constructor.
Qed.

Lemma final_cols_In (columns : list string) (c : string) :
  In c (Csv.final_cols columns) <-> In c columns.
Proof.
  unfold Csv.final_cols, Csv.other_cols.
  rewrite in_app_iff, !filter_In, str_in_In, Bool.negb_true_iff, str_in_not_In.
  destruct (in_dec string_dec c Csv.priority_cols); tauto.
Qed.

(** X13.  The reordering of the columns in [run] loses no column and
    invents none: when the columns of the table are pairwise distinct,
    [final_cols] is a rearrangement of them.  It lists first the priority
    columns that the table has, in the order of [priority_cols], and then
    the remaining columns in the order in which the table has them. *)
Theorem final_cols_rearranges (columns : list string) :
  List.NoDup columns ->
  Permutation (Csv.final_cols columns) columns
  /\ List.NoDup (Csv.final_cols columns)
  /\ length (Csv.final_cols columns) = length columns
  /\ exists first rest,
       Csv.final_cols columns = (first ++ rest)%list
       /\ sublist first Csv.priority_cols
       /\ sublist rest columns
       /\ List.Forall (fun c => In c Csv.priority_cols) first
       /\ List.Forall (fun c => ~ In c Csv.priority_cols) rest.
Proof.
  intros Hnd.
  assert (Hnd' : List.NoDup (Csv.final_cols columns)).
  { unfold Csv.final_cols, Csv.other_cols.
    apply List.NoDup_app.
    - apply List.NoDup_filter, priority_cols_NoDup.
    - now apply List.NoDup_filter.
    - intros c Hc Hc'.
      apply filter_In in Hc as [Hc _]. apply filter_In in Hc' as [_ Hc'].
      apply Bool.negb_true_iff, str_in_not_In in Hc'. contradiction. }
  assert (Hperm : Permutation (Csv.final_cols columns) columns).
  { apply Permutation.NoDup_Permutation; [exact Hnd' | exact Hnd |].
    intros c. apply final_cols_In. }
  split; [exact Hperm|]. split; [exact Hnd'|].
  split; [now apply Permutation_length|].
  exists (List.filter (fun c => Py.str_in c columns) Csv.priority_cols),
         (Csv.other_cols columns).
  split; [reflexivity|]. split; [|split; [|split]].
  - apply filter_sublist.
  - apply filter_sublist.
  - apply List.Forall_forall. intros c Hc. now apply filter_In in Hc.
  - apply List.Forall_forall. intros c Hc. apply filter_In in Hc as [_ Hc].
    now apply Bool.negb_true_iff, str_in_not_In in Hc.
Qed.

Lemma final_cols_rearranges_witness :
  List.NoDup ["extra"; "to_stop_id"; "source_file"]
  /\ Csv.final_cols ["extra"; "to_stop_id"; "source_file"]
     = ["source_file"; "to_stop_id"; "extra"]
  /\ Permutation (Csv.final_cols ["extra"; "to_stop_id"; "source_file"])
                 ["extra"; "to_stop_id"; "source_file"].
Proof.
  assert (Hnd : List.NoDup ["extra"; "to_stop_id"; "source_file"]).
  { repeat (constructor; [simpl; intuition discriminate|]). constructor. }
  split; [exact Hnd|]. split; [vm_compute; reflexivity|].
  apply (final_cols_rearranges _ Hnd).
Defined.

End ColumnOrder.

(** ** Text is stripped *)

Section StrippedText.

Import Entry.

Lemma lstrip_chars_split (l : list ascii) :
  exists spaces, l = (spaces ++ Py.lstrip_chars l)%list
                 /\ forallb Py.isspace spaces = true.
Proof.
  induction l as [|c l (spaces & Heq & Hsp)]; [now exists []|].
  cbn [Py.lstrip_chars]. destruct (Py.isspace c) eqn:Hc.
  - exists (c :: spaces). cbn. rewrite Hc, Hsp. now rewrite <- Heq.
  - now exists [].
Qed.

Lemma lstrip_chars_head (l : list ascii) :
  match Py.lstrip_chars l with
  | [] => True
  | c :: _ => Py.isspace c = false
  end.
Proof.
  induction l as [|c l IH]; [exact I|].
  cbn [Py.lstrip_chars]. destruct (Py.isspace c) eqn:Hc; [exact IH | exact Hc].
Qed.

Lemma lstrip_chars_spaces (l : list ascii) :
  forallb Py.isspace l = true -> Py.lstrip_chars l = [].
Proof.
  induction l as [|c l IH]; [reflexivity|].
  cbn. destruct (Py.isspace c); [exact IH | discriminate].
Qed.

Lemma lstrip_chars_fixed (l : list ascii) :
  match l with [] => True | c :: _ => Py.isspace c = false end ->
  Py.lstrip_chars l = l.
Proof.
  destruct l as [|c l]; [reflexivity|]. cbn. now intros ->.
Qed.

(** The characters that [strip] leaves. *)
Lemma strip_chars (s : string) :
  match list_ascii_of_string (Py.strip s) with
  | [] => True
  | c :: l => Py.isspace c = false /\ Py.isspace (List.last l c) = false
  end.
Proof.
  unfold Py.strip. rewrite list_ascii_of_string_of_list_ascii.
  pose proof (lstrip_chars_head (list_ascii_of_string s)) as Hhead.
  set (l1 := Py.lstrip_chars (list_ascii_of_string s)) in *.
  pose proof (lstrip_chars_head (rev l1)) as Hlast.
  destruct (lstrip_chars_split (rev l1)) as (spaces & Heq & _).
  set (l2 := Py.lstrip_chars (rev l1)) in *.
  assert (Hl1 : l1 = (rev l2 ++ rev spaces)%list).
  { rewrite <- rev_app_distr, <- Heq. now rewrite rev_involutive. }
  destruct l2 as [|c l2]; [exact I|].
  cbn [rev] in *.
  destruct (rev l2 ++ [c])%list as [|d m] eqn:Hrev.
  { now destruct (rev l2). }
  rewrite Hl1 in Hhead. cbn in Hhead. split; [exact Hhead|].
  assert (Hm : List.last (d :: m) d = c).
  { rewrite <- Hrev. apply last_last. }
  destruct m as [|e m]; [exact (eq_ind_r (fun x => Py.isspace x = false) Hlast Hm)|].
  cbn [List.last] in Hm. cbn [List.last]. now rewrite Hm.
Qed.

Lemma strip_trimmed (s : string) : trimmed (Py.strip s).
Proof. exact (strip_chars s). Qed.

Lemma strip_spaces (s : string) :
  forallb Py.isspace (list_ascii_of_string s) = true -> Py.strip s = "".
Proof.
  intros Hs. unfold Py.strip.
  rewrite (lstrip_chars_spaces (list_ascii_of_string s)) by exact Hs.
  reflexivity.
Qed.

Lemma strip_fixed (s : string) :
  match list_ascii_of_string s with
  | [] => True
  | c :: l => Py.isspace c = false /\ Py.isspace (List.last l c) = false
  end ->
  Py.strip s = s.
Proof.
  intros Hs. unfold Py.strip.
  destruct (list_ascii_of_string s) as [|c l] eqn:Hl.
  - cbn. apply (f_equal string_of_list_ascii) in Hl.
    now rewrite string_of_list_ascii_of_string in Hl.
  - destruct Hs as [Hc Hlast].
    rewrite (lstrip_chars_fixed (c :: l)) by exact Hc.
    rewrite lstrip_chars_fixed, rev_involutive.
    + rewrite <- Hl. apply string_of_list_ascii_of_string.
    + destruct (rev (c :: l)) as [|d m] eqn:Hrev; [exact I|].
      apply (f_equal (@rev ascii)) in Hrev. rewrite rev_involutive in Hrev.
      cbn [rev] in Hrev.
      assert (Hd : List.last (c :: l) c = d) by (rewrite Hrev; apply last_last).
      destruct l as [|e l]; [now rewrite <- Hd|].
      cbn [List.last] in Hd, Hlast. now rewrite <- Hd.
Qed.

(** X14.  Every text that the two extractors read from an element has
    no whitespace at either end: [safe_get_text] and [get_text] return
    the stripped text of the element, and the empty string when the
    element is missing, has no text or has only whitespace as text;
    stripping a second time changes nothing.  Whitespace is what
    [str.strip] removes among the characters below 256, the no-break
    space and NEL included. *)
Theorem extracted_text_is_stripped :
  (forall self element p, trimmed (Bus.safe_get_text self element p))
  /\ (forall element, trimmed (Csv.get_text element))
  /\ (forall self element p,
        Py.strip (Bus.safe_get_text self element p) = Bus.safe_get_text self element p)
  /\ (forall element, Py.strip (Csv.get_text element) = Csv.get_text element)
  /\ (forall element txt,
        ET.text element = Some txt ->
        forallb Py.isspace (list_ascii_of_string txt) = true ->
        Csv.get_text element = ""
        /\ forall self parent p,
             ET.find parent p = Some element ->
             Bus.safe_get_text self (Some parent) p = "").
Proof.
  assert (Hbus : forall self element p, trimmed (Bus.safe_get_text self element p)).
  { intros self [e|] p; unfold Bus.safe_get_text; [|exact I].
    destruct (ET.find e p) as [found|]; [|exact I].
    destruct (ET.text found) as [txt|]; [|exact I].
    destruct (Py.str_truthy txt); [apply strip_trimmed | exact I]. }
  assert (Hcsv : forall element, trimmed (Csv.get_text element)).
  { intros e. unfold Csv.get_text.
    destruct (ET.text e) as [txt|]; [|exact I].
    destruct (Py.str_truthy txt); [apply strip_trimmed | exact I]. }
  split; [exact Hbus|]. split; [exact Hcsv|].
  split; [|split].
  - intros self element p. apply strip_fixed, Hbus.
  - intros element. apply strip_fixed, Hcsv.
  - intros element txt Htxt Hsp. split.
    + unfold Csv.get_text. rewrite Htxt.
      destruct (Py.str_truthy txt); [now apply strip_spaces | reflexivity].
    + intros self parent p Hfind. unfold Bus.safe_get_text.
      rewrite Hfind, Htxt.
      destruct (Py.str_truthy txt); [now apply strip_spaces | reflexivity].
Qed.

(** A text made of a no-break space, a NEL and a space. *)
Lemma extracted_text_is_stripped_witness :
  Csv.get_text (Sample.leaf "CommonName" Sample.blank) = ""
  /\ Bus.safe_get_text Bus.init
       (Some (Sample.node "Stop" [Sample.leaf "CommonName" Sample.blank]))
       (ET.Child "CommonName") = "".
Proof.
  destruct extracted_text_is_stripped as (_ & _ & _ & _ & H).
  destruct (H (Sample.leaf "CommonName" Sample.blank) Sample.blank eq_refl eq_refl)
    as [Hcsv Hbus].
  split; [exact Hcsv|]. apply Hbus. reflexivity.
Defined.

End StrippedText.

(** ** The segments of one document *)

Section SegmentsOfADocument.

Import DurationSpec.

(** X15.  The segments that [BusDataExtractor] returns for a document
    all name the file under [source_file]; the run time of each in
    seconds is the permissive [parse_duration] of its own raw run time,
    hence never negative, and 0 for a link without run time; any two
    segments of the document carry the same line name, operator name,
    service origin, service destination and service code; and
    [segments_found] is the number of segments returned. *)
Theorem segments_share_document_context (self : Bus.Extractor) (name : string)
    (root : ET.Element) :
  let r := snd (Bus.process_single_file self (MkFile name (Parsed root))) in
  Bus.segments_found r = length (Bus.data r)
  /\ (forall seg, In seg (Bus.data r) ->
        Segment.source_file seg = name
        /\ Segment.runtime_seconds seg
           = Bus.parse_duration (Py.VStr (Segment.runtime_raw seg))
        /\ 0 <= Segment.runtime_seconds seg
        /\ (Segment.runtime_raw seg = "" -> Segment.runtime_seconds seg = 0))
  /\ (forall seg1 seg2, In seg1 (Bus.data r) -> In seg2 (Bus.data r) ->
        Segment.line_name seg1 = Segment.line_name seg2
        /\ Segment.operator_name seg1 = Segment.operator_name seg2
        /\ Segment.service_origin seg1 = Segment.service_origin seg2
        /\ Segment.service_destination seg1 = Segment.service_destination seg2
        /\ Segment.service_code seg1 = Segment.service_code seg2).
Proof.
  intros r.
  destruct (processed_data self name root) as [Hdata _]. fold r in Hdata.
  split; [|split].
  - subst r. rewrite process_single_file_parsed. reflexivity.
  - intros seg Hin. rewrite Hdata in Hin.
    apply extract_timing_links_In in Hin as (section & link & _ & _ & ->).
    cbn [Bus.make_segment Segment.source_file Segment.runtime_seconds
         Segment.runtime_raw].
    repeat split.
    + apply parse_duration_nonneg.
    + intros ->. reflexivity.
  - intros seg1 seg2 H1 H2. rewrite Hdata in H1, H2.
    apply extract_timing_links_In in H1 as (s1 & l1 & _ & _ & ->).
    apply extract_timing_links_In in H2 as (s2 & l2 & _ & _ & ->).
    repeat split; reflexivity.
Qed.

Lemma segments_share_document_context_witness :
  length (Bus.data (snd (Bus.process_single_file Bus.init Sample.bare_file))) = 1%nat
  /\ List.Forall
       (fun seg => Segment.source_file seg = "bare.xml"
                   /\ Segment.runtime_seconds seg = 90)
       (Bus.data (snd (Bus.process_single_file Bus.init Sample.bare_file))).
Proof.
  split; [vm_compute; reflexivity|].
  apply List.Forall_forall. intros seg Hin.
  destruct (segments_share_document_context Bus.init "bare.xml"
              (Sample.scenario Sample.bare)) as (_ & H & _).
  destruct (H seg Hin) as (Hsrc & Hsecs & _).
  split; [exact Hsrc|].
  destruct Hin as [<- | []]. vm_compute. reflexivity.
Defined.

End SegmentsOfADocument.
